(** * Synchronised audio playback: the shared model and the follower's
      drift corrector

    A shallow embedding of [src/model.js] (class [SyncedAudioModel]) and of
    the audio half of [src/conductor.js] (classes [AudioView] and
    [SyncingAudioView]), with the properties of the playback state store, of
    the guarded seek and of the drift-correction pass.

    Numbers.  JavaScript numbers are modelled as exact rationals ([Q]):
    positions in seconds, session times and differences in milliseconds.
    Values produced by [Math.round] and by [Date.now] are integers ([Z]).
    Rounding error of IEEE doubles, [NaN] and the infinities are outside the
    model.  A field that holds [null] or is deleted/undefined is an [option].

    Effects.  Every method is a function from the receiver's state to its new
    state and the list of observable calls it made, inside [option]: [None]
    stands for a call that does not return (an uncaught exception, or the
    wrapping loop of [wrappedTime] running forever). *)

From Stdlib Require Import ZArith QArith Qround Qabs Qminmax.
From Stdlib Require Import Lia Lqa List Bool String.
Import ListNotations.

Open Scope Q_scope.

(** ** JavaScript arithmetic helpers *)

(** [a < b] on numbers. *)
Definition Qlt_bool (a b : Q) : bool := negb (Qle_bool b a).

(** [Math.round]: the nearest integer, ties towards plus infinity. *)
Definition Math_round (x : Q) : Z := Qfloor (x + (1 # 2)).

(** [Math.sign] and [Math.abs] on the integers the corrector handles. *)
Definition Math_sign (z : Z) : Z := Z.sgn z.
Definition Math_abs (z : Z) : Z := Z.abs z.

(** [ToNumber] of a number-or-null: [null] coerces to [0]. *)
Definition toNumber (v : option Q) : Q :=
  match v with Some q => q | None => 0 end.

(** [x || 0] for a time stamp that may have been deleted. *)
Definition orZero (v : option Z) : Z :=
  match v with Some z => z | None => 0%Z end.

(** [a === b] on number-or-null fields. *)
Definition strictEq (a b : option Q) : bool :=
  match a, b with
  | None, None => true
  | Some x, Some y => Qeq_bool x y
  | _, _ => false
  end.

(** ** A small monad for calls that may not return, with their trace *)

Definition M (E S : Type) : Type := option (S * list E).

Definition ret {E S : Type} (s : S) : M E S := Some (s, []).

Definition emit {E S : Type} (s : S) (es : list E) : M E S := Some (s, es).

Definition bind {E S T : Type} (m : M E S) (k : S -> M E T) : M E T :=
  match m with
  | None => None
  | Some (s, es) =>
      match k s with
      | None => None
      | Some (t, es') => Some (t, es ++ es')
      end
  end.

Notation "x <- m ;; k" := (bind m (fun x => k))
  (at level 61, m at next level, right associativity).

(** ** [AudioView]: the interface over an HTML audio element *)

Module AudioView.

(** The element's [currentTime], [playbackRate] and [volume] attributes are
    kept with the view's own fields: [currentTime] is the position last
    assigned or, when a correction pass starts, the position the element
    reports.  The element's own [play()] and [pause()] are requests to the
    browser; they change none of these. *)
Record t : Type := mk {
  duration : Q;
  isPlaying : bool;
  isBlocked : bool;
  currentTime : Q;
  playbackRate : Q;
  volume : Q
}.

Definition set_currentTime (q : Q) (a : t) : t :=
  mk (duration a) (isPlaying a) (isBlocked a) q (playbackRate a) (volume a).
Definition set_playbackRate (q : Q) (a : t) : t :=
  mk (duration a) (isPlaying a) (isBlocked a) (currentTime a) q (volume a).
Definition set_volume (q : Q) (a : t) : t :=
  mk (duration a) (isPlaying a) (isBlocked a) (currentTime a) (playbackRate a) q.
Definition set_flags (playing blocked : bool) (a : t) : t :=
  mk (duration a) playing blocked (currentTime a) (playbackRate a) (volume a).

(** [if (this.duration)]: a duration of [0] is falsy. *)
Definition truthy (d : Q) : bool := negb (Qeq_bool d 0).

(** [while (audioTime > this.duration) audioTime -= this.duration], with
    [fuel] bounding the number of iterations. *)
Fixpoint wrap_loop (fuel : nat) (d audioTime : Q) : option Q :=
  if Qlt_bool d audioTime then
    match fuel with
    | O => None
    | S f => wrap_loop f d (audioTime - d)
    end
  else Some audioTime.

(** As many iterations as the loop can take when it stops at all. *)
Definition wrap_fuel (d audioTime : Q) : nat :=
  Z.to_nat (Qceiling (audioTime / d)).

Definition wrappedTime (a : t) (audioTime : Q) (guarded : bool) : option Q :=
  if truthy (duration a) then
    match wrap_loop (wrap_fuel (duration a) audioTime) (duration a) audioTime with
    | None => None
    | Some w =>
        Some (if guarded then Qmin (duration a - (1 # 10)) w else w)
    end
  else Some audioTime.

(** [play(audioTime)] up to its [await]: the seek, the flags, the reduced
    volume and the request to the element. *)
Definition play (audioTime : Q) (a : t) : option t :=
  match wrappedTime a audioTime true with
  | None => None
  | Some w =>
      Some (set_volume (2 # 10) (set_flags true true (set_currentTime w a)))
  end.

(** The continuation of [play] once the element's promise has settled:
    [started] tells whether the browser let playback start. *)
Definition playSettled (started : bool) (a : t) : t * bool :=
  let a' := if started then set_flags (isPlaying a) false a else a in
  (a', negb (isBlocked a')).

(** [setStatic(audioTime)]; [None] is an omitted argument. *)
Definition setStatic (audioTime : option Q) (a : t) : option t :=
  match audioTime with
  | None => Some a
  | Some p =>
      match wrappedTime a p true with
      | None => None
      | Some w => Some (set_currentTime w a)
      end
  end.

Definition pause (audioTime : option Q) (a : t) : option t :=
  setStatic audioTime (set_flags false false a).

End AudioView.

(** ** The play-state triple carried by [set-play-state] and
       [play-state-changed] *)

Module PlayState.

Record t : Type := mk {
  isPlaying : bool;
  startOffset : option Q;   (* session time in ms; [None] is null *)
  pausedTime : option Q     (* media position in s; [None] is null *)
}.

(** [Object.keys(data).every(key => data[key] === latest[key])] for a
    payload with the three keys the model publishes. *)
Definition same (data latest : t) : bool :=
  Bool.eqb (isPlaying data) (isPlaying latest)
  && strictEq (startOffset data) (startOffset latest)
  && strictEq (pausedTime data) (pausedTime latest).

End PlayState.

(** ** [SyncedAudioModel]: the replicated playback state ([src/model.js]) *)

Module SyncedAudioModel.

Definition Asset : Type := string.

(** What the model publishes in scope ['model']. *)
Inductive Published : Type :=
| AssetsChanged
| PlayStateChanged (data : PlayState.t)
| StartOffsetChanged (startOffset : Q).

(** [isPlaying] is undefined until the first [setAssets]; the model only
    ever tests it with [!], which undefined and [false] answer alike, so it
    starts as [false] here.  [statusTick] and [handleReport] do not touch
    the play state and are left out. *)
Record t : Type := mk {
  isPlaying : bool;
  startOffset : option Q;
  pausedTime : option Q;
  audioAsset : option Asset;
  videoAsset : option Asset
}.

Definition init : t := mk false None None None None.

Definition setAssets (audio video : Asset) (m : t) : t * list Published :=
  (mk false None (Some 0) (Some audio) (Some video), [AssetsChanged]).

Definition setPlayState (data : PlayState.t) (m : t) : t * list Published :=
  (mk (PlayState.isPlaying data) (PlayState.startOffset data)
      (PlayState.pausedTime data) (audioAsset m) (videoAsset m),
   [PlayStateChanged
      (PlayState.mk (PlayState.isPlaying data) (PlayState.startOffset data)
                    (PlayState.pausedTime data))]).

Definition setStartOffset (value : Q) (m : t) : t * list Published :=
  if negb (isPlaying m) then (m, [])
  else (mk (isPlaying m) (Some value) (pausedTime m) (audioAsset m) (videoAsset m),
        [StartOffsetChanged value]).

End SyncedAudioModel.

(** ** [SyncingAudioView]: the follower ([src/conductor.js]) *)

Module SyncingAudioView.

(** The calls a handler makes on the device, the icons and the report
    channel, in order. *)
Inductive Call : Type :=
| Play (audioTime : Q)              (* audioView.play(audioTime) *)
| Pause (audioTime : option Q)      (* audioView.pause(audioTime) *)
| Seek (audioTime : Q)              (* audio.currentTime = ..., a jump *)
| SetRate (playbackRate : Q)        (* audio.playbackRate = ... *)
| SetVolume (volume : Q)            (* audio.volume = ... *)
| IconVisible (iconName : string) (visible : bool)
| Report (audioDiffMSSmoothed jumped newBoost : option Z).

(** The fields the handlers read.  [lastTimingCheck], [jumpIfNeeded] and
    the latency fields of the report are written but never read by this
    class and are left out, as is the drawing of the play bar. *)
Record t : Type := mk {
  audioView : option AudioView.t;
  latestPlayState : option PlayState.t;
  waitingForSync : bool;
  smoothedDiff : option Z;
  lastJump : option Z;
  lastRateAdjust : option Z;
  playbackBoost : Z
}.

Definition set_audioView (a : option AudioView.t) (v : t) : t :=
  mk a (latestPlayState v) (waitingForSync v) (smoothedDiff v) (lastJump v)
     (lastRateAdjust v) (playbackBoost v).
Definition set_latestPlayState (p : option PlayState.t) (v : t) : t :=
  mk (audioView v) p (waitingForSync v) (smoothedDiff v) (lastJump v)
     (lastRateAdjust v) (playbackBoost v).
Definition set_waitingForSync (b : bool) (v : t) : t :=
  mk (audioView v) (latestPlayState v) b (smoothedDiff v) (lastJump v)
     (lastRateAdjust v) (playbackBoost v).
Definition set_smoothedDiff (s : option Z) (v : t) : t :=
  mk (audioView v) (latestPlayState v) (waitingForSync v) s (lastJump v)
     (lastRateAdjust v) (playbackBoost v).
Definition set_lastJump (j : option Z) (v : t) : t :=
  mk (audioView v) (latestPlayState v) (waitingForSync v) (smoothedDiff v) j
     (lastRateAdjust v) (playbackBoost v).
Definition set_lastRateAdjust (r : option Z) (v : t) : t :=
  mk (audioView v) (latestPlayState v) (waitingForSync v) (smoothedDiff v)
     (lastJump v) r (playbackBoost v).
Definition set_playbackBoost (b : Z) (v : t) : t :=
  mk (audioView v) (latestPlayState v) (waitingForSync v) (smoothedDiff v)
     (lastJump v) (lastRateAdjust v) b.

(** The constructor, before any asset is known. *)
Definition init : t := mk None None false None None None 0%Z.

(** [1 + this.playbackBoost * 0.01] *)
Definition rateOf (boost : Z) : Q := 1 + inject_Z boost * (1 # 100).

(** [calculateAudioTime]: reading [startOffset] off an undefined
    [latestPlayState] throws. *)
Definition calculateAudioTime (sessionNow : Q) (v : t) : option Q :=
  match latestPlayState v with
  | None => None
  | Some ps => Some ((sessionNow - toNumber (PlayState.startOffset ps)) / 1000)
  end.

(** [applyPlayState], with [Date.now()] and [extrapolatedNow()] as read at
    the call.  [randomizeStart] is [false], so [randomOffset] is [0]. *)
Definition applyPlayState (now : Z) (sessionNow : Q) (v : t) : M Call t :=
  match audioView v with
  | None => ret v
  | Some av =>
      if waitingForSync v then ret v
      else
        match latestPlayState v with
        | None => None
        | Some ps =>
            if negb (PlayState.isPlaying ps) then
              let arg := Some (toNumber (PlayState.pausedTime ps)) in
              match AudioView.pause arg av with
              | None => None
              | Some av' =>
                  emit (set_audioView (Some av') v)
                       [IconVisible "play" true;
                        IconVisible "enableSound" false;
                        Pause arg]
              end
            else
              let v1 := set_smoothedDiff None
                          (set_lastRateAdjust None (set_lastJump None v)) in
              let av1 := AudioView.set_playbackRate (rateOf (playbackBoost v1)) av in
              let v2 := set_lastRateAdjust (Some now) v1 in
              let randomOffset := 0 in
              match calculateAudioTime sessionNow v2 with
              | None => None
              | Some audioTime =>
                  let arg := audioTime + (1 # 10) + randomOffset in
                  match AudioView.play arg av1 with
                  | None => None
                  | Some av2 =>
                      emit (set_audioView (Some av2) v2)
                           [IconVisible "play" false;
                            SetRate (rateOf (playbackBoost v1));
                            Play arg]
                  end
              end
        end
  end.

(** The [then] of the [play] promise, for the device the view still
    holds. *)
Definition playSettled (started : bool) (v : t) : M Call t :=
  match audioView v with
  | None => ret v
  | Some av =>
      let '(av', playStarted) := AudioView.playSettled started av in
      emit (set_audioView (Some av') v)
           [IconVisible "enableSound" (negb playStarted)]
  end.

Definition disposeOfAudio (v : t) : M Call t :=
  match audioView v with
  | None => ret v
  | Some av =>
      match AudioView.pause None av with
      | None => None
      | Some _ => emit (set_audioView None v) [Pause None]
      end
  end.

(** [assetsChanged] up to its first [await]. *)
Definition assetsChanged (isSynced : bool) (m : SyncedAudioModel.t) (v : t)
  : M Call t :=
  v1 <- disposeOfAudio v ;;
  ret (set_latestPlayState
         (Some (PlayState.mk (SyncedAudioModel.isPlaying m)
                             (SyncedAudioModel.startOffset m)
                             (SyncedAudioModel.pausedTime m)))
         (set_waitingForSync (negb isSynced) v1)).

(** [assetsChanged] after the load, when it has not been abandoned:
    [audioView] is the freshly loaded device. *)
Definition assetsLoaded (now : Z) (sessionNow : Q) (loaded : AudioView.t)
    (v : t) : M Call t :=
  applyPlayState now sessionNow
    (set_playbackBoost 0 (set_audioView (Some loaded) v)).

Definition playStateChanged (now : Z) (sessionNow : Q) (rawData : PlayState.t)
    (v : t) : M Call t :=
  let data := rawData in
  let heard :=
    match latestPlayState v with
    | Some latest => PlayState.same data latest
    | None => false
    end in
  if heard then ret v
  else applyPlayState now sessionNow (set_latestPlayState (Some data) v).

Definition handleSyncState (now : Z) (sessionNow : Q) (isSynced : bool)
    (v : t) : M Call t :=
  let wasWaiting := waitingForSync v in
  let v1 := set_waitingForSync (negb isSynced) v in
  if wasWaiting && isSynced then applyPlayState now sessionNow v1 else ret v1.

(** *** The periodic correction pass *)

Definition newFactor : Q := 3 # 10.
Definition lostTime : Q := 2 # 10.
Definition CHECK_INTERVAL : Z := 3000.
Definition THRESH_5 : Z := 300.
Definition THRESH_3 : Z := 150.
Definition THRESH_1 : Z := 50.
Definition THRESH_0 : Z := 25.

(** The new value of [audioDiffMSSmoothed] (and of [this.smoothedDiff])
    from the previous [this.smoothedDiff] and the sample. *)
Definition smooth (prev : option Z) (audioDiffMS : Q) : Z :=
  match prev with
  | None => Math_round audioDiffMS
  | Some s => Math_round (newFactor * audioDiffMS + (1 - newFactor) * inject_Z s)
  end.

(** [wantToJump && (now - (this.lastJump || 0) > 10000)] *)
Definition jumpNow (now : Z) (lastJump : option Z) (audioDiffMSSmoothed : Z)
  : bool :=
  (500 <? Math_abs audioDiffMSSmoothed)%Z
  && (10000 <? now - orZero lastJump)%Z.

(** [desiredBoostPercent] *)
Definition desiredBoost (audioDiffMSSmoothed : Z) : Z :=
  let diffAbs := Math_abs audioDiffMSSmoothed in
  let diffSign := Math_sign audioDiffMSSmoothed in
  (- diffSign *
     (if THRESH_5 <? diffAbs then 5
      else if THRESH_3 <? diffAbs then 3
      else if THRESH_1 <? diffAbs then 1 else 0))%Z.

(** [hysteresisBlock] *)
Definition hysteresisBlock (oldBoostPercent audioDiffMSSmoothed : Z) : bool :=
  let diffAbs := Math_abs audioDiffMSSmoothed in
  let diffSign := Math_sign audioDiffMSSmoothed in
  (desiredBoost audioDiffMSSmoothed =? 0)%Z
  && (Math_sign oldBoostPercent =? - diffSign)%Z
  && (THRESH_0 <=? diffAbs)%Z.

(** The body of [if (Math.abs(audioDiff) < this.audioView.duration / 2)]:
    smoothing, then either the jump or the rate check.  It returns the
    view, the device and the report's [audioDiffMSSmoothed], [jumped] and
    [newBoost]. *)
Definition correct (now : Z) (audioTime audioDiff : Q) (v : t)
    (av : AudioView.t)
  : option (t * AudioView.t * list Call * Call) :=
  let audioDiffMS := audioDiff * 1000 in
  let audioDiffMSSmoothed := smooth (smoothedDiff v) audioDiffMS in
  let v1 := set_smoothedDiff (Some audioDiffMSSmoothed) v in
  if jumpNow now (lastJump v1) audioDiffMSSmoothed then
    let v2 := set_smoothedDiff None (set_lastJump (Some now) v1) in
    let target := audioTime - inject_Z audioDiffMSSmoothed / 1000 + lostTime in
    match AudioView.wrappedTime av target true with
    | None => None
    | Some w =>
        Some (v2, AudioView.set_currentTime w av, [Seek w],
              Report (Some audioDiffMSSmoothed)
                     (Some (- audioDiffMSSmoothed)%Z) None)
    end
  else if (CHECK_INTERVAL <=? now - orZero (lastRateAdjust v1))%Z then
    let oldBoostPercent := playbackBoost v1 in
    let desiredBoostPercent := desiredBoost audioDiffMSSmoothed in
    if negb (desiredBoostPercent =? oldBoostPercent)%Z
       && negb (hysteresisBlock oldBoostPercent audioDiffMSSmoothed)
    then
      let v2 := set_playbackBoost desiredBoostPercent v1 in
      let playbackRate := rateOf (playbackBoost v2) in
      Some (set_lastRateAdjust (Some now) v2,
            AudioView.set_playbackRate playbackRate av,
            [SetRate playbackRate],
            Report (Some audioDiffMSSmoothed) None (Some desiredBoostPercent))
    else
      Some (set_lastRateAdjust (Some now) v1, av, [],
            Report (Some audioDiffMSSmoothed) None None)
  else
    Some (v1, av, [], Report (Some audioDiffMSSmoothed) None None).

(** [checkPlaybackTiming], with [Date.now()] and [extrapolatedNow()] as
    read at the call. *)
Definition checkPlaybackTiming (now : Z) (sessionNow : Q) (v : t) : M Call t :=
  match audioView v with
  | None => ret v
  | Some av =>
      if AudioView.isPlaying av && negb (AudioView.isBlocked av) then
        match calculateAudioTime sessionNow v with
        | None => None
        | Some expected =>
            match AudioView.wrappedTime av expected false with
            | None => None
            | Some expectedTime =>
                let audioTime := AudioView.currentTime av in
                let audioDiff := audioTime - expectedTime in
                let corrected :=
                  if Qlt_bool (Qabs audioDiff) (AudioView.duration av / 2)
                  then correct now audioTime audioDiff v av
                  else Some (v, av, [], Report None None None) in
                match corrected with
                | None => None
                | Some (v1, av1, calls, report) =>
                    let av2 := AudioView.set_volume 1 av1 in
                    let v2 := set_audioView (Some av2) v1 in
                    let v3 :=
                      if Qlt_bool (AudioView.duration av - audioTime) (3 # 2)
                      then set_lastJump None v2 else v2 in
                    emit v3 (calls ++ [SetVolume 1; report])
                end
            end
        end
      else ret v
  end.

(** [startOffsetChanged]: the new offset is written into the triple the
    view holds, in place. *)
Definition startOffsetChanged (now : Z) (sessionNow : Q) (startOffset : Q)
    (v : t) : M Call t :=
  match latestPlayState v with
  | None => None
  | Some ps =>
      if PlayState.isPlaying ps then
        checkPlaybackTiming now sessionNow
          (set_latestPlayState
             (Some (PlayState.mk (PlayState.isPlaying ps) (Some startOffset)
                                 (PlayState.pausedTime ps))) v)
      else ret v
  end.

(** [handleUserClick]: a user gesture retries a blocked [play]. *)
Definition handleUserClick (now : Z) (sessionNow : Q) (v : t) : M Call t :=
  match audioView v with
  | Some av =>
      if AudioView.isBlocked av && AudioView.isPlaying av
      then applyPlayState now sessionNow v
      else ret v
  | None => ret v
  end.

End SyncingAudioView.

(** ** [throttle] ([src/conductor.js])

    The closure's [lastTime] and [timeoutForFinal] are the state.  A pending
    timeout is kept as the time it is due (the time of the call plus
    [toWait]) and the argument it will deliver. *)

Module Throttle.

Record t (A : Type) : Type := mk {
  lastTime : Z;
  timeoutForFinal : option (Z * A)
}.

Arguments mk {A} _ _.
Arguments lastTime {A} _.
Arguments timeoutForFinal {A} _.

Definition init {A : Type} : t A := mk 0%Z None.

Definition clearFinal {A : Type} (s : t A) : t A := mk (lastTime s) None.

(** [runFn]: the returned list holds the arguments [fn] is called with. *)
Definition runFn {A : Type} (now : Z) (arg : A) (s : t A) : t A * list A :=
  let s1 := clearFinal s in
  (mk now (timeoutForFinal s1), [arg]).

(** The function [throttle] returns, called at [Date.now() = now]. *)
Definition throttled {A : Type} (delay now : Z) (arg : A) (s : t A)
  : t A * list A :=
  let s1 := clearFinal s in
  let toWait := (delay - (now - lastTime s1))%Z in
  if (toWait <? 0)%Z then runFn now arg s1
  else (mk (lastTime s1) (Some ((now + toWait)%Z, arg)), []).

(** The timer looked at when [Date.now() = now]: [setTimeout] runs its
    callback no earlier than the time asked for. *)
Definition timerFires {A : Type} (now : Z) (s : t A) : t A * list A :=
  match timeoutForFinal s with
  | Some (due, arg) =>
      if (due <=? now)%Z then runFn now arg s else (s, [])
  | None => (s, [])
  end.

End Throttle.

(** ** [TimeBarView]: the scrub bar ([src/conductor.js])

    [rootView] is kept as whether a view is attached; the calls the bar makes
    on it are the trace.  The canvas width is a positive number of pixels: a
    bar without width receives no pointer events.  Drawing is left out. *)

Module TimeBarView.

Inductive Call : Type :=
| HandleTimebar (timeProportion : Q)   (* rootView.handleTimebar(...) *)
| HandleUserClick.                     (* rootView.handleUserClick(evt) *)

Record t : Type := mk {
  rootView : bool;
  dragging : bool;
  lastDragProportion : option Q;
  width : positive
}.

Definition setView (view : bool) (b : t) : t :=
  mk view (dragging b) (lastDragProportion b) (width b).

Definition dragAtOffset (offsetX : Q) (b : t) : t * list Call :=
  let barWidth := inject_Z (Zpos (width b)) in
  let timeProportion := Qmax 0 (Qmin 1 (offsetX / barWidth)) in
  if strictEq (lastDragProportion b) (Some timeProportion) then (b, [])
  else (mk (rootView b) (dragging b) (Some timeProportion) (width b),
        [HandleTimebar timeProportion]).

Definition onPointerDown (offsetX : Q) (b : t) : t * list Call :=
  if negb (rootView b) then (b, [])
  else dragAtOffset offsetX
         (mk (rootView b) true (lastDragProportion b) (width b)).

Definition onPointerUp (b : t) : t * list Call :=
  if negb (rootView b) then (b, [])
  else (mk (rootView b) false (lastDragProportion b) (width b), []).

Definition onPointerMove (offsetX : Q) (b : t) : t * list Call :=
  if negb (rootView b) then (b, [])
  else if negb (dragging b) then (b, [])
  else dragAtOffset offsetX b.

Definition onContainerClick (b : t) : t * list Call :=
  if negb (rootView b) then (b, []) else (b, [HandleUserClick]).

End TimeBarView.

(** ** [VideoView]: the interface over an HTML video element
       ([src/conductor.js]) *)

Module VideoView.

Record t : Type := mk {
  duration : Q;
  isPlaying : bool;
  isBlocked : bool;
  currentTime : Q;
  playbackRate : Q
}.

Definition set_currentTime (q : Q) (a : t) : t :=
  mk (duration a) (isPlaying a) (isBlocked a) q (playbackRate a).
Definition set_playbackRate (q : Q) (a : t) : t :=
  mk (duration a) (isPlaying a) (isBlocked a) (currentTime a) q.
Definition set_isPlaying (b : bool) (a : t) : t :=
  mk (duration a) b (isBlocked a) (currentTime a) (playbackRate a).
Definition set_isBlocked (b : bool) (a : t) : t :=
  mk (duration a) (isPlaying a) b (currentTime a) (playbackRate a).

(** The same loop and guard as [AudioView.wrappedTime]. *)
Definition wrappedTime (a : t) (videoTime : Q) (guarded : bool) : option Q :=
  if AudioView.truthy (duration a) then
    match AudioView.wrap_loop (AudioView.wrap_fuel (duration a) videoTime)
            (duration a) videoTime with
    | None => None
    | Some w =>
        Some (if guarded then Qmin (duration a - (1 # 10)) w else w)
    end
  else Some videoTime.

(** [play(videoTime)] up to its [await]. *)
Definition play (videoTime : Q) (a : t) : option t :=
  match wrappedTime a videoTime true with
  | None => None
  | Some w => Some (set_isPlaying true (set_currentTime w a))
  end.

(** The continuation of [play]: on refusal [isBlocked] takes the value
    [isPlaying] has by then. *)
Definition playSettled (started : bool) (a : t) : t * bool :=
  let a' := if started then set_isBlocked false a
            else set_isBlocked (isPlaying a) a in
  (a', negb (isBlocked a')).

Definition setStatic (videoTime : option Q) (a : t) : option t :=
  match videoTime with
  | None => Some a
  | Some p =>
      match wrappedTime a p true with
      | None => None
      | Some w => Some (set_currentTime w a)
      end
  end.

Definition pause (videoTime : option Q) (a : t) : option t :=
  setStatic videoTime (set_isBlocked false (set_isPlaying false a)).

End VideoView.

(** ** [ConductorView]: the single writer of the play state
       ([src/conductor.js]) *)

Module ConductorView.

(** What the conductor publishes in scope ['conductor'], and its calls on
    the video and the icon. *)
Inductive Call : Type :=
| PublishSetPlayState (data : PlayState.t)
| PublishSetStartOffset (startOffset : Z)
| Play (videoTime : Q)
| Pause (videoTime : option Q)
| SetRate (playbackRate : Q)
| IconVisible (iconName : string) (visible : bool).

(** [lastRateAdjust] is written but never read by this class and is left
    out, as is the drawing of the play bar. *)
Record t : Type := mk {
  videoView : option VideoView.t;
  latestPlayState : option PlayState.t;
  waitingForSync : bool;
  playbackBoost : Z;
  lastTimingCheck : option Q
}.

Definition set_videoView (a : option VideoView.t) (v : t) : t :=
  mk a (latestPlayState v) (waitingForSync v) (playbackBoost v)
     (lastTimingCheck v).
Definition set_latestPlayState (p : option PlayState.t) (v : t) : t :=
  mk (videoView v) p (waitingForSync v) (playbackBoost v) (lastTimingCheck v).
Definition set_waitingForSync (b : bool) (v : t) : t :=
  mk (videoView v) (latestPlayState v) b (playbackBoost v) (lastTimingCheck v).
Definition set_lastTimingCheck (c : option Q) (v : t) : t :=
  mk (videoView v) (latestPlayState v) (waitingForSync v) (playbackBoost v) c.

(** [calculateVideoStartOffset], for the video the caller has checked to be
    there. *)
Definition calculateVideoStartOffset (sessionTime : Q) (vv : VideoView.t) : Z :=
  let videoTime := VideoView.currentTime vv in
  Math_round (sessionTime - 1000 * videoTime).

Definition calculateVideoTime (sessionNow : Q) (v : t) : option Q :=
  match latestPlayState v with
  | None => None
  | Some ps => Some ((sessionNow - toNumber (PlayState.startOffset ps)) / 1000)
  end.

Definition applyPlayState (sessionNow : Q) (v : t) : M Call t :=
  match videoView v with
  | None => ret v
  | Some vv =>
      if waitingForSync v then ret v
      else
        match latestPlayState v with
        | None => None
        | Some ps =>
            if negb (PlayState.isPlaying ps) then
              let arg := Some (toNumber (PlayState.pausedTime ps)) in
              match VideoView.pause arg vv with
              | None => None
              | Some vv' =>
                  emit (set_videoView (Some vv') v)
                       [IconVisible "play" true; Pause arg]
              end
            else
              let rate := 1 + inject_Z (playbackBoost v) * (1 # 100) in
              let vv1 := VideoView.set_playbackRate rate vv in
              match calculateVideoTime sessionNow v with
              | None => None
              | Some videoTime =>
                  let arg := videoTime + (1 # 10) in
                  match VideoView.play arg vv1 with
                  | None => None
                  | Some vv2 =>
                      emit (set_videoView (Some vv2) v)
                           [IconVisible "play" false; SetRate rate; Play arg]
                  end
              end
        end
  end.

(** [playStateChanged(state)]: the local user's play, pause or scrub. *)
Definition playStateChanged (sessionNow : Q) (state : PlayState.t) (v : t)
  : M Call t :=
  let heard :=
    match latestPlayState v with
    | Some latest => PlayState.same state latest
    | None => false
    end in
  if heard then ret v
  else
    r <- emit (set_latestPlayState (Some state) v) [PublishSetPlayState state] ;;
    applyPlayState sessionNow r.

(** [handleUserClick]: toggle between playing and paused. *)
Definition handleUserClick (sessionNow : Q) (v : t) : M Call t :=
  match videoView v with
  | None => ret v
  | Some vv =>
      match latestPlayState v with
      | None => None
      | Some ps =>
          let wantsToPlay := negb (PlayState.isPlaying ps) in
          if wantsToPlay then
            let startOffset :=
              Some (inject_Z (calculateVideoStartOffset sessionNow vv)) in
            playStateChanged sessionNow
              (PlayState.mk wantsToPlay startOffset (Some 0)) v
          else
            match VideoView.pause None vv with
            | None => None
            | Some vv' =>
                let pausedTime :=
                  inject_Z (Math_round (VideoView.currentTime vv' * 100)) / 100 in
                r <- emit (set_videoView (Some vv') v) [Pause None] ;;
                playStateChanged sessionNow
                  (PlayState.mk wantsToPlay None (Some pausedTime)) r
            end
      end
  end.

(** [handleTimebar(proportion)]: scrubbing pauses at the chosen point. *)
Definition handleTimebar (sessionNow : Q) (proportion : Q) (v : t) : M Call t :=
  match videoView v with
  | None => ret v
  | Some vv =>
      let videoTime := VideoView.duration vv * proportion in
      playStateChanged sessionNow (PlayState.mk false None (Some videoTime)) v
  end.

(** [announcePlaybackTiming], with [Date.now()] and [extrapolatedNow()] as
    read at the call. *)
Definition announcePlaybackTiming (now : Z) (sessionNow : Q) (v : t) : M Call t :=
  match videoView v with
  | None => ret v
  | Some vv =>
      let lastCheck := toNumber (lastTimingCheck v) in
      if VideoView.isPlaying vv && negb (VideoView.isBlocked vv)
         && Qle_bool 900 (inject_Z now - lastCheck)
      then
        let v1 := set_lastTimingCheck (Some (inject_Z now)) v in
        match latestPlayState v1 with
        | None => None
        | Some ps =>
            if PlayState.isPlaying ps then
              let currentStartOffset := calculateVideoStartOffset sessionNow vv in
              emit (set_latestPlayState
                      (Some (PlayState.mk (PlayState.isPlaying ps)
                               (Some (inject_Z currentStartOffset))
                               (PlayState.pausedTime ps))) v1)
                   [PublishSetStartOffset currentStartOffset]
            else ret v1
        end
      else ret v
  end.

(** [assetsChanged] after the load, when it has not been abandoned;
    [thisNow] is [this.now()]. *)
Definition assetsLoaded (thisNow sessionNow : Q) (loaded : VideoView.t) (v : t)
  : M Call t :=
  r <- applyPlayState sessionNow
         (mk (Some loaded) (latestPlayState v) (waitingForSync v) 0%Z
             (lastTimingCheck v)) ;;
  ret (set_lastTimingCheck (Some (thisNow + 500)) r).

End ConductorView.

(** ** The subscriptions: who hears what

    [SyncedAudioModel.init] subscribes the model to the conductor's events,
    the constructor of [SyncingAudioView] subscribes the follower to the
    model's. *)

Definition modelHears (c : ConductorView.Call) (m : SyncedAudioModel.t)
  : SyncedAudioModel.t * list SyncedAudioModel.Published :=
  match c with
  | ConductorView.PublishSetPlayState data =>
      SyncedAudioModel.setPlayState data m
  | ConductorView.PublishSetStartOffset startOffset =>
      SyncedAudioModel.setStartOffset (inject_Z startOffset) m
  | _ => (m, [])
  end.

(** The model hearing a list of calls in order. *)
Fixpoint modelHearsAll (cs : list ConductorView.Call) (m : SyncedAudioModel.t)
  : SyncedAudioModel.t * list SyncedAudioModel.Published :=
  match cs with
  | [] => (m, [])
  | c :: rest =>
      let '(m1, p1) := modelHears c m in
      let '(m2, p2) := modelHearsAll rest m1 in
      (m2, p1 ++ p2)
  end.


(** The constructor of [ConductorView] attaches it to the scrub bar: the
    bar's calls on its [rootView] are calls of these methods. *)
Definition conductorHears (sessionNow : Q) (c : TimeBarView.Call)
    (v : ConductorView.t) : M ConductorView.Call ConductorView.t :=
  match c with
  | TimeBarView.HandleTimebar timeProportion =>
      ConductorView.handleTimebar sessionNow timeProportion v
  | TimeBarView.HandleUserClick =>
      ConductorView.handleUserClick sessionNow v
  end.

(** A video seen through the fields [wrappedTime] reads. *)
Definition asAudio (a : VideoView.t) : AudioView.t :=
  AudioView.mk (VideoView.duration a) (VideoView.isPlaying a)
    (VideoView.isBlocked a) (VideoView.currentTime a)
    (VideoView.playbackRate a) 1.


(** The model's play-state triple. *)
Definition modelTriple (m : SyncedAudioModel.t) : PlayState.t :=
  PlayState.mk (SyncedAudioModel.isPlaying m) (SyncedAudioModel.startOffset m)
    (SyncedAudioModel.pausedTime m).


(** The events a follower reacts to: the model's three events, the
    session's [synced] event, a click on the container, and the two
    continuations of its own asynchronous calls (the load of an asset and the
    device's [play]). *)
Inductive FollowerEvent : Type :=
| AssetsChangedEvent (isSynced : bool) (m : SyncedAudioModel.t)
| AssetsLoadedEvent (loaded : AudioView.t)
| PlayStateChangedEvent (data : PlayState.t)
| StartOffsetChangedEvent (startOffset : Q)
| SyncedEvent (isSynced : bool)
| UserClickEvent
| PlaySettledEvent (started : bool).

(** The handler each event is wired to, with the two clocks as read while
    it runs. *)
Definition followerStep (now : Z) (sessionNow : Q) (e : FollowerEvent)
    (v : SyncingAudioView.t) : M SyncingAudioView.Call SyncingAudioView.t :=
  match e with
  | AssetsChangedEvent isSynced m => SyncingAudioView.assetsChanged isSynced m v
  | AssetsLoadedEvent loaded =>
      SyncingAudioView.assetsLoaded now sessionNow loaded v
  | PlayStateChangedEvent data =>
      SyncingAudioView.playStateChanged now sessionNow data v
  | StartOffsetChangedEvent startOffset =>
      SyncingAudioView.startOffsetChanged now sessionNow startOffset v
  | SyncedEvent isSynced =>
      SyncingAudioView.handleSyncState now sessionNow isSynced v
  | UserClickEvent => SyncingAudioView.handleUserClick now sessionNow v
  | PlaySettledEvent started => SyncingAudioView.playSettled started v
  end.

(** A run of events, each with the clocks' readings. *)
Fixpoint followerRun (events : list (Z * Q * FollowerEvent))
    (v : SyncingAudioView.t) : M SyncingAudioView.Call SyncingAudioView.t :=
  match events with
  | [] => ret v
  | (now, sessionNow, e) :: rest =>
      v1 <- followerStep now sessionNow e v ;;
      followerRun rest v1
  end.

(** The boosts the corrector may apply, in percent. *)
Definition boostOk (b : Z) : Prop :=
  In b [-5; -3; -1; 0; 1; 3; 5]%Z.

(** What the conductor publishes. *)
Definition isPublish (c : ConductorView.Call) : bool :=
  match c with
  | ConductorView.PublishSetPlayState _
  | ConductorView.PublishSetStartOffset _ => true
  | _ => false
  end.

(** The conductor's calls to the video's [play] and [pause]. *)
Definition isVideoPlayOrPause (c : ConductorView.Call) : bool :=
  match c with
  | ConductorView.Play _ | ConductorView.Pause _ => true
  | _ => false
  end.

(** The calls a correction pass may make. *)
Definition isAdjustment (c : SyncingAudioView.Call) : bool :=
  match c with
  | SyncingAudioView.Seek _ | SyncingAudioView.SetRate _
  | SyncingAudioView.SetVolume _ | SyncingAudioView.Report _ _ _ => true
  | _ => false
  end.

(** ** Runs of the throttle *)

Inductive ThrottleEvent (A : Type) : Type :=
| Invoke (now : Z) (arg : A)
| Timer (now : Z).

Arguments Invoke {A} _ _.
Arguments Timer {A} _.

(** The calls of [fn] a run of events causes, each with the time it is made
    at. *)
Fixpoint throttleRun {A : Type} (delay : Z) (events : list (ThrottleEvent A))
    (s : Throttle.t A) : Throttle.t A * list (Z * A) :=
  match events with
  | [] => (s, [])
  | e :: rest =>
      let '(s1, now, args) :=
        match e with
        | Invoke now arg =>
            let '(s1, args) := Throttle.throttled delay now arg s in
            (s1, now, args)
        | Timer now =>
            let '(s1, args) := Throttle.timerFires now s in
            (s1, now, args)
        end in
      let '(s2, later) := throttleRun delay rest s1 in
      (s2, map (fun a => (now, a)) args ++ later)
  end.

(** A pending timeout is due [delay] after the last call of [fn]. *)
Definition pendingDue {A : Type} (delay : Z) (s : Throttle.t A) : Prop :=
  forall due arg,
    Throttle.timeoutForFinal s = Some (due, arg) ->
    due = (Throttle.lastTime s + delay)%Z.

(** Each call at least [delay] after the one before, the first one at least
    [delay] after [last]. *)
Fixpoint spaced {A : Type} (delay last : Z) (calls : list (Z * A)) : Prop :=
  match calls with
  | [] => True
  | (now, _) :: rest => (last + delay <= now)%Z /\ spaced delay now rest
  end.

(** ** Scenarios *)

(** Scenario A of the specification, for a follower that is in sync with
    the session: the conductor sets the assets, the follower loads its
    device, then the conductor starts playback with a start offset five
    seconds in the past and the model's [play-state-changed] reaches the
    follower. *)
Definition scenarioA (now : Z) (sessionNow : Q) (loaded : AudioView.t)
  : M SyncingAudioView.Call SyncingAudioView.t :=
  let '(m1, _) :=
    SyncedAudioModel.setAssets "X"%string "X"%string SyncedAudioModel.init in
  v1 <- SyncingAudioView.assetsChanged true m1 SyncingAudioView.init ;;
  v2 <- SyncingAudioView.assetsLoaded now sessionNow loaded v1 ;;
  let '(_, published) :=
    SyncedAudioModel.setPlayState
      (PlayState.mk true (Some (sessionNow - 5000)) None) m1 in
  match published with
  | [SyncedAudioModel.PlayStateChanged data] =>
      SyncingAudioView.playStateChanged now sessionNow data v2
  | _ => ret v2
  end.

(** ** Measures used by the properties *)

(** Two number-or-null fields that [===] cannot tell apart. *)
Definition sameNumber (a b : option Q) : Prop :=
  match a, b with
  | None, None => True
  | Some x, Some y => x == y
  | _, _ => False
  end.

(** The calls to the device's [play] and [pause] in a trace. *)
Definition isPlayOrPause (c : SyncingAudioView.Call) : bool :=
  match c with
  | SyncingAudioView.Play _ | SyncingAudioView.Pause _ => true
  | _ => false
  end.

Definition isSeek (c : SyncingAudioView.Call) : bool :=
  match c with
  | SyncingAudioView.Seek _ => true
  | _ => false
  end.

Definition isSetRate (c : SyncingAudioView.Call) : bool :=
  match c with
  | SyncingAudioView.SetRate _ => true
  | _ => false
  end.

(** [this.smoothedDiff] after [n] accepted samples that all measure the same
    [audioDiffMS], with no jump in between. *)
Fixpoint feed (n : nat) (prev : option Z) (audioDiffMS : Q) : option Z :=
  match n with
  | O => prev
  | S k => feed k (Some (SyncingAudioView.smooth prev audioDiffMS)) audioDiffMS
  end.

(** What the end of a correction pass does with the outcome of the
    correction: the volume goes back to normal, the jump record is deleted
    when the position read is within 1.5 s of the end, and the report is
    published. *)
Definition finishPass (av : AudioView.t)
    (outcome : SyncingAudioView.t * AudioView.t
               * list SyncingAudioView.Call * SyncingAudioView.Call)
  : SyncingAudioView.t * list SyncingAudioView.Call :=
  let '(v1, av1, calls, report) := outcome in
  let v2 := SyncingAudioView.set_audioView
              (Some (AudioView.set_volume 1 av1)) v1 in
  (if Qlt_bool (AudioView.duration av - AudioView.currentTime av) (3 # 2)
   then SyncingAudioView.set_lastJump None v2 else v2,
   calls ++ [SyncingAudioView.SetVolume 1; report]).

(** * Properties *)

(** ** Comparisons *)

Lemma Qlt_bool_iff (a b : Q) : Qlt_bool a b = true <-> a < b.
Proof.
  unfold Qlt_bool. rewrite negb_true_iff.
  split; intro H.
  - apply Qnot_le_lt. intro Hle. apply Qle_bool_iff in Hle. congruence.
  - destruct (Qle_bool b a) eqn:E; trivial.
    apply Qle_bool_iff in E. exfalso. apply (Qlt_not_le _ _ H E).
Qed.

Lemma Qlt_bool_false_iff (a b : Q) : Qlt_bool a b = false <-> b <= a.
Proof.
  unfold Qlt_bool. rewrite negb_false_iff. apply Qle_bool_iff.
Qed.

(** ** Facts about the wrapping loop *)

Section WrapLoop.

Import AudioView.

Variable d : Q.

(** More fuel does not change a result. *)
Lemma wrap_loop_more (n : nat) :
  forall (m : nat) (x w : Q),
    wrap_loop n d x = Some w -> (n <= m)%nat -> wrap_loop m d x = Some w.
Proof.
  induction n as [|n IH]; intros m x w H Hle.
  - simpl in H. destruct m; simpl; destruct (Qlt_bool d x); congruence.
  - destruct m as [|m]; [lia|].
    simpl in *. destruct (Qlt_bool d x); trivial.
    apply IH; [assumption | lia].
Qed.

Lemma wrap_loop_det (n m : nat) (x w w' : Q) :
  wrap_loop n d x = Some w -> wrap_loop m d x = Some w' -> w = w'.
Proof.
  intros Hn Hm.
  destruct (Nat.le_ge_cases n m) as [L|L].
  - rewrite (wrap_loop_more n m x w Hn L) in Hm. congruence.
  - rewrite (wrap_loop_more m n x w' Hm L) in Hn. congruence.
Qed.

(** With a duration that is not positive the loop, once entered, never
    leaves: no amount of fuel gives a result. *)
Lemma wrap_loop_diverges (n : nat) :
  forall x : Q, d <= 0 -> d < x -> wrap_loop n d x = None.
Proof.
  induction n as [|n IH]; intros x Hd Hx; simpl.
  - apply Qlt_bool_iff in Hx. now rewrite Hx.
  - pose proof Hx as Hx'. apply Qlt_bool_iff in Hx'. rewrite Hx'.
    apply IH; [assumption | lra].
Qed.

(** A value at most the duration is returned as it is. *)
Lemma wrap_loop_below (n : nat) (x : Q) :
  x <= d -> wrap_loop n d x = Some x.
Proof.
  intro H. apply Qlt_bool_false_iff in H.
  destruct n; simpl; now rewrite H.
Qed.

Hypothesis d_pos : 0 < d.

Lemma wrap_loop_bounded (n : nat) :
  forall x : Q,
    x <= inject_Z (Z.of_nat n + 1) * d ->
    exists w, wrap_loop n d x = Some w /\ w <= d /\ (0 < x -> 0 < w).
Proof.
  induction n as [|n IH]; intros x Hx.
  - change (inject_Z (Z.of_nat 0 + 1)) with 1 in Hx.
    assert (x <= d) by lra.
    exists x. rewrite wrap_loop_below by assumption.
    repeat split; auto with qarith.
  - simpl wrap_loop. destruct (Qlt_bool d x) eqn:E.
    + apply Qlt_bool_iff in E.
      destruct (IH (x - d)) as (w & Hw & Hle & Hpos).
      * replace (Z.of_nat (S n) + 1)%Z with ((Z.of_nat n + 1) + 1)%Z in Hx by lia.
        rewrite inject_Z_plus in Hx. change (inject_Z 1) with 1 in Hx.
        set (k := inject_Z (Z.of_nat n + 1)) in *. lra.
      * exists w. repeat split; trivial. intros _. apply Hpos. lra.
    + apply Qlt_bool_false_iff in E.
      exists x. repeat split; trivial.
Qed.

Lemma wrap_fuel_enough (x : Q) :
  x <= inject_Z (Z.of_nat (wrap_fuel d x) + 1) * d.
Proof.
  unfold wrap_fuel.
  set (c := Qceiling (x / d)).
  assert (Hc : x / d <= inject_Z c) by apply Qle_ceiling.
  assert (Hx : x <= inject_Z c * d).
  { assert (E : x == (x / d) * d) by (field; lra).
    rewrite E at 1. apply Qmult_le_compat_r; lra. }
  assert (Hz : (c <= Z.of_nat (Z.to_nat c) + 1)%Z) by lia.
  apply (Qle_trans _ _ _ Hx).
  apply Qmult_le_compat_r; [|lra].
  rewrite <- Zle_Qle. exact Hz.
Qed.

(** With a positive duration the loop stops within [wrap_fuel] iterations,
    at a value that is at most the duration. *)
Lemma wrap_loop_terminates (x : Q) :
  exists w, wrap_loop (wrap_fuel d x) d x = Some w /\ w <= d /\ (0 < x -> 0 < w).
Proof. apply wrap_loop_bounded, wrap_fuel_enough. Qed.

End WrapLoop.

(** [wrap_fuel] is never too little: whatever some fuel computes, the fuel
    chosen by [wrappedTime] computes too, so that [None] from [wrappedTime]
    is a loop that does not stop. *)
Lemma wrap_fuel_complete (d x w : Q) (n : nat) :
  AudioView.wrap_loop n d x = Some w ->
  AudioView.wrap_loop (AudioView.wrap_fuel d x) d x = Some w.
Proof.
  intro H.
  destruct (Qlt_le_dec 0 d) as [Hd|Hd].
  - destruct (wrap_loop_terminates d Hd x) as (w' & Hw' & _).
    rewrite Hw'. f_equal. eapply wrap_loop_det; eassumption.
  - destruct (Qlt_le_dec d x) as [Hx|Hx].
    + rewrite (wrap_loop_diverges d n x Hd Hx) in H. discriminate.
    + rewrite (wrap_loop_below d n x Hx) in H.
      now rewrite wrap_loop_below.
Qed.

(** ** The playback state store *)

(** C7.  [setStartOffset(value)] does nothing when the model is not playing
    (no field changes, nothing published); when it is playing it replaces
    [startOffset] by the new value, leaves [isPlaying], [pausedTime] and the
    asset fields as they were, and publishes [start-offset-changed] with the
    new value. *)
Theorem setStartOffset_frame (value : Q) (m : SyncedAudioModel.t) :
  (SyncedAudioModel.isPlaying m = false ->
   SyncedAudioModel.setStartOffset value m = (m, []))
  /\
  (SyncedAudioModel.isPlaying m = true ->
   let '(m', published) := SyncedAudioModel.setStartOffset value m in
   SyncedAudioModel.startOffset m' = Some value
   /\ SyncedAudioModel.isPlaying m' = SyncedAudioModel.isPlaying m
   /\ SyncedAudioModel.pausedTime m' = SyncedAudioModel.pausedTime m
   /\ SyncedAudioModel.audioAsset m' = SyncedAudioModel.audioAsset m
   /\ SyncedAudioModel.videoAsset m' = SyncedAudioModel.videoAsset m
   /\ published = [SyncedAudioModel.StartOffsetChanged value]).
Proof.
  unfold SyncedAudioModel.setStartOffset.
  split; intro H; rewrite H; simpl.
  - reflexivity.
  - repeat split; reflexivity.
Qed.

Lemma setStartOffset_frame_witness :
  let paused := SyncedAudioModel.mk false None (Some 0) (Some "X"%string) (Some "X"%string) in
  let playing := SyncedAudioModel.mk true (Some 1000) None (Some "X"%string) (Some "X"%string) in
  SyncedAudioModel.setStartOffset 1234 paused = (paused, [])
  /\ SyncedAudioModel.startOffset
       (fst (SyncedAudioModel.setStartOffset 1234 playing)) = Some 1234.
Proof.
  split.
  - apply (proj1 (setStartOffset_frame 1234
             (SyncedAudioModel.mk false None (Some 0) (Some "X"%string) (Some "X"%string)))).
    reflexivity.
  - apply (proj2 (setStartOffset_frame 1234
             (SyncedAudioModel.mk true (Some 1000) None (Some "X"%string) (Some "X"%string)))).
    reflexivity.
Defined.

(** ** The guarded seek *)

Lemma truthy_pos (d : Q) : 0 < d -> AudioView.truthy d = true.
Proof.
  intro H. unfold AudioView.truthy.
  destruct (Qeq_bool d 0) eqn:E; trivial.
  apply Qeq_bool_iff in E. lra.
Qed.

(** With a positive duration a guarded [wrappedTime] returns, and what it
    returns is at most [duration - 0.1]. *)
Lemma wrappedTime_guarded (a : AudioView.t) (p : Q) :
  0 < AudioView.duration a ->
  exists w, AudioView.wrappedTime a p true = Some w
            /\ w <= AudioView.duration a - (1 # 10).
Proof.
  intro Hd. unfold AudioView.wrappedTime.
  rewrite (truthy_pos _ Hd).
  destruct (wrap_loop_terminates _ Hd p) as (w & Hw & _).
  rewrite Hw. eexists; split; [reflexivity|].
  apply Q.le_min_l.
Qed.

(** A duration that is not negative is enough for [wrappedTime] to return. *)
Lemma wrappedTime_returns (a : AudioView.t) (p : Q) (guarded : bool) :
  0 <= AudioView.duration a ->
  exists w, AudioView.wrappedTime a p guarded = Some w.
Proof.
  intro Hd. unfold AudioView.wrappedTime.
  destruct (AudioView.truthy (AudioView.duration a)) eqn:T; [|eauto].
  assert (Hpos : 0 < AudioView.duration a).
  { unfold AudioView.truthy in T. apply negb_true_iff in T.
    destruct (Qlt_le_dec 0 (AudioView.duration a)) as [L|L]; trivial.
    assert (E : AudioView.duration a == 0) by lra.
    apply Qeq_bool_iff in E. congruence. }
  destruct (wrap_loop_terminates _ Hpos p) as (w & Hw & _).
  rewrite Hw. eauto.
Qed.

(** A position at most the duration is not wrapped, a position at most
    [duration - 0.1] is not clamped either. *)
Lemma wrappedTime_below (a : AudioView.t) (p : Q) (guarded : bool) :
  p <= AudioView.duration a ->
  (guarded = true -> p <= AudioView.duration a - (1 # 10)) ->
  exists w, AudioView.wrappedTime a p guarded = Some w /\ w == p.
Proof.
  intros Hp Hg. unfold AudioView.wrappedTime.
  destruct (AudioView.truthy (AudioView.duration a)).
  - rewrite wrap_loop_below by assumption.
    eexists; split; [reflexivity|].
    destruct guarded; [|reflexivity].
    apply Q.min_r. auto.
  - exists p. split; reflexivity.
Qed.

(** C9.  With a known positive duration every guarded seek position is at
    most [duration - 0.1]: [wrappedTime(p, true)] itself, the position
    [play(p)] and [pause(p)] give the element, and the position a jump of the
    correction pass gives it. *)
Theorem guarded_seek_clamped (a : AudioView.t) (p : Q) :
  0 < AudioView.duration a ->
  (exists w, AudioView.wrappedTime a p true = Some w
             /\ w <= AudioView.duration a - (1 # 10))
  /\ (exists a', AudioView.play p a = Some a'
                 /\ AudioView.currentTime a' <= AudioView.duration a - (1 # 10))
  /\ (exists a', AudioView.pause (Some p) a = Some a'
                 /\ AudioView.currentTime a' <= AudioView.duration a - (1 # 10))
  /\ (forall now audioTime audioDiff v v' a' calls report w,
        SyncingAudioView.correct now audioTime audioDiff v a
          = Some (v', a', calls, report) ->
        In (SyncingAudioView.Seek w) calls ->
        AudioView.currentTime a' = w
        /\ w <= AudioView.duration a - (1 # 10)).
Proof.
  intro Hd.
  destruct (wrappedTime_guarded a p Hd) as (w & Hw & Hle).
  split; [eauto|]. split; [|split].
  - unfold AudioView.play. rewrite Hw. eexists; split; [reflexivity|exact Hle].
  - unfold AudioView.pause, AudioView.setStatic.
    change (AudioView.wrappedTime (AudioView.set_flags false false a) p true)
      with (AudioView.wrappedTime a p true).
    rewrite Hw. eexists; split; [reflexivity|exact Hle].
  - intros now audioTime audioDiff v v' a' calls report w0 Hc Hin.
    unfold SyncingAudioView.correct in Hc.
    destruct (SyncingAudioView.jumpNow _ _ _).
    + match type of Hc with
      | context [AudioView.wrappedTime a ?x true] =>
          destruct (wrappedTime_guarded a x Hd) as (w1 & Hw1 & Hle1)
      end.
      rewrite Hw1 in Hc. injection Hc as <- <- <- <-.
      destruct Hin as [E|[]]. injection E as <-.
      split; [reflexivity|exact Hle1].
    + destruct (_ <=? _)%Z.
      * destruct (_ && _); injection Hc as <- <- <- <-.
        -- destruct Hin as [E|[]]. discriminate.
        -- destruct Hin.
      * injection Hc as <- <- <- <-. destruct Hin.
Qed.

Lemma guarded_seek_clamped_witness :
  let a := AudioView.mk 100 false false 0 1 1 in
  exists w, AudioView.wrappedTime a 250 true = Some w /\ w <= 100 - (1 # 10).
Proof.
  apply (guarded_seek_clamped (AudioView.mk 100 false false 0 1 1) 250).
  reflexivity.
Defined.

(** The value the guard gives in three typical cases: a position past the
    end is wrapped, one in the last tenth of a second is clamped, a negative
    one is kept. *)
Example wrappedTime_examples :
  let a := AudioView.mk 100 false false 0 1 1 in
  AudioView.wrappedTime a 250 true = Some (Qmin (100 - (1 # 10)) (250 - 100 - 100))
  /\ (exists w, AudioView.wrappedTime a (9995 # 100) true = Some w /\ w == 999 # 10)
  /\ (exists w, AudioView.wrappedTime a (-3) true = Some w /\ w == -3).
Proof.
  repeat split; try reflexivity.
  - eexists; split; [vm_compute; reflexivity | reflexivity].
  - eexists; split; [vm_compute; reflexivity | reflexivity].
Qed.

(** ** Applying a play state *)

Section ApplyPlayState.

Import SyncingAudioView.

Variables (now : Z) (sessionNow : Q) (v : t) (av : AudioView.t)
          (ps : PlayState.t).

Hypothesis has_device : audioView v = Some av.
Hypothesis synced : waitingForSync v = false.
Hypothesis latest : latestPlayState v = Some ps.
Hypothesis duration_known : 0 <= AudioView.duration av.

(** Entering the playing state. *)
Lemma applyPlayState_playing :
  PlayState.isPlaying ps = true ->
  let arg := (sessionNow - toNumber (PlayState.startOffset ps)) / 1000
             + (1 # 10) + 0 in
  let rate := rateOf (playbackBoost v) in
  exists w,
    AudioView.wrappedTime av arg true = Some w
    /\ applyPlayState now sessionNow v
       = Some (mk (Some (AudioView.mk (AudioView.duration av) true true w
                                      rate (2 # 10)))
                  (Some ps) false None None (Some now) (playbackBoost v),
               [IconVisible "play" false; SetRate rate; Play arg]).
Proof.
  intros Hp arg rate.
  destruct (wrappedTime_returns av arg true duration_known) as (w & Hw).
  exists w. split; [exact Hw|].
  clear duration_known. subst rate.
  destruct v as [a l wfs sd lj lr pb]; simpl in *. subst a wfs l.
  unfold applyPlayState, calculateAudioTime. simpl. rewrite Hp. simpl.
  unfold AudioView.play.
  change (AudioView.wrappedTime
            (AudioView.set_playbackRate (rateOf pb) av)
            ((sessionNow - toNumber (PlayState.startOffset ps)) / 1000
             + (1 # 10) + 0) true)
    with (AudioView.wrappedTime av arg true).
  rewrite Hw. reflexivity.
Qed.

(** Entering the paused state. *)
Lemma applyPlayState_paused :
  PlayState.isPlaying ps = false ->
  let arg := toNumber (PlayState.pausedTime ps) in
  exists w,
    AudioView.wrappedTime av arg true = Some w
    /\ applyPlayState now sessionNow v
       = Some (mk (Some (AudioView.mk (AudioView.duration av) false false w
                                      (AudioView.playbackRate av)
                                      (AudioView.volume av)))
                  (Some ps) false (smoothedDiff v) (lastJump v)
                  (lastRateAdjust v) (playbackBoost v),
               [IconVisible "play" true; IconVisible "enableSound" false;
                Pause (Some arg)]).
Proof.
  intros Hp arg.
  destruct (wrappedTime_returns av arg true duration_known) as (w & Hw).
  exists w. split; [exact Hw|].
  clear duration_known.
  destruct v as [a l wfs sd lj lr pb]; simpl in *. subst a wfs l.
  unfold applyPlayState. simpl. rewrite Hp. simpl.
  unfold AudioView.pause, AudioView.setStatic.
  change (AudioView.wrappedTime (AudioView.set_flags false false av)
            (toNumber (PlayState.pausedTime ps)) true)
    with (AudioView.wrappedTime av arg true).
  rewrite Hw. reflexivity.
Qed.

End ApplyPlayState.

(** C8.  Entering the playing state with a loaded device calls the device's
    [play] with [(now() - startOffset) / 1000 + 0.1], [now()] being the
    session clock; with [startOffset = now() - 5000] the argument is
    [5 + 0.1], and so it is in scenario A. *)
Theorem play_on_entry (now : Z) (sessionNow : Q) (v : SyncingAudioView.t)
    (av : AudioView.t) (ps : PlayState.t) :
  SyncingAudioView.audioView v = Some av ->
  SyncingAudioView.waitingForSync v = false ->
  SyncingAudioView.latestPlayState v = Some ps ->
  PlayState.isPlaying ps = true ->
  0 <= AudioView.duration av ->
  (exists v' arg,
      SyncingAudioView.applyPlayState now sessionNow v
      = Some (v', [SyncingAudioView.IconVisible "play" false;
                   SyncingAudioView.SetRate
                     (SyncingAudioView.rateOf (SyncingAudioView.playbackBoost v));
                   SyncingAudioView.Play arg])
      /\ SyncingAudioView.calculateAudioTime sessionNow v
         = Some ((sessionNow - toNumber (PlayState.startOffset ps)) / 1000)
      /\ arg == (sessionNow - toNumber (PlayState.startOffset ps)) / 1000 + (1 # 10)
      /\ (PlayState.startOffset ps = Some (sessionNow - 5000) ->
          arg == 5 + (1 # 10)))
  /\ (exists v' calls arg,
        scenarioA now sessionNow av
        = Some (v', calls ++ [SyncingAudioView.Play arg])
        /\ (forall x, ~ In (SyncingAudioView.Play x) calls)
        /\ arg == 5 + (1 # 10)).
Proof.
  intros Hd Hs Hl Hp Hdur. split.
  - destruct (applyPlayState_playing now sessionNow v av ps Hd Hs Hl Hdur Hp)
      as (w & _ & Happ).
    rewrite Happ. do 2 eexists. split; [reflexivity|].
    split; [|split].
    + unfold SyncingAudioView.calculateAudioTime. now rewrite Hl.
    + ring.
    + intro E. rewrite E. simpl. field.
  - set (ps0 := PlayState.mk false None (Some 0)).
    set (ps1 := PlayState.mk true (Some (sessionNow - 5000)) None).
    destruct (applyPlayState_paused now sessionNow
                (SyncingAudioView.mk (Some av) (Some ps0) false None None None 0)
                av ps0 eq_refl eq_refl eq_refl Hdur eq_refl) as (w0 & _ & H0).
    cbn [PlayState.pausedTime ps0 toNumber SyncingAudioView.smoothedDiff
         SyncingAudioView.lastJump SyncingAudioView.lastRateAdjust
         SyncingAudioView.playbackBoost] in H0.
    match type of H0 with
    | _ = Some (SyncingAudioView.mk (Some ?a) _ _ _ _ _ _, _) => set (av0 := a) in H0
    end.
    destruct (applyPlayState_playing now sessionNow
                (SyncingAudioView.mk (Some av0) (Some ps1) false None None None 0)
                av0 ps1 eq_refl eq_refl eq_refl Hdur eq_refl) as (w1 & _ & H1).
    cbn [SyncingAudioView.playbackBoost] in H1.
    clearbody av0.
    unfold scenarioA, SyncingAudioView.assetsLoaded,
      SyncingAudioView.playStateChanged, SyncingAudioView.assetsChanged,
      SyncingAudioView.disposeOfAudio, bind, ret.
    cbn -[SyncingAudioView.applyPlayState Qminus].
    change (SyncingAudioView.set_playbackBoost 0 _)
      with (SyncingAudioView.mk (Some av) (Some ps0) false None None None 0).
    rewrite H0.
    cbn -[SyncingAudioView.applyPlayState Qminus].
    change (SyncingAudioView.set_latestPlayState _ _)
      with (SyncingAudioView.mk (Some av0) (Some ps1) false None None None 0).
    rewrite H1.
    eexists. eexists. eexists. split; [|split].
    + match goal with
      | |- Some (?s, [?a; ?b; ?c; ?d; ?e; ?f]) = _ =>
          change (Some (s, [a; b; c; d; e; f]))
            with (Some (s, [a; b; c; d; e] ++ [f]))
      end.
      reflexivity.
    + intros x [E|[E|[E|[E|[E|[]]]]]]; discriminate.
    + subst ps1. cbn [PlayState.startOffset toNumber]. field.
Qed.

Lemma play_on_entry_witness :
  let av := AudioView.mk 100 false false 0 1 1 in
  let ps := PlayState.mk true (Some 95000) None in
  let v := SyncingAudioView.mk (Some av) (Some ps) false None None None 0 in
  exists v' arg,
    SyncingAudioView.applyPlayState 777 100000 v
    = Some (v', [SyncingAudioView.IconVisible "play" false;
                 SyncingAudioView.SetRate (SyncingAudioView.rateOf 0);
                 SyncingAudioView.Play arg])
    /\ arg == 5 + (1 # 10).
Proof.
  destruct (play_on_entry 777 100000
              (SyncingAudioView.mk
                 (Some (AudioView.mk 100 false false 0 1 1))
                 (Some (PlayState.mk true (Some 95000) None))
                 false None None None 0)
              (AudioView.mk 100 false false 0 1 1)
              (PlayState.mk true (Some 95000) None)
              eq_refl eq_refl eq_refl eq_refl)
    as [(v' & arg & Happ & _ & Harg & _) _].
  - unfold Qle; simpl; lia.
  - exists v', arg. split; [exact Happ|].
    rewrite Harg. reflexivity.
Defined.

(** C10, as the code has it.  [wrappedTime] leaves alone every position
    that is at most the duration, negative ones included: unguarded it returns [p] when
    [p <= duration], guarded it returns [p] when [p <= duration - 0.1]; it
    never clamps from below.  So a follower whose session clock is behind
    [startOffset] by more than the 100 ms lead seeks its device to a negative
    position on entering the playing state. *)
Theorem wrappedTime_keeps_low_positions (now : Z) (sessionNow : Q)
    (v : SyncingAudioView.t) (av : AudioView.t) (ps : PlayState.t) (p : Q) :
  (p <= AudioView.duration av ->
   exists w, AudioView.wrappedTime av p false = Some w /\ w == p)
  /\ (p <= AudioView.duration av - (1 # 10) ->
      exists w, AudioView.wrappedTime av p true = Some w /\ w == p)
  /\ (SyncingAudioView.audioView v = Some av ->
      SyncingAudioView.waitingForSync v = false ->
      SyncingAudioView.latestPlayState v = Some ps ->
      PlayState.isPlaying ps = true ->
      0 <= AudioView.duration av ->
      sessionNow - toNumber (PlayState.startOffset ps) < - (100) ->
      exists v' av' calls,
        SyncingAudioView.applyPlayState now sessionNow v = Some (v', calls)
        /\ SyncingAudioView.audioView v' = Some av'
        /\ AudioView.currentTime av' < 0).
Proof.
  split; [|split].
  - intro H. apply wrappedTime_below; [assumption | discriminate].
  - intro H. apply wrappedTime_below; [lra | auto].
  - intros Hd Hs Hl Hp Hdur Hbehind.
    destruct (applyPlayState_playing now sessionNow v av ps Hd Hs Hl Hdur Hp)
      as (w & Hw & Happ).
    rewrite Happ. do 3 eexists. split; [reflexivity|]. split; [reflexivity|].
    simpl.
    set (arg := (sessionNow - toNumber (PlayState.startOffset ps)) / 1000
                + (1 # 10) + 0) in *.
    assert (Harg : arg < 0).
    { subst arg.
      set (x := sessionNow - toNumber (PlayState.startOffset ps)) in *.
      assert (E : x / 1000 == x * (1 # 1000)) by (field; discriminate).
      rewrite E. lra. }
    unfold AudioView.wrappedTime in Hw.
    destruct (AudioView.truthy (AudioView.duration av)).
    + rewrite wrap_loop_below in Hw by lra.
      injection Hw as <-.
      apply Qle_lt_trans with arg; [apply Q.le_min_r | exact Harg].
    + injection Hw as <-. exact Harg.
Qed.

Lemma wrappedTime_keeps_low_positions_witness :
  let av := AudioView.mk 100 false false 0 1 1 in
  let ps := PlayState.mk true (Some 5000) None in
  let v := SyncingAudioView.mk (Some av) (Some ps) false None None None 0 in
  (exists w, AudioView.wrappedTime av (-3) true = Some w /\ w == -3)
  /\ (exists v' av' calls,
        SyncingAudioView.applyPlayState 777 2000 v = Some (v', calls)
        /\ SyncingAudioView.audioView v' = Some av'
        /\ AudioView.currentTime av' < 0).
Proof.
  pose proof (wrappedTime_keeps_low_positions 777 2000
                (SyncingAudioView.mk
                   (Some (AudioView.mk 100 false false 0 1 1))
                   (Some (PlayState.mk true (Some 5000) None))
                   false None None None 0)
                (AudioView.mk 100 false false 0 1 1)
                (PlayState.mk true (Some 5000) None) (-3)) as (_ & H2 & H3).
  split.
  - apply H2. unfold Qle; simpl; lia.
  - apply H3; try reflexivity.
    + unfold Qle; simpl; lia.
Defined.

(** A follower 50 ms behind [startOffset] is sent to 0.05 s, which is not
    negative: the lead of 0.1 s is added before the seek. *)
Lemma behind_by_less_than_lead_seeks_forward :
  let av := AudioView.mk 100 false false 0 1 1 in
  let ps := PlayState.mk true (Some 50) None in
  let v := SyncingAudioView.mk (Some av) (Some ps) false None None None 0 in
  let sessionNow := 0 in
  sessionNow < toNumber (PlayState.startOffset ps)
  /\ exists v' av' calls,
       SyncingAudioView.applyPlayState 777 sessionNow v = Some (v', calls)
       /\ SyncingAudioView.audioView v' = Some av'
       /\ AudioView.currentTime av' == 5 # 100
       /\ ~ AudioView.currentTime av' < 0.
Proof.
  split; [reflexivity|].
  do 3 eexists. split; [vm_compute; reflexivity|].
  split; [reflexivity|]. split; [reflexivity|].
  intro H. vm_compute in H. discriminate.
Qed.

(** ** Idempotence of the play-state handler *)

Lemma strictEq_iff (a b : option Q) : strictEq a b = true <-> sameNumber a b.
Proof.
  destruct a, b; simpl; try (split; [discriminate | contradiction]).
  - apply Qeq_bool_iff.
  - split; trivial.
Qed.

Lemma same_refl (d : PlayState.t) : PlayState.same d d = true.
Proof.
  unfold PlayState.same.
  rewrite Bool.eqb_reflx. simpl.
  assert (R : forall o, strictEq o o = true).
  { intros [q|]; simpl; trivial. apply Qeq_bool_iff. reflexivity. }
  now rewrite !R.
Qed.

(** [applyPlayState] keeps the triple it applies, and calls [play] or
    [pause] at most once. *)
Lemma applyPlayState_calls (now : Z) (sessionNow : Q)
    (v v' : SyncingAudioView.t) (calls : list SyncingAudioView.Call) :
  SyncingAudioView.applyPlayState now sessionNow v = Some (v', calls) ->
  SyncingAudioView.latestPlayState v' = SyncingAudioView.latestPlayState v
  /\ (List.length (filter isPlayOrPause calls) <= 1)%nat
  /\ (forall av, SyncingAudioView.audioView v = Some av ->
                 SyncingAudioView.waitingForSync v = false ->
                 List.length (filter isPlayOrPause calls) = 1%nat).
Proof.
  unfold SyncingAudioView.applyPlayState, SyncingAudioView.calculateAudioTime.
  destruct v as [a l wfs sd lj lr pb]; cbn -[AudioView.play AudioView.pause].
  destruct a as [av|];
    [|intro H; injection H as <- <-; simpl; repeat split; auto; discriminate].
  destruct wfs;
    [intro H; injection H as <- <-; simpl; repeat split; auto; discriminate|].
  destruct l as [ps|]; [|discriminate].
  destruct (PlayState.isPlaying ps); cbn -[AudioView.play AudioView.pause].
  - destruct (AudioView.play _ _) as [av2|]; [|discriminate].
    intro H; injection H as <- <-. simpl. repeat split; auto.
  - destruct (AudioView.pause _ _) as [av2|]; [|discriminate].
    intro H; injection H as <- <-. simpl. repeat split; auto.
Qed.

(** C5.  A [play-state-changed] payload that is field for field identical to
    the triple the follower has applied is ignored: the follower's state is
    unchanged and nothing is called.  Hence delivering any payload a second
    time in a row does nothing, and the two deliveries together call
    [play]/[pause] at most once, exactly once when the first delivery found a
    loaded device in sync and a triple different from its own. *)
Theorem playStateChanged_idempotent (now : Z) (sessionNow : Q)
    (data : PlayState.t) (v : SyncingAudioView.t) :
  (forall latest,
      SyncingAudioView.latestPlayState v = Some latest ->
      PlayState.isPlaying data = PlayState.isPlaying latest ->
      sameNumber (PlayState.startOffset data) (PlayState.startOffset latest) ->
      sameNumber (PlayState.pausedTime data) (PlayState.pausedTime latest) ->
      SyncingAudioView.playStateChanged now sessionNow data v = Some (v, []))
  /\ (forall v1 calls1,
        SyncingAudioView.playStateChanged now sessionNow data v = Some (v1, calls1) ->
        (forall now' sessionNow',
            SyncingAudioView.playStateChanged now' sessionNow' data v1
            = Some (v1, []))
        /\ (List.length (filter isPlayOrPause calls1) <= 1)%nat
        /\ (forall av,
              SyncingAudioView.audioView v = Some av ->
              SyncingAudioView.waitingForSync v = false ->
              (forall latest, SyncingAudioView.latestPlayState v = Some latest ->
                              PlayState.same data latest = false) ->
              List.length (filter isPlayOrPause calls1) = 1%nat)).
Proof.
  split.
  - intros latest Hl Hp Hs Hpt.
    unfold SyncingAudioView.playStateChanged. rewrite Hl.
    unfold PlayState.same. rewrite Hp, Bool.eqb_reflx.
    apply strictEq_iff in Hs. apply strictEq_iff in Hpt.
    rewrite Hs, Hpt. reflexivity.
  - intros v1 calls1 H.
    unfold SyncingAudioView.playStateChanged in H.
    destruct (match SyncingAudioView.latestPlayState v with
              | Some latest => PlayState.same data latest
              | None => false
              end) eqn:Heard.
    + injection H as <- <-.
      split; [|split].
      * intros now' sessionNow'.
        unfold SyncingAudioView.playStateChanged. now rewrite Heard.
      * simpl. lia.
      * intros av _ _ Hdiff.
        destruct (SyncingAudioView.latestPlayState v) as [latest|]; [|discriminate].
        rewrite (Hdiff latest eq_refl) in Heard. discriminate.
    + apply applyPlayState_calls in H. destruct H as (Hl & Hle & Hone).
      split; [|split].
      * intros now' sessionNow'.
        unfold SyncingAudioView.playStateChanged.
        rewrite Hl. simpl. now rewrite same_refl.
      * exact Hle.
      * intros av Ha Hw _. apply (Hone av); assumption.
Qed.

Lemma playStateChanged_idempotent_witness :
  let av := AudioView.mk 100 true false 12 1 1 in
  let ps := PlayState.mk true (Some 95000) None in
  let v := SyncingAudioView.mk (Some av) (Some ps) false (Some 40%Z)
             (Some 5000%Z) (Some 7000%Z) 1 in
  SyncingAudioView.playStateChanged 9000 100000
    (PlayState.mk true (Some (190000 # 2)) None) v = Some (v, []).
Proof.
  apply (proj1 (playStateChanged_idempotent 9000 100000
                  (PlayState.mk true (Some (190000 # 2)) None)
                  (SyncingAudioView.mk
                     (Some (AudioView.mk 100 true false 12 1 1))
                     (Some (PlayState.mk true (Some 95000) None))
                     false (Some 40%Z) (Some 5000%Z) (Some 7000%Z) 1))
         (PlayState.mk true (Some 95000) None)).
  - reflexivity.
  - reflexivity.
  - reflexivity.
  - exact I.
Defined.

(** ** Drift bookkeeping across state changes *)

(** C6, as the code has it.  With a loaded device and the follower in
    sync: entering the paused state changes none of [smoothedDiff], [lastJump],
    [lastRateAdjust] and [playbackBoost]; entering the playing state resets
    [smoothedDiff] to null, deletes [lastJump], sets [lastRateAdjust] to the
    current time, and keeps [playbackBoost], which it applies to the device's
    playback rate; a fresh asset load sets [playbackBoost] to [0] before it
    applies the play state in the same way. *)
Theorem bookkeeping_on_state_entry (now : Z) (sessionNow : Q)
    (v : SyncingAudioView.t) (av : AudioView.t) (ps : PlayState.t) :
  SyncingAudioView.waitingForSync v = false ->
  SyncingAudioView.latestPlayState v = Some ps ->
  0 <= AudioView.duration av ->
  (SyncingAudioView.audioView v = Some av ->
   PlayState.isPlaying ps = false ->
   exists v' calls,
     SyncingAudioView.applyPlayState now sessionNow v = Some (v', calls)
     /\ SyncingAudioView.smoothedDiff v' = SyncingAudioView.smoothedDiff v
     /\ SyncingAudioView.lastJump v' = SyncingAudioView.lastJump v
     /\ SyncingAudioView.lastRateAdjust v' = SyncingAudioView.lastRateAdjust v
     /\ SyncingAudioView.playbackBoost v' = SyncingAudioView.playbackBoost v)
  /\ (SyncingAudioView.audioView v = Some av ->
      PlayState.isPlaying ps = true ->
      exists v' av' calls,
        SyncingAudioView.applyPlayState now sessionNow v = Some (v', calls)
        /\ SyncingAudioView.smoothedDiff v' = None
        /\ SyncingAudioView.lastJump v' = None
        /\ SyncingAudioView.lastRateAdjust v' = Some now
        /\ SyncingAudioView.playbackBoost v' = SyncingAudioView.playbackBoost v
        /\ SyncingAudioView.audioView v' = Some av'
        /\ AudioView.playbackRate av'
           = SyncingAudioView.rateOf (SyncingAudioView.playbackBoost v))
  /\ (exists v' calls,
        SyncingAudioView.assetsLoaded now sessionNow av v = Some (v', calls)
        /\ SyncingAudioView.playbackBoost v' = 0%Z
        /\ (PlayState.isPlaying ps = true ->
            SyncingAudioView.smoothedDiff v' = None
            /\ SyncingAudioView.lastJump v' = None
            /\ SyncingAudioView.lastRateAdjust v' = Some now)
        /\ (PlayState.isPlaying ps = false ->
            SyncingAudioView.smoothedDiff v' = SyncingAudioView.smoothedDiff v
            /\ SyncingAudioView.lastJump v' = SyncingAudioView.lastJump v
            /\ SyncingAudioView.lastRateAdjust v'
               = SyncingAudioView.lastRateAdjust v)).
Proof.
  intros Hs Hl Hdur. split; [|split].
  - intros Hd Hp.
    destruct (applyPlayState_paused now sessionNow v av ps Hd Hs Hl Hdur Hp)
      as (w & _ & Happ).
    rewrite Happ. do 2 eexists. split; [reflexivity|]. simpl. auto.
  - intros Hd Hp.
    destruct (applyPlayState_playing now sessionNow v av ps Hd Hs Hl Hdur Hp)
      as (w & _ & Happ).
    rewrite Happ. do 3 eexists. split; [reflexivity|]. simpl. auto 10.
  - unfold SyncingAudioView.assetsLoaded.
    set (v0 := SyncingAudioView.set_playbackBoost 0 _).
    destruct (PlayState.isPlaying ps) eqn:Hp.
    + destruct (applyPlayState_playing now sessionNow v0 av ps
                  eq_refl Hs Hl Hdur Hp) as (w & _ & Happ).
      rewrite Happ. do 2 eexists. split; [reflexivity|]. simpl.
      split; [reflexivity|]. split; [auto | discriminate].
    + destruct (applyPlayState_paused now sessionNow v0 av ps
                  eq_refl Hs Hl Hdur Hp) as (w & _ & Happ).
      rewrite Happ. do 2 eexists. split; [reflexivity|]. simpl.
      split; [reflexivity|]. split; [discriminate | auto].
Qed.

Lemma bookkeeping_on_state_entry_witness :
  let av := AudioView.mk 100 false false 12 1 1 in
  let ps := PlayState.mk true (Some 95000) None in
  let v := SyncingAudioView.mk (Some av) (Some ps) false (Some 120%Z)
             (Some 5000%Z) (Some 7000%Z) 3 in
  exists v' av' calls,
    SyncingAudioView.applyPlayState 9000 100000 v = Some (v', calls)
    /\ SyncingAudioView.smoothedDiff v' = None
    /\ SyncingAudioView.lastJump v' = None
    /\ SyncingAudioView.lastRateAdjust v' = Some 9000%Z
    /\ SyncingAudioView.playbackBoost v' = 3%Z
    /\ SyncingAudioView.audioView v' = Some av'
    /\ AudioView.playbackRate av' = SyncingAudioView.rateOf 3.
Proof.
  apply (proj1 (proj2 (bookkeeping_on_state_entry 9000 100000
                  (SyncingAudioView.mk
                     (Some (AudioView.mk 100 false false 12 1 1))
                     (Some (PlayState.mk true (Some 95000) None))
                     false (Some 120%Z) (Some 5000%Z) (Some 7000%Z) 3)
                  (AudioView.mk 100 false false 12 1 1)
                  (PlayState.mk true (Some 95000) None)
                  eq_refl eq_refl
                  ltac:(unfold Qle; simpl; lia)))).
  - reflexivity.
  - reflexivity.
Defined.

(** A follower that is playing with drift history is told to pause: the
    device is paused, and the smoothed drift, both time stamps and the boost
    stay as they were. *)
Lemma pause_keeps_bookkeeping :
  let av := AudioView.mk 100 true false 12 (103 # 100) 1 in
  let ps := PlayState.mk true (Some 95000) None in
  let v := SyncingAudioView.mk (Some av) (Some ps) false (Some 120%Z)
             (Some 5000%Z) (Some 7000%Z) 3 in
  exists v' calls,
    SyncingAudioView.playStateChanged 9000 100000
      (PlayState.mk false None (Some 12)) v = Some (v', calls)
    /\ In (SyncingAudioView.Pause (Some 12)) calls
    /\ SyncingAudioView.latestPlayState v' = Some (PlayState.mk false None (Some 12))
    /\ SyncingAudioView.smoothedDiff v' = Some 120%Z
    /\ SyncingAudioView.lastJump v' = Some 5000%Z
    /\ SyncingAudioView.lastRateAdjust v' = Some 7000%Z
    /\ SyncingAudioView.playbackBoost v' = 3%Z
    /\ ~ (SyncingAudioView.smoothedDiff v' = None
          /\ SyncingAudioView.lastJump v' = None
          /\ SyncingAudioView.lastRateAdjust v' = None
          /\ SyncingAudioView.playbackBoost v' = 0%Z).
Proof.
  do 2 eexists. split; [vm_compute; reflexivity|].
  split; [simpl; auto|].
  repeat (split; [reflexivity|]).
  intros (H & _). discriminate.
Qed.

(** ** The correction pass *)

Section Pass.

Import SyncingAudioView.

Variables (now : Z) (sessionNow : Q) (v : t) (av : AudioView.t)
          (ps : PlayState.t) (expectedTime : Q).

Hypothesis has_device : audioView v = Some av.
Hypothesis device_playing : AudioView.isPlaying av = true.
Hypothesis device_unblocked : AudioView.isBlocked av = false.
Hypothesis latest : latestPlayState v = Some ps.
Hypothesis expected :
  AudioView.wrappedTime av
    ((sessionNow - toNumber (PlayState.startOffset ps)) / 1000) false
  = Some expectedTime.

Let audioTime : Q := AudioView.currentTime av.
Let audioDiff : Q := audioTime - expectedTime.

Lemma checkPlaybackTiming_running :
  checkPlaybackTiming now sessionNow v
  = option_map (finishPass av)
      (if Qlt_bool (Qabs audioDiff) (AudioView.duration av / 2)
       then correct now audioTime audioDiff v av
       else Some (v, av, [], Report None None None)).
Proof.
  unfold checkPlaybackTiming, calculateAudioTime.
  rewrite has_device, device_playing, device_unblocked, latest.
  cbn [andb negb]. rewrite expected.
  fold audioTime. fold audioDiff.
  destruct (Qlt_bool (Qabs audioDiff) (AudioView.duration av / 2)).
  - destruct (correct now audioTime audioDiff v av) as [[[[v1 av1] calls] report]|];
      reflexivity.
  - reflexivity.
Qed.

(** A sample measured across a loop restart is dropped. *)
Lemma checkPlaybackTiming_discard :
  AudioView.duration av / 2 <= Qabs audioDiff ->
  checkPlaybackTiming now sessionNow v
  = Some (finishPass av (v, av, [], Report None None None)).
Proof.
  intro H. rewrite checkPlaybackTiming_running.
  apply Qlt_bool_false_iff in H. now rewrite H.
Qed.

(** An accepted sample comes with a positive duration. *)
Lemma accepted_duration_pos :
  Qabs audioDiff < AudioView.duration av / 2 -> 0 < AudioView.duration av.
Proof.
  intro H. pose proof (Qabs_nonneg audioDiff) as Hn.
  assert (H2 : 0 < AudioView.duration av / 2) by lra.
  assert (E : AudioView.duration av == (AudioView.duration av / 2) * 2)
    by (field; discriminate).
  rewrite E. lra.
Qed.

End Pass.

(** C4.  A pass that measures [|actual - expected| >= duration / 2] drops the
    sample: [smoothedDiff] is as before, and nothing is done about the
    position or the rate (no seek, no rate change, the boost and the time of
    the last rate adjustment as before). *)
Theorem loop_boundary_sample_discarded (now : Z) (sessionNow : Q)
    (v : SyncingAudioView.t) (av : AudioView.t) (ps : PlayState.t)
    (expectedTime : Q) :
  SyncingAudioView.audioView v = Some av ->
  AudioView.isPlaying av = true ->
  AudioView.isBlocked av = false ->
  SyncingAudioView.latestPlayState v = Some ps ->
  AudioView.wrappedTime av
    ((sessionNow - toNumber (PlayState.startOffset ps)) / 1000) false
  = Some expectedTime ->
  AudioView.duration av / 2 <= Qabs (AudioView.currentTime av - expectedTime) ->
  exists v' av' calls,
    SyncingAudioView.checkPlaybackTiming now sessionNow v = Some (v', calls)
    /\ SyncingAudioView.smoothedDiff v' = SyncingAudioView.smoothedDiff v
    /\ SyncingAudioView.playbackBoost v' = SyncingAudioView.playbackBoost v
    /\ SyncingAudioView.lastRateAdjust v' = SyncingAudioView.lastRateAdjust v
    /\ SyncingAudioView.audioView v' = Some av'
    /\ AudioView.currentTime av' = AudioView.currentTime av
    /\ AudioView.playbackRate av' = AudioView.playbackRate av
    /\ filter isSeek calls = []
    /\ filter isSetRate calls = [].
Proof.
  intros Hd Hp Hb Hl He Hbig.
  rewrite (checkPlaybackTiming_discard now sessionNow v av ps expectedTime
             Hd Hp Hb Hl He Hbig).
  unfold finishPass.
  destruct (Qlt_bool _ _); do 3 eexists; (split; [reflexivity|]);
    simpl; auto 10.
Qed.

Lemma loop_boundary_sample_discarded_witness :
  let av := AudioView.mk 100 true false 99 1 1 in
  let ps := PlayState.mk true (Some 0) None in
  let v := SyncingAudioView.mk (Some av) (Some ps) false (Some 40%Z)
             (Some 5000%Z) (Some 7000%Z) 1 in
  exists v' av' calls,
    SyncingAudioView.checkPlaybackTiming 20000 1000 v = Some (v', calls)
    /\ SyncingAudioView.smoothedDiff v' = Some 40%Z
    /\ SyncingAudioView.playbackBoost v' = 1%Z
    /\ SyncingAudioView.lastRateAdjust v' = Some 7000%Z
    /\ SyncingAudioView.audioView v' = Some av'
    /\ AudioView.currentTime av' = 99
    /\ AudioView.playbackRate av' = 1
    /\ filter isSeek calls = []
    /\ filter isSetRate calls = [].
Proof.
  apply (loop_boundary_sample_discarded 20000 1000
           (SyncingAudioView.mk
              (Some (AudioView.mk 100 true false 99 1 1))
              (Some (PlayState.mk true (Some 0) None))
              false (Some 40%Z) (Some 5000%Z) (Some 7000%Z) 1)
           (AudioView.mk 100 true false 99 1 1)
           (PlayState.mk true (Some 0) None)
           ((1000 - 0) / 1000)).
  - reflexivity.
  - reflexivity.
  - reflexivity.
  - reflexivity.
  - vm_compute. reflexivity.
  - vm_compute. discriminate.
Defined.

(** ** The rate decision *)

Lemma desiredBoost_bands (s : Z) :
  ((300 < Z.abs s)%Z -> SyncingAudioView.desiredBoost s = (- Z.sgn s * 5)%Z)
  /\ ((150 < Z.abs s <= 300)%Z -> SyncingAudioView.desiredBoost s = (- Z.sgn s * 3)%Z)
  /\ ((50 < Z.abs s <= 150)%Z -> SyncingAudioView.desiredBoost s = (- Z.sgn s * 1)%Z)
  /\ ((Z.abs s <= 50)%Z -> SyncingAudioView.desiredBoost s = 0%Z).
Proof.
  unfold SyncingAudioView.desiredBoost, Math_abs, Math_sign,
    SyncingAudioView.THRESH_5, SyncingAudioView.THRESH_3,
    SyncingAudioView.THRESH_1.
  repeat split; intro H;
    destruct (300 <? Z.abs s)%Z eqn:E5;
    destruct (150 <? Z.abs s)%Z eqn:E3;
    destruct (50 <? Z.abs s)%Z eqn:E1;
    rewrite ?Z.ltb_lt, ?Z.ltb_ge in *; lia.
Qed.

Lemma desiredBoost_zero_iff (s : Z) :
  SyncingAudioView.desiredBoost s = 0%Z <-> (Z.abs s <= 50)%Z.
Proof.
  destruct (desiredBoost_bands s) as (B5 & B3 & B1 & B0).
  split; [|exact B0].
  intro H.
  destruct (Z_le_gt_dec (Z.abs s) 50) as [L|G]; trivial.
  destruct (Z_le_gt_dec (Z.abs s) 150); [rewrite B1 in H by lia; lia|].
  destruct (Z_le_gt_dec (Z.abs s) 300); [rewrite B3 in H by lia; lia|].
  rewrite B5 in H by lia; lia.
Qed.

Lemma hysteresisBlock_iff (old s : Z) :
  SyncingAudioView.hysteresisBlock old s = true
  <-> ((Z.abs s <= 50)%Z /\ Z.sgn old = (- Z.sgn s)%Z /\ (25 <= Z.abs s)%Z).
Proof.
  unfold SyncingAudioView.hysteresisBlock, Math_abs, Math_sign,
    SyncingAudioView.THRESH_0.
  rewrite !andb_true_iff, Z.eqb_eq, Z.eqb_eq, Z.leb_le.
  rewrite desiredBoost_zero_iff. tauto.
Qed.

(** C1.  A pass that accepts its sample, does not jump and comes at least 3 s
    after the last rate adjustment classifies the smoothed drift [s] into
    the bands [> 300: 5], [> 150: 3], [> 50: 1], else [0] percent, with the
    sign opposite to the drift's, and makes that the boost, except that the
    old boost is kept when the desired one is [0], the old one has the sign
    opposite to the drift's and [|s| >= 25]: such a boost is not dropped to
    [0], while with [|s| < 25] the boost becomes [0]. *)
Theorem rate_decision (now : Z) (sessionNow : Q)
    (v : SyncingAudioView.t) (av : AudioView.t) (ps : PlayState.t)
    (expectedTime : Q) :
  SyncingAudioView.audioView v = Some av ->
  AudioView.isPlaying av = true ->
  AudioView.isBlocked av = false ->
  SyncingAudioView.latestPlayState v = Some ps ->
  AudioView.wrappedTime av
    ((sessionNow - toNumber (PlayState.startOffset ps)) / 1000) false
  = Some expectedTime ->
  Qabs (AudioView.currentTime av - expectedTime) < AudioView.duration av / 2 ->
  let s := SyncingAudioView.smooth (SyncingAudioView.smoothedDiff v)
             ((AudioView.currentTime av - expectedTime) * 1000) in
  let old := SyncingAudioView.playbackBoost v in
  SyncingAudioView.jumpNow now (SyncingAudioView.lastJump v) s = false ->
  (3000 <= now - orZero (SyncingAudioView.lastRateAdjust v))%Z ->
  exists v' av' calls,
    SyncingAudioView.checkPlaybackTiming now sessionNow v = Some (v', calls)
    /\ SyncingAudioView.audioView v' = Some av'
    /\ SyncingAudioView.playbackBoost v'
       = (if SyncingAudioView.hysteresisBlock old s then old
          else SyncingAudioView.desiredBoost s)
    /\ SyncingAudioView.lastRateAdjust v' = Some now
    /\ (SyncingAudioView.playbackBoost v' <> old ->
        AudioView.playbackRate av'
        = SyncingAudioView.rateOf (SyncingAudioView.playbackBoost v')
        /\ filter isSetRate calls
           = [SyncingAudioView.SetRate
                (SyncingAudioView.rateOf (SyncingAudioView.playbackBoost v'))])
    /\ (SyncingAudioView.playbackBoost v' = old ->
        AudioView.playbackRate av' = AudioView.playbackRate av
        /\ filter isSetRate calls = [])
    /\ ((300 < Z.abs s)%Z ->
        SyncingAudioView.desiredBoost s = (- Z.sgn s * 5)%Z)
    /\ ((150 < Z.abs s <= 300)%Z ->
        SyncingAudioView.desiredBoost s = (- Z.sgn s * 3)%Z)
    /\ ((50 < Z.abs s <= 150)%Z ->
        SyncingAudioView.desiredBoost s = (- Z.sgn s * 1)%Z)
    /\ ((Z.abs s <= 50)%Z -> SyncingAudioView.desiredBoost s = 0%Z)
    /\ (Z.sgn old = (- Z.sgn s)%Z -> (25 <= Z.abs s)%Z ->
        SyncingAudioView.playbackBoost v' <> 0%Z
        /\ ((Z.abs s <= 50)%Z -> SyncingAudioView.playbackBoost v' = old))
    /\ ((Z.abs s < 25)%Z -> SyncingAudioView.playbackBoost v' = 0%Z).
Proof.
  intros Hd Hp Hb Hl He Hacc s old Hj Hi.
  rewrite (checkPlaybackTiming_running now sessionNow v av ps expectedTime
             Hd Hp Hb Hl He).
  apply Qlt_bool_iff in Hacc. rewrite Hacc.
  unfold SyncingAudioView.correct.
  fold s. cbn [SyncingAudioView.lastJump SyncingAudioView.set_smoothedDiff
               SyncingAudioView.lastRateAdjust SyncingAudioView.playbackBoost].
  rewrite Hj.
  apply Z.leb_le in Hi. unfold SyncingAudioView.CHECK_INTERVAL. rewrite Hi.
  fold old.
  destruct (desiredBoost_bands s) as (B5 & B3 & B1 & B0).
  assert (Hnew : forall new,
             new = (if SyncingAudioView.hysteresisBlock old s then old
                    else SyncingAudioView.desiredBoost s) ->
             (Z.sgn old = (- Z.sgn s)%Z -> (25 <= Z.abs s)%Z ->
              new <> 0%Z /\ ((Z.abs s <= 50)%Z -> new = old))
             /\ ((Z.abs s < 25)%Z -> new = 0%Z)).
  { intros new ->. split.
    - intros Hsg H25.
      destruct (SyncingAudioView.hysteresisBlock old s) eqn:Hh.
      + split; [lia | reflexivity].
      + assert (Hn : ~ (Z.abs s <= 50)%Z).
        { intro H50. assert (X : SyncingAudioView.hysteresisBlock old s = true)
            by (apply hysteresisBlock_iff; auto).
          congruence. }
        split; [|intro; contradiction].
        rewrite desiredBoost_zero_iff. exact Hn.
    - intro H25.
      destruct (SyncingAudioView.hysteresisBlock old s) eqn:Hh.
      + apply hysteresisBlock_iff in Hh. lia.
      + apply B0. lia. }
  destruct (SyncingAudioView.desiredBoost s =? old)%Z eqn:Heq;
    cbn [negb andb].
  - apply Z.eqb_eq in Heq.
    assert (Hsame : old = (if SyncingAudioView.hysteresisBlock old s then old
                           else SyncingAudioView.desiredBoost s))
      by (destruct (SyncingAudioView.hysteresisBlock old s); congruence).
    cbn [option_map finishPass]. unfold finishPass.
    match goal with
      | |- context [if ?c then SyncingAudioView.set_lastJump None _ else _] =>
          destruct c
      end; do 3 eexists; (split; [reflexivity|]);
      cbn; (split; [reflexivity|]); (split; [exact Hsame|]);
      (split; [reflexivity|]); (split; [intro X; exfalso; apply X; reflexivity|]);
      (split; [auto|]); repeat (split; [assumption|]);
      apply (Hnew old Hsame).
  - apply Z.eqb_neq in Heq.
    destruct (SyncingAudioView.hysteresisBlock old s) eqn:Hh; cbn [negb].
    + unfold finishPass. cbn [option_map].
      match goal with
      | |- context [if ?c then SyncingAudioView.set_lastJump None _ else _] =>
          destruct c
      end; do 3 eexists; (split; [reflexivity|]);
        cbn; (split; [reflexivity|]); (split; [reflexivity|]);
        (split; [reflexivity|]); (split; [intro X; exfalso; apply X; reflexivity|]);
        (split; [auto|]); repeat (split; [assumption|]);
        apply (Hnew old); try rewrite Hh; reflexivity.
    + unfold finishPass. cbn [option_map].
      match goal with
      | |- context [if ?c then SyncingAudioView.set_lastJump None _ else _] =>
          destruct c
      end; do 3 eexists; (split; [reflexivity|]);
        cbn; (split; [reflexivity|]); (split; [reflexivity|]);
        (split; [reflexivity|]); (split; [auto|]);
        (split; [intro X; exfalso; apply Heq; exact X|]);
        repeat (split; [assumption|]);
        apply (Hnew (SyncingAudioView.desiredBoost s)); try rewrite Hh; reflexivity.
Qed.

(** A follower boosted by +1 percent measures 30 ms behind: the boost
    stays. *)
Lemma rate_decision_witness :
  let av := AudioView.mk 100 true false (997 # 100) (101 # 100) 1 in
  let ps := PlayState.mk true (Some 0) None in
  let v := SyncingAudioView.mk (Some av) (Some ps) false None
             None (Some 7000%Z) 1 in
  exists v' av' calls,
    SyncingAudioView.checkPlaybackTiming 20000 10000 v = Some (v', calls)
    /\ SyncingAudioView.smoothedDiff v' = Some (-30)%Z
    /\ SyncingAudioView.playbackBoost v' = 1%Z
    /\ SyncingAudioView.audioView v' = Some av'
    /\ AudioView.playbackRate av' = 101 # 100.
Proof.
  destruct (rate_decision 20000 10000
              (SyncingAudioView.mk
                 (Some (AudioView.mk 100 true false (997 # 100) (101 # 100) 1))
                 (Some (PlayState.mk true (Some 0) None))
                 false None None (Some 7000%Z) 1)
              (AudioView.mk 100 true false (997 # 100) (101 # 100) 1)
              (PlayState.mk true (Some 0) None)
              ((10000 - 0) / 1000)
              eq_refl eq_refl eq_refl eq_refl)
    as (v' & av' & calls & Hrun & Hav & Hboost & _ & _ & Hkeep & _).
  - vm_compute. reflexivity.
  - vm_compute. reflexivity.
  - vm_compute. reflexivity.
  - vm_compute. discriminate.
  - exists v', av', calls.
    split; [exact Hrun|].
    split; [vm_compute in Hrun; injection Hrun as <- _; reflexivity|].
    split; [exact Hboost|].
    split; [exact Hav|].
    apply Hkeep. exact Hboost.
Defined.

(** The same follower measuring 20 ms behind gives the boost up. *)
Example boost_dropped_below_25 :
  let av := AudioView.mk 100 true false (998 # 100) (101 # 100) 1 in
  let ps := PlayState.mk true (Some 0) None in
  let v := SyncingAudioView.mk (Some av) (Some ps) false None
             None (Some 7000%Z) 1 in
  exists v' calls,
    SyncingAudioView.checkPlaybackTiming 20000 10000 v = Some (v', calls)
    /\ SyncingAudioView.smoothedDiff v' = Some (-20)%Z
    /\ SyncingAudioView.playbackBoost v' = 0%Z
    /\ filter isSetRate calls = [SyncingAudioView.SetRate (SyncingAudioView.rateOf 0)].
Proof.
  do 2 eexists. split; [vm_compute; reflexivity|].
  repeat split.
Qed.

(** Scenario C: 60 ms and 160 ms behind with no boost yet give +1 and +3. *)
Example boost_for_60_and_160_behind :
  SyncingAudioView.desiredBoost (-60) = 1%Z
  /\ SyncingAudioView.hysteresisBlock 0 (-60) = false
  /\ SyncingAudioView.desiredBoost (-160) = 3%Z
  /\ SyncingAudioView.hysteresisBlock 0 (-160) = false
  /\ SyncingAudioView.desiredBoost 400 = (-5)%Z.
Proof. repeat split. Qed.

(** ** The jump decision *)

Lemma jumpNow_iff (now : Z) (lastJump : option Z) (s : Z) :
  SyncingAudioView.jumpNow now lastJump s = true
  <-> ((500 < Z.abs s)%Z /\ (10000 < now - orZero lastJump)%Z).
Proof.
  unfold SyncingAudioView.jumpNow, Math_abs.
  now rewrite andb_true_iff, !Z.ltb_lt.
Qed.

(** Without a jump the correction seeks nowhere and keeps the new smoothed
    value and the jump record. *)
Lemma correct_without_jump (now : Z) (audioTime audioDiff : Q)
    (v : SyncingAudioView.t) (av : AudioView.t) :
  let s := SyncingAudioView.smooth (SyncingAudioView.smoothedDiff v)
             (audioDiff * 1000) in
  SyncingAudioView.jumpNow now (SyncingAudioView.lastJump v) s = false ->
  exists v1 av1 calls report,
    SyncingAudioView.correct now audioTime audioDiff v av
    = Some (v1, av1, calls, report)
    /\ filter isSeek calls = []
    /\ AudioView.currentTime av1 = AudioView.currentTime av
    /\ SyncingAudioView.smoothedDiff v1 = Some s
    /\ SyncingAudioView.lastJump v1 = SyncingAudioView.lastJump v
    /\ isSeek report = false.
Proof.
  intros s Hj. unfold SyncingAudioView.correct. fold s.
  cbn [SyncingAudioView.lastJump SyncingAudioView.set_smoothedDiff].
  rewrite Hj.
  destruct (_ <=? _)%Z; [destruct (_ && _)|];
    do 4 eexists; (split; [reflexivity|]); cbn; auto 10.
Qed.

(** A jump seeks to the guarded wrap of [actual - smoothed / 1000 + 0.2],
    forgets the smoothed value and records the time. *)
Lemma correct_with_jump (now : Z) (audioTime audioDiff : Q)
    (v : SyncingAudioView.t) (av : AudioView.t) :
  let s := SyncingAudioView.smooth (SyncingAudioView.smoothedDiff v)
             (audioDiff * 1000) in
  SyncingAudioView.jumpNow now (SyncingAudioView.lastJump v) s = true ->
  0 < AudioView.duration av ->
  exists w v1 av1 report,
    AudioView.wrappedTime av
      (audioTime - inject_Z s / 1000 + (2 # 10)) true = Some w
    /\ SyncingAudioView.correct now audioTime audioDiff v av
       = Some (v1, av1, [SyncingAudioView.Seek w], report)
    /\ AudioView.currentTime av1 = w
    /\ SyncingAudioView.smoothedDiff v1 = None
    /\ SyncingAudioView.lastJump v1 = Some now
    /\ isSeek report = false.
Proof.
  intros s Hj Hd. unfold SyncingAudioView.correct. fold s.
  cbn [SyncingAudioView.lastJump SyncingAudioView.set_smoothedDiff].
  rewrite Hj.
  destruct (wrappedTime_guarded av
              (audioTime - inject_Z s / 1000 + (2 # 10)) Hd) as (w & Hw & _).
  unfold SyncingAudioView.lostTime. rewrite Hw.
  do 4 eexists. split; [reflexivity|]. split; [reflexivity|]. cbn. auto 10.
Qed.

(** Within 10 s of a recorded jump no pass seeks. *)
Lemma no_seek_in_cooldown (now t : Z) (sessionNow : Q)
    (v v' : SyncingAudioView.t) (calls : list SyncingAudioView.Call) :
  SyncingAudioView.lastJump v = Some t ->
  (now - t <= 10000)%Z ->
  SyncingAudioView.checkPlaybackTiming now sessionNow v = Some (v', calls) ->
  filter isSeek calls = [].
Proof.
  intros Hl Hnear.
  unfold SyncingAudioView.checkPlaybackTiming.
  destruct (SyncingAudioView.audioView v) as [av|];
    [|intro H; injection H as <- <-; reflexivity].
  destruct (_ && _); [|intro H; injection H as <- <-; reflexivity].
  destruct (SyncingAudioView.calculateAudioTime _ _); [|discriminate].
  destruct (AudioView.wrappedTime _ _ _) as [expectedTime|]; [|discriminate].
  destruct (Qlt_bool (Qabs _) _).
  - match goal with
    | |- context [SyncingAudioView.correct ?n ?a ?d ?x ?y] =>
        destruct (correct_without_jump n a d x y)
          as (v1 & av1 & c & r & Hc & Hs & _ & _ & _ & Hr)
    end.
    + apply not_true_is_false. rewrite jumpNow_iff, Hl. simpl. lia.
    + rewrite Hc. intro H; injection H as <- <-.
      rewrite filter_app, Hs. simpl. now rewrite Hr.
  - intro H; injection H as <- <-. reflexivity.
Qed.

(** C2, as the code has it.  A pass that accepts its sample jumps exactly
    when the smoothed drift [s] exceeds 500 ms in magnitude and more than 10 s have
    passed since the recorded jump (a missing record counts as time [0]).
    The jump sets the position to the guarded wrap of
    [actual - s / 1000 + 0.2], resets the smoothed drift to null and records
    the time of the jump, a record the pass deletes again when the position
    read is within 1.5 s of the end.  When the record is kept, a pass at most
    10 s later does not jump, whatever it measures: the two passes jump
    once. *)
Theorem jump_decision (now : Z) (sessionNow : Q)
    (v : SyncingAudioView.t) (av : AudioView.t) (ps : PlayState.t)
    (expectedTime : Q) :
  SyncingAudioView.audioView v = Some av ->
  AudioView.isPlaying av = true ->
  AudioView.isBlocked av = false ->
  SyncingAudioView.latestPlayState v = Some ps ->
  AudioView.wrappedTime av
    ((sessionNow - toNumber (PlayState.startOffset ps)) / 1000) false
  = Some expectedTime ->
  Qabs (AudioView.currentTime av - expectedTime) < AudioView.duration av / 2 ->
  let actual := AudioView.currentTime av in
  let s := SyncingAudioView.smooth (SyncingAudioView.smoothedDiff v)
             ((actual - expectedTime) * 1000) in
  let nearEnd := Qlt_bool (AudioView.duration av - actual) (3 # 2) in
  let due := (500 < Z.abs s)%Z
             /\ (10000 < now - orZero (SyncingAudioView.lastJump v))%Z in
  exists v' av' calls,
    SyncingAudioView.checkPlaybackTiming now sessionNow v = Some (v', calls)
    /\ SyncingAudioView.audioView v' = Some av'
    /\ (filter isSeek calls <> [] <-> due)
    /\ (due ->
        exists w,
          AudioView.wrappedTime av (actual - inject_Z s / 1000 + (2 # 10)) true
          = Some w
          /\ filter isSeek calls = [SyncingAudioView.Seek w]
          /\ AudioView.currentTime av' = w
          /\ SyncingAudioView.smoothedDiff v' = None
          /\ SyncingAudioView.lastJump v'
             = (if nearEnd then None else Some now))
    /\ (~ due ->
        AudioView.currentTime av' = actual
        /\ SyncingAudioView.smoothedDiff v' = Some s
        /\ SyncingAudioView.lastJump v'
           = (if nearEnd then None else SyncingAudioView.lastJump v))
    /\ (forall now2 sessionNow2 v2 v2' calls2,
          due -> nearEnd = false ->
          SyncingAudioView.lastJump v2 = SyncingAudioView.lastJump v' ->
          (now2 - now <= 10000)%Z ->
          SyncingAudioView.checkPlaybackTiming now2 sessionNow2 v2
          = Some (v2', calls2) ->
          List.length (filter isSeek (calls ++ calls2)) = 1%nat).
Proof.
  intros Hd Hp Hb Hl He Hacc actual s nearEnd due.
  subst actual.
  pose proof (accepted_duration_pos av expectedTime Hacc) as Hpos.
  rewrite (checkPlaybackTiming_running now sessionNow v av ps expectedTime
             Hd Hp Hb Hl He).
  apply Qlt_bool_iff in Hacc. rewrite Hacc. clear Hacc.
  destruct (SyncingAudioView.jumpNow now (SyncingAudioView.lastJump v) s) eqn:Hj.
  - assert (Hdue : due) by (apply jumpNow_iff; exact Hj).
    destruct (correct_with_jump now (AudioView.currentTime av)
                (AudioView.currentTime av - expectedTime) v av Hj Hpos)
      as (w & v1 & av1 & r & Hw & Hc & Hcur & Hsm & Hlj & Hr).
    fold s in Hw. rewrite Hc. cbn [option_map finishPass]. fold nearEnd.
    assert (Hseek : filter isSeek ([SyncingAudioView.Seek w]
                                   ++ [SyncingAudioView.SetVolume 1; r])
                    = [SyncingAudioView.Seek w])
      by (simpl; now rewrite Hr).
    assert (Hlast : SyncingAudioView.lastJump
                      (if nearEnd
                       then SyncingAudioView.set_lastJump None
                              (SyncingAudioView.set_audioView
                                 (Some (AudioView.set_volume 1 av1)) v1)
                       else SyncingAudioView.set_audioView
                              (Some (AudioView.set_volume 1 av1)) v1)
                    = (if nearEnd then None else Some now))
      by (destruct nearEnd; [reflexivity | exact Hlj]).
    exists (if nearEnd
            then SyncingAudioView.set_lastJump None
                   (SyncingAudioView.set_audioView
                      (Some (AudioView.set_volume 1 av1)) v1)
            else SyncingAudioView.set_audioView
                   (Some (AudioView.set_volume 1 av1)) v1),
      (AudioView.set_volume 1 av1). eexists.
    split; [reflexivity|].
    split; [destruct nearEnd; reflexivity|].
    split; [rewrite Hseek; split; [auto | discriminate]|].
    split; [|split].
    + intros _. exists w. split; [exact Hw|]. split; [exact Hseek|].
      split; [exact Hcur|]. split; [destruct nearEnd; exact Hsm | exact Hlast].
    + intro N. contradiction.
    + intros now2 sessionNow2 v2 v2' calls2 _ Hne Hl2 Hnear Hrun2.
      rewrite Hlast, Hne in Hl2.
      rewrite filter_app, Hseek.
      rewrite (no_seek_in_cooldown now2 now sessionNow2 v2 v2' calls2
                 Hl2 Hnear Hrun2).
      reflexivity.
  - assert (Hdue : ~ due).
    { intro X. apply jumpNow_iff in X. congruence. }
    destruct (correct_without_jump now (AudioView.currentTime av)
                (AudioView.currentTime av - expectedTime) v av Hj)
      as (v1 & av1 & c & r & Hc & Hs & Hcur & Hsm & Hlj & Hr).
    rewrite Hc. cbn [option_map finishPass]. fold nearEnd.
    assert (Hseek : filter isSeek (c ++ [SyncingAudioView.SetVolume 1; r]) = [])
      by (rewrite filter_app, Hs; simpl; now rewrite Hr).
    exists (if nearEnd
            then SyncingAudioView.set_lastJump None
                   (SyncingAudioView.set_audioView
                      (Some (AudioView.set_volume 1 av1)) v1)
            else SyncingAudioView.set_audioView
                   (Some (AudioView.set_volume 1 av1)) v1),
      (AudioView.set_volume 1 av1). eexists.
    split; [reflexivity|].
    split; [destruct nearEnd; reflexivity|].
    split; [rewrite Hseek; split; [intro X; now elim X | intro; contradiction]|].
    split; [intro; contradiction|].
    split; [|intros; contradiction].
    intros _. split; [exact Hcur|].
    split; [destruct nearEnd; exact Hsm|].
    destruct nearEnd; [reflexivity | exact Hlj].
Qed.

(** Scenario B: 600 ms ahead at 10.6 s with no earlier jump.  The pass seeks
    to 10.2 s and records the jump. *)
Lemma jump_decision_witness :
  let av := AudioView.mk 100 true false (106 # 10) 1 1 in
  let ps := PlayState.mk true (Some 0) None in
  let v := SyncingAudioView.mk (Some av) (Some ps) false None
             None (Some 19000%Z) 0 in
  exists v' av' calls w,
    SyncingAudioView.checkPlaybackTiming 20000 10000 v = Some (v', calls)
    /\ SyncingAudioView.audioView v' = Some av'
    /\ filter isSeek calls = [SyncingAudioView.Seek w]
    /\ w == 102 # 10
    /\ AudioView.currentTime av' = w
    /\ SyncingAudioView.smoothedDiff v' = None
    /\ SyncingAudioView.lastJump v' = Some 20000%Z.
Proof.
  destruct (jump_decision 20000 10000
              (SyncingAudioView.mk
                 (Some (AudioView.mk 100 true false (106 # 10) 1 1))
                 (Some (PlayState.mk true (Some 0) None))
                 false None None (Some 19000%Z) 0)
              (AudioView.mk 100 true false (106 # 10) 1 1)
              (PlayState.mk true (Some 0) None)
              ((10000 - 0) / 1000)
              eq_refl eq_refl eq_refl eq_refl)
    as (v' & av' & calls & Hrun & Hav & _ & Hjump & _).
  - vm_compute. reflexivity.
  - vm_compute. reflexivity.
  - destruct Hjump as (w & Hw & Hseek & Hcur & Hsm & Hlj).
    + split; vm_compute; reflexivity.
    + exists v', av', calls, w.
      split; [exact Hrun|]. split; [exact Hav|]. split; [exact Hseek|].
      split; [vm_compute in Hw; injection Hw as <-; reflexivity|].
      split; [exact Hcur|]. split; [exact Hsm|]. exact Hlj.
Defined.

(** A pass that comes exactly 10 s after the recorded jump and measures
    600 ms does not jump: the cooldown ends only after more than 10 s. *)
Lemma no_jump_at_exactly_10s :
  let av := AudioView.mk 100 true false (106 # 10) 1 1 in
  let ps := PlayState.mk true (Some 0) None in
  let v := SyncingAudioView.mk (Some av) (Some ps) false None
             (Some 10000%Z) (Some 19000%Z) 0 in
  let now := 20000%Z in
  exists v' av' calls,
    SyncingAudioView.checkPlaybackTiming now 10000 v = Some (v', calls)
    /\ SyncingAudioView.smoothedDiff v' = Some 600%Z
    /\ (500 < Z.abs 600)%Z
    /\ (10000 <= now - orZero (SyncingAudioView.lastJump v))%Z
    /\ filter isSeek calls = []
    /\ SyncingAudioView.audioView v' = Some av'
    /\ AudioView.currentTime av' = 106 # 10
    /\ SyncingAudioView.lastJump v' = Some 10000%Z.
Proof.
  do 3 eexists. split; [vm_compute; reflexivity|].
  split; [reflexivity|]. split; [reflexivity|].
  split; [discriminate|]. repeat split.
Qed.

(** ** Smoothing *)

Lemma Qfloor_ge (z : Z) (x : Q) : inject_Z z <= x -> (z <= Qfloor x)%Z.
Proof.
  intro H. rewrite <- (Qfloor_Z z). now apply Qfloor_resp_le.
Qed.

Lemma Qfloor_below (z : Z) (x : Q) : x < inject_Z z + 1 -> (Qfloor x <= z)%Z.
Proof.
  intro H.
  assert (L : (Qfloor x < z + 1)%Z).
  { rewrite Zlt_Qlt, inject_Z_plus. change (inject_Z 1) with 1.
    apply Qle_lt_trans with x; [apply Qfloor_le | exact H]. }
  lia.
Qed.

Lemma Qfloor_above (x : Q) : x < inject_Z (Qfloor x) + 1.
Proof.
  pose proof (Qlt_floor x) as H. rewrite inject_Z_plus in H. exact H.
Qed.

Lemma Qceiling_below (x : Q) : inject_Z (Qceiling x) - 1 < x.
Proof.
  pose proof (Qceiling_lt x) as H.
  unfold Z.sub in H. rewrite inject_Z_plus, inject_Z_opp in H.
  change (inject_Z 1) with 1 in H. lra.
Qed.

Section Smoothing.

Variable d : Q.

(** One more sample of [d] on top of the smoothed value [s]. *)
Let next (s : Z) : Z := SyncingAudioView.smooth (Some s) d.

Lemma next_eq (s : Z) :
  next s = Qfloor ((3 # 10) * d + (7 # 10) * inject_Z s + (1 # 2)).
Proof.
  unfold next, SyncingAudioView.smooth, Math_round, SyncingAudioView.newFactor.
  apply Qfloor_comp. ring.
Qed.

(** From below the smoothed value rises, and does not pass [d]. *)
Lemma next_from_below (s : Z) :
  inject_Z s <= d -> (s <= next s)%Z /\ inject_Z (next s) <= d.
Proof.
  intro H. rewrite next_eq. split.
  - apply Qfloor_ge. lra.
  - set (m := Qfloor d).
    pose proof (Qfloor_le d) as Hm. fold m in Hm.
    pose proof (Qfloor_above d) as Hm1. fold m in Hm1.
    assert (Hs : (s <= m)%Z) by (apply Qfloor_ge; exact H).
    rewrite Zle_Qle in Hs.
    apply Qle_trans with (inject_Z m); [|exact Hm].
    rewrite <- Zle_Qle. apply Qfloor_below. lra.
Qed.

(** From above it falls, and does not pass [d]. *)
Lemma next_from_above (s : Z) :
  d <= inject_Z s -> (next s <= s)%Z /\ d <= inject_Z (next s).
Proof.
  intro H. rewrite next_eq. split.
  - apply Qfloor_below. lra.
  - set (c := Qceiling d).
    pose proof (Qle_ceiling d) as Hc. fold c in Hc.
    pose proof (Qceiling_below d) as Hc1. fold c in Hc1.
    assert (Hs : (c <= s)%Z).
    { assert (L : (c - 1 < s)%Z).
      { rewrite Zlt_Qlt. unfold Z.sub.
        rewrite inject_Z_plus, inject_Z_opp. change (inject_Z 1) with 1. lra. }
      lia. }
    rewrite Zle_Qle in Hs.
    apply Qle_trans with (inject_Z c); [exact Hc|].
    rewrite <- Zle_Qle. apply Qfloor_ge. lra.
Qed.

(** A value the samples no longer move is within 5/3 ms of [d]. *)
Lemma fixed_near (z : Z) : next z = z -> Qabs (inject_Z z - d) <= 5 # 3.
Proof.
  intro H. rewrite next_eq in H.
  set (x := (3 # 10) * d + (7 # 10) * inject_Z z + (1 # 2)) in H.
  pose proof (Qfloor_le x) as L. pose proof (Qfloor_above x) as U.
  rewrite H in L, U. subst x.
  apply Qabs_Qle_condition. split; lra.
Qed.

Lemma feed_fixed (z : Z) (k : nat) : next z = z -> feed k (Some z) d = Some z.
Proof.
  intro H. induction k as [|k IH]; [reflexivity|].
  change (feed k (Some (next z)) d = Some z). rewrite H. exact IH.
Qed.

Lemma settles_from_below (k : nat) :
  forall s : Z,
    inject_Z s <= d -> (Qfloor d - s <= Z.of_nat k)%Z ->
    exists n z, feed n (Some s) d = Some z /\ next z = z.
Proof.
  induction k as [|k IH]; intros s Hs Hk.
  - exists 0%nat, s. split; [reflexivity|].
    destruct (next_from_below s Hs) as [L U].
    assert ((next s <= Qfloor d)%Z) by (apply Qfloor_ge; exact U).
    lia.
  - destruct (next_from_below s Hs) as [L U].
    destruct (Z.eq_dec (next s) s) as [E|N].
    + exists 0%nat, s. split; [reflexivity | exact E].
    + destruct (IH (next s) U) as (n & z & Hf & Hz); [lia|].
      exists (S n), z. split; [exact Hf | exact Hz].
Qed.

Lemma settles_from_above (k : nat) :
  forall s : Z,
    d <= inject_Z s -> (s - Qceiling d <= Z.of_nat k)%Z ->
    exists n z, feed n (Some s) d = Some z /\ next z = z.
Proof.
  induction k as [|k IH]; intros s Hs Hk.
  - exists 0%nat, s. split; [reflexivity|].
    destruct (next_from_above s Hs) as [L U].
    assert ((Qceiling d <= next s)%Z).
    { rewrite <- (Qceiling_Z (next s)). now apply Qceiling_resp_le. }
    lia.
  - destruct (next_from_above s Hs) as [L U].
    destruct (Z.eq_dec (next s) s) as [E|N].
    + exists 0%nat, s. split; [reflexivity | exact E].
    + destruct (IH (next s) U) as (n & z & Hf & Hz); [lia|].
      exists (S n), z. split; [exact Hf | exact Hz].
Qed.

(** After finitely many samples the smoothed value no longer moves. *)
Lemma settles (s : Z) :
  exists n z, feed n (Some s) d = Some z /\ next z = z.
Proof.
  destruct (Qlt_le_dec d (inject_Z s)) as [H|H].
  - apply (settles_from_above (Z.to_nat (s - Qceiling d)) s); [lra | lia].
  - apply (settles_from_below (Z.to_nat (Qfloor d - s)) s); [exact H | lia].
Qed.

Lemma feed_plus (n k : nat) :
  forall p, feed (n + k) p d = feed k (feed n p d) d.
Proof.
  induction n as [|n IH]; intro p; [reflexivity|]. simpl. apply IH.
Qed.

End Smoothing.

(** C3, as the code has it.  The smoothed drift is [Math.round(diffMs)] on
    the first sample and [Math.round(0.3 * diffMs + 0.7 * smoothed_prev)] on every
    later one.  For a constant input [d] and every starting value the
    smoothed values move towards [d] monotonically and never pass it, and
    after finitely many samples they stay at one value, which is within
    5/3 ms of [d] but need not be [d]. *)
Theorem smoothing_approaches_input (d : Q) (s : Z) :
  SyncingAudioView.smooth None d = Math_round d
  /\ SyncingAudioView.smooth (Some s) d
     = Math_round ((3 # 10) * d + (7 # 10) * inject_Z s)
  /\ (inject_Z s <= d ->
      (s <= SyncingAudioView.smooth (Some s) d)%Z
      /\ inject_Z (SyncingAudioView.smooth (Some s) d) <= d)
  /\ (d <= inject_Z s ->
      (SyncingAudioView.smooth (Some s) d <= s)%Z
      /\ d <= inject_Z (SyncingAudioView.smooth (Some s) d))
  /\ (exists n z,
        (forall k, feed (n + k) (Some s) d = Some z)
        /\ Qabs (inject_Z z - d) <= 5 # 3)
  /\ (forall k, feed (1 + k) None d = Some (Math_round d)).
Proof.
  split; [reflexivity|].
  split; [unfold Math_round; rewrite next_eq; reflexivity|].
  split; [apply next_from_below|].
  split; [apply next_from_above|].
  split.
  - destruct (settles d s) as (n & z & Hf & Hz).
    exists n, z. split.
    + intro k. rewrite feed_plus, Hf. now apply feed_fixed.
    + now apply fixed_near.
  - intro k. rewrite feed_plus. simpl feed at 2.
    apply feed_fixed.
    rewrite next_eq. unfold Math_round.
    set (r := Qfloor (d + (1 # 2))).
    pose proof (Qfloor_le (d + (1 # 2))) as L.
    pose proof (Qfloor_above (d + (1 # 2))) as U.
    fold r in L, U.
    apply Z.le_antisymm.
    + apply Qfloor_below. lra.
    + apply Qfloor_ge. lra.
Qed.

Lemma smoothing_approaches_input_witness :
  (0 <= SyncingAudioView.smooth (Some 0%Z) 100)%Z
  /\ inject_Z (SyncingAudioView.smooth (Some 0%Z) 100) <= 100.
Proof.
  apply (proj1 (proj2 (proj2 (smoothing_approaches_input 100 0)))).
  unfold Qle; simpl; lia.
Defined.

(** Constant samples of 100 ms on top of 0 give 30, 51, 66, ... and stop at
    99; constant samples of 0 on top of 1 never leave 1, though
    [0.3 * 0 + 0.7 * 1] is 0.7; and a first sample of 0.4 ms is stored
    as 0. *)
Lemma smoothing_rounds_and_stalls :
  SyncingAudioView.smooth None (4 # 10) = 0%Z
  /\ ~ inject_Z (SyncingAudioView.smooth None (4 # 10)) == 4 # 10
  /\ SyncingAudioView.smooth (Some 1%Z) 0 = 1%Z
  /\ ~ inject_Z (SyncingAudioView.smooth (Some 1%Z) 0)
       == (3 # 10) * 0 + (7 # 10) * inject_Z 1
  /\ (forall n, feed n (Some 1%Z) 0 = Some 1%Z)
  /\ feed 3 (Some 0%Z) 100 = Some 66%Z
  /\ (forall n, feed (12 + n) (Some 0%Z) 100 = Some 99%Z).
Proof.
  split; [reflexivity|].
  split; [intro H; vm_compute in H; discriminate|].
  split; [reflexivity|].
  split; [intro H; vm_compute in H; discriminate|].
  split; [intro n; apply feed_fixed; reflexivity|].
  split; [reflexivity|].
  intro n. rewrite feed_plus.
  replace (feed 12 (Some 0%Z) 100) with (Some 99%Z) by (vm_compute; reflexivity).
  apply feed_fixed. reflexivity.
Qed.

(** * Further properties *)

(** ** The throttle *)

Lemma throttled_cases {A : Type} (delay now : Z) (arg : A) (s : Throttle.t A) :
  ((Throttle.lastTime s + delay < now)%Z
   /\ Throttle.throttled delay now arg s = (Throttle.mk now None, [arg]))
  \/ ((now <= Throttle.lastTime s + delay)%Z
      /\ Throttle.throttled delay now arg s
         = (Throttle.mk (Throttle.lastTime s)
              (Some ((Throttle.lastTime s + delay)%Z, arg)), [])).
Proof.
  unfold Throttle.throttled, Throttle.runFn, Throttle.clearFinal. simpl.
  destruct (delay - (now - Throttle.lastTime s) <? 0)%Z eqn:E.
  - left. apply Z.ltb_lt in E. split; [lia | reflexivity].
  - right. apply Z.ltb_ge in E. split; [lia|].
    replace (now + (delay - (now - Throttle.lastTime s)))%Z
      with (Throttle.lastTime s + delay)%Z by lia.
    reflexivity.
Qed.

Lemma timerFires_cases {A : Type} (now : Z) (s : Throttle.t A) :
  (exists due arg,
      Throttle.timeoutForFinal s = Some (due, arg) /\ (due <= now)%Z
      /\ Throttle.timerFires now s = (Throttle.mk now None, [arg]))
  \/ Throttle.timerFires now s = (s, []).
Proof.
  unfold Throttle.timerFires, Throttle.runFn, Throttle.clearFinal.
  destruct (Throttle.timeoutForFinal s) as [[due arg]|]; [|now right].
  destruct (due <=? now)%Z eqn:E; [|now right].
  left. exists due, arg. apply Z.leb_le in E. auto.
Qed.

(** X1.  However the throttled function is called and whenever its timer
    fires, two calls of [fn] are at least [delay] apart (and the first at
    least [delay] after the initial [lastTime]). *)
Theorem throttle_spacing {A : Type} (delay : Z)
    (events : list (ThrottleEvent A)) :
  forall s : Throttle.t A,
    pendingDue delay s ->
    spaced delay (Throttle.lastTime s) (snd (throttleRun delay events s)).
Proof.
  induction events as [|e rest IH]; intros s Hinv; [exact I|].
  simpl. destruct e as [now arg|now].
  - destruct (throttled_cases delay now arg s) as [[Hlt E]|[Hle E]];
      rewrite E.
    + specialize (IH (Throttle.mk now None)).
      destruct (throttleRun delay rest (Throttle.mk now None)) as [s2 later].
      simpl in *. split; [lia|]. apply IH. intros due a H. discriminate.
    + specialize (IH (Throttle.mk (Throttle.lastTime s)
                        (Some ((Throttle.lastTime s + delay)%Z, arg)))).
      destruct (throttleRun delay rest _) as [s2 later].
      simpl in *. apply IH. intros due a H. injection H as <- _. reflexivity.
  - destruct (timerFires_cases now s) as [(due & arg & Hp & Hle & E)|E];
      rewrite E.
    + specialize (IH (Throttle.mk now None)).
      destruct (throttleRun delay rest (Throttle.mk now None)) as [s2 later].
      simpl in *. split.
      * rewrite <- (Hinv due arg Hp). exact Hle.
      * apply IH. intros d a H. discriminate.
    + specialize (IH s Hinv).
      destruct (throttleRun delay rest s) as [s2 later]. exact IH.
Qed.

Lemma throttle_spacing_witness :
  spaced 100 0
    (snd (throttleRun 100
            [Invoke 1000%Z 1%nat; Invoke 1040%Z 2%nat; Invoke 1080%Z 3%nat;
             Timer 1100%Z; Invoke 1150%Z 4%nat; Timer 1200%Z]
            Throttle.init)).
Proof.
  apply (throttle_spacing 100
           [Invoke 1000%Z 1%nat; Invoke 1040%Z 2%nat; Invoke 1080%Z 3%nat;
            Timer 1100%Z; Invoke 1150%Z 4%nat; Timer 1200%Z]
           Throttle.init).
  intros due arg H. discriminate.
Defined.

(** The run of the witness: of the three moves within 100 ms the first is
    delivered at once and the last by the timer; the second is dropped. *)
Example throttle_run_example :
  snd (throttleRun 100
         [Invoke 1000%Z 1%nat; Invoke 1040%Z 2%nat; Invoke 1080%Z 3%nat;
          Timer 1100%Z; Invoke 1150%Z 4%nat; Timer 1200%Z]
         Throttle.init)
  = [(1000%Z, 1%nat); (1100%Z, 3%nat); (1200%Z, 4%nat)].
Proof. reflexivity. Qed.

(** X2.  The last value is delivered: after a call with [arg], once the
    timer is looked at no earlier than [delay] after the last call of [fn],
    [fn] has been called with [arg] exactly once, at once or by the timer,
    and nothing is left pending.  A call that is still pending when the next
    call comes is dropped: of two calls made within the delay only the
    second is delivered. *)
Theorem throttle_delivers_last {A : Type} (delay now now' : Z) (arg : A)
    (s : Throttle.t A) :
  (Throttle.lastTime s + delay <= now')%Z ->
  (let '(s1, r1) := Throttle.throttled delay now arg s in
   let '(s2, r2) := Throttle.timerFires now' s1 in
   r1 ++ r2 = [arg] /\ Throttle.timeoutForFinal s2 = None)
  /\ (forall now0 arg0,
        (now0 <= Throttle.lastTime s + delay)%Z ->
        (now <= Throttle.lastTime s + delay)%Z ->
        snd (throttleRun delay [Invoke now0 arg0; Invoke now arg; Timer now'] s)
        = [(now', arg)]).
Proof.
  intro Hdue. split.
  - destruct (throttled_cases delay now arg s) as [[Hlt E]|[Hle E]];
      rewrite E.
    + unfold Throttle.timerFires. simpl. auto.
    + unfold Throttle.timerFires, Throttle.runFn. simpl.
      apply Z.leb_le in Hdue. rewrite Hdue. auto.
  - intros now0 arg0 H0 H1. simpl.
    destruct (throttled_cases delay now0 arg0 s) as [[Hlt E]|[Hle E]];
      [lia|]. rewrite E.
    set (s1 := Throttle.mk _ _).
    destruct (throttled_cases delay now arg s1) as [[Hlt' E']|[Hle' E']];
      [simpl in Hlt'; lia|]. rewrite E'. simpl.
    unfold Throttle.timerFires, Throttle.runFn. simpl.
    apply Z.leb_le in Hdue. rewrite Hdue. reflexivity.
Qed.

Lemma throttle_delivers_last_witness :
  snd (throttleRun 100 [Invoke 1040%Z 2%nat; Invoke 1080%Z 3%nat; Timer 1100%Z]
         (Throttle.mk 1000 None))
  = [(1100%Z, 3%nat)].
Proof.
  apply (proj2 (throttle_delivers_last 100 1080 1100 3%nat
                  (Throttle.mk 1000 None) ltac:(simpl; lia))).
  - simpl; lia.
  - simpl; lia.
Defined.

(** ** The scrub bar *)

Lemma clamp01_bounds (x : Q) :
  0 <= Qmax 0 (Qmin 1 x) <= 1.
Proof.
  split.
  - apply Q.le_max_l.
  - apply Q.max_lub; [discriminate | apply Q.le_min_l].
Qed.

Lemma clamp01_cases (x : Q) :
  (x <= 0 -> Qmax 0 (Qmin 1 x) == 0)
  /\ (1 <= x -> Qmax 0 (Qmin 1 x) == 1)
  /\ (0 <= x <= 1 -> Qmax 0 (Qmin 1 x) == x).
Proof.
  repeat split.
  - intro H. apply Q.max_l. apply Qle_trans with x; [apply Q.le_min_r | exact H].
  - intro H. rewrite (Q.min_l 1 x H). apply Q.max_r. discriminate.
  - intros [H0 H1]. rewrite (Q.min_r 1 x H1). apply Q.max_r. exact H0.
Qed.

(** X3.  [dragAtOffset] reports a proportion between 0 and 1 whatever the
    pointer's offset: 0 left of the bar, 1 right of it, [offsetX / width]
    inside it.  It reports at most once per call, and nothing at all when the
    same offset comes again. *)
Theorem dragAtOffset_clamps (offsetX : Q) (b : TimeBarView.t) :
  let barWidth := inject_Z (Zpos (TimeBarView.width b)) in
  let '(b', calls) := TimeBarView.dragAtOffset offsetX b in
  (calls = [] \/ exists p, calls = [TimeBarView.HandleTimebar p]
                           /\ TimeBarView.lastDragProportion b' = Some p)
  /\ (forall p, In (TimeBarView.HandleTimebar p) calls ->
        0 <= p <= 1
        /\ (offsetX <= 0 -> p == 0)
        /\ (barWidth <= offsetX -> p == 1)
        /\ (0 <= offsetX <= barWidth -> p == offsetX / barWidth))
  /\ snd (TimeBarView.dragAtOffset offsetX b') = [].
Proof.
  intro barWidth.
  assert (Hw : 0 < barWidth) by reflexivity.
  unfold TimeBarView.dragAtOffset. fold barWidth.
  set (tp := Qmax 0 (Qmin 1 (offsetX / barWidth))).
  assert (Hself : Qeq_bool tp tp = true) by (apply Qeq_bool_iff; reflexivity).
  destruct (strictEq (TimeBarView.lastDragProportion b) (Some tp)) eqn:E.
  - split; [now left|]. split; [intros p []|].
    clear Hself Hw. subst tp barWidth. simpl. rewrite E. reflexivity.
  - split; [right; exists tp; split; reflexivity|]. split.
    + intros p [H|[]]. injection H as <-.
      destruct (clamp01_cases (offsetX / barWidth)) as (C0 & C1 & C2).
      split; [apply clamp01_bounds|]. split; [|split].
      * intro H. apply C0. apply Qle_shift_div_r; [exact Hw | lra].
      * intro H. apply C1. apply Qle_shift_div_l; [exact Hw | lra].
      * intros [H0 H1]. apply C2. split.
        -- apply Qle_shift_div_l; [exact Hw | lra].
        -- apply Qle_shift_div_r; [exact Hw | lra].
    + cbn [TimeBarView.lastDragProportion TimeBarView.width strictEq].
      fold barWidth. fold tp. rewrite Hself. reflexivity.
Qed.

(** Dragging only happens between pointer-down and pointer-up, and only
    with a view attached. *)
Lemma moves_after_up_ignored (b : TimeBarView.t) (offsetX : Q) :
  TimeBarView.onPointerMove offsetX (fst (TimeBarView.onPointerUp b))
  = (fst (TimeBarView.onPointerUp b), []).
Proof.
  unfold TimeBarView.onPointerUp, TimeBarView.onPointerMove.
  destruct (TimeBarView.rootView b) eqn:R; simpl; rewrite ?R; reflexivity.
Qed.

(** ** Blocked implies playing *)

(** X4.  An audio or video device that is not playing is never marked
    blocked: [play], the settling of its promise either way, and [pause] all
    keep [isBlocked] implying [isPlaying].  In particular a refusal that
    arrives after a [pause] leaves the device unblocked. *)
Theorem blocked_implies_playing (p : Q) (arg : option Q) (started : bool) :
  (forall a a' : AudioView.t,
      (AudioView.isBlocked a = true -> AudioView.isPlaying a = true) ->
      (AudioView.play p a = Some a' \/ AudioView.pause arg a = Some a'
       \/ fst (AudioView.playSettled started a) = a') ->
      (AudioView.isBlocked a' = true -> AudioView.isPlaying a' = true))
  /\ (forall a a' : VideoView.t,
        (VideoView.isBlocked a = true -> VideoView.isPlaying a = true) ->
        (VideoView.play p a = Some a' \/ VideoView.pause arg a = Some a'
         \/ fst (VideoView.playSettled started a) = a') ->
        (VideoView.isBlocked a' = true -> VideoView.isPlaying a' = true))
  /\ (forall a a1 a2 : AudioView.t,
        AudioView.play p a = Some a1 -> AudioView.pause arg a1 = Some a2 ->
        AudioView.isBlocked (fst (AudioView.playSettled false a2)) = false)
  /\ (forall a a1 a2 : VideoView.t,
        VideoView.play p a = Some a1 -> VideoView.pause arg a1 = Some a2 ->
        VideoView.isBlocked (fst (VideoView.playSettled false a2)) = false).
Proof.
  split; [|split; [|split]].
  - intros a a' Hinv [H|[H|H]].
    + unfold AudioView.play in H.
      destruct (AudioView.wrappedTime a p true); [|discriminate].
      injection H as <-. reflexivity.
    + unfold AudioView.pause, AudioView.setStatic in H.
      destruct arg as [q|].
      * destruct (AudioView.wrappedTime _ q true); [|discriminate].
        injection H as <-. discriminate.
      * injection H as <-. discriminate.
    + subst a'. unfold AudioView.playSettled.
      destruct started; simpl; [discriminate | exact Hinv].
  - intros a a' Hinv [H|[H|H]].
    + unfold VideoView.play in H.
      destruct (VideoView.wrappedTime a p true); [|discriminate].
      injection H as <-. reflexivity.
    + unfold VideoView.pause, VideoView.setStatic in H.
      destruct arg as [q|].
      * destruct (VideoView.wrappedTime _ q true); [|discriminate].
        injection H as <-. discriminate.
      * injection H as <-. discriminate.
    + subst a'. unfold VideoView.playSettled.
      destruct started; simpl; [discriminate | auto].
  - intros a a1 a2 _ H.
    unfold AudioView.pause, AudioView.setStatic in H.
    destruct arg as [q|].
    + destruct (AudioView.wrappedTime _ q true); [|discriminate].
      injection H as <-. reflexivity.
    + injection H as <-. reflexivity.
  - intros a a1 a2 _ H.
    unfold VideoView.pause, VideoView.setStatic in H.
    destruct arg as [q|].
    + destruct (VideoView.wrappedTime _ q true); [|discriminate].
      injection H as <-. reflexivity.
    + injection H as <-. reflexivity.
Qed.

Lemma blocked_implies_playing_witness :
  let a := AudioView.mk 100 false false 0 1 1 in
  exists a', AudioView.play 5 a = Some a' /\ AudioView.isPlaying a' = true.
Proof.
  eexists. split; [reflexivity|].
  apply (proj1 (blocked_implies_playing 5 None true)
           (AudioView.mk 100 false false 0 1 1)).
  - intro H. discriminate.
  - left. reflexivity.
  - reflexivity.
Defined.

(** ** What a correction pass leaves alone *)

Lemma desiredBoost_ok (s : Z) : boostOk (SyncingAudioView.desiredBoost s).
Proof.
  unfold boostOk, SyncingAudioView.desiredBoost, Math_sign.
  destruct (_ <? _)%Z; [|destruct (_ <? _)%Z; [|destruct (_ <? _)%Z]];
    destruct (Z.sgn_spec s) as [[_ ->]|[[_ ->]|[_ ->]]]; simpl; auto 10.
Qed.

(** The correction touches the device's position and rate and the drift
    bookkeeping, nothing else. *)
Lemma correct_frame (now : Z) (audioTime audioDiff : Q)
    (v v1 : SyncingAudioView.t) (av av1 : AudioView.t)
    (calls : list SyncingAudioView.Call) (report : SyncingAudioView.Call) :
  SyncingAudioView.correct now audioTime audioDiff v av
  = Some (v1, av1, calls, report) ->
  SyncingAudioView.latestPlayState v1 = SyncingAudioView.latestPlayState v
  /\ SyncingAudioView.waitingForSync v1 = SyncingAudioView.waitingForSync v
  /\ AudioView.isPlaying av1 = AudioView.isPlaying av
  /\ AudioView.isBlocked av1 = AudioView.isBlocked av
  /\ AudioView.duration av1 = AudioView.duration av
  /\ forallb isAdjustment calls = true
  /\ (exists a b c, report = SyncingAudioView.Report a b c)
  /\ (boostOk (SyncingAudioView.playbackBoost v) ->
      boostOk (SyncingAudioView.playbackBoost v1))
  /\ (forall r, In (SyncingAudioView.SetRate r) calls ->
                r = SyncingAudioView.rateOf (SyncingAudioView.playbackBoost v1)
                /\ boostOk (SyncingAudioView.playbackBoost v1)).
Proof.
  unfold SyncingAudioView.correct.
  destruct (SyncingAudioView.jumpNow _ _ _).
  - destruct (AudioView.wrappedTime _ _ _); [|discriminate].
    intro H; injection H as <- <- <- <-. simpl.
    repeat split; eauto; destruct H as [E|[]]; discriminate.
  - destruct (_ <=? _)%Z.
    + destruct (_ && _).
      * intro H; injection H as <- <- <- <-. simpl.
        repeat split; eauto.
        -- intros _. apply desiredBoost_ok.
        -- destruct H as [E|[]]. now injection E as <-.
        -- apply desiredBoost_ok.
      * intro H; injection H as <- <- <- <-. simpl.
        repeat split; eauto; contradiction.
    + intro H; injection H as <- <- <- <-. simpl.
      repeat split; eauto; contradiction.
Qed.

Lemma checkPlaybackTiming_frame (now : Z) (sessionNow : Q)
    (v v' : SyncingAudioView.t) (calls : list SyncingAudioView.Call) :
  SyncingAudioView.checkPlaybackTiming now sessionNow v = Some (v', calls) ->
  SyncingAudioView.latestPlayState v' = SyncingAudioView.latestPlayState v
  /\ SyncingAudioView.waitingForSync v' = SyncingAudioView.waitingForSync v
  /\ forallb isAdjustment calls = true
  /\ (boostOk (SyncingAudioView.playbackBoost v) ->
      boostOk (SyncingAudioView.playbackBoost v'))
  /\ (forall r, In (SyncingAudioView.SetRate r) calls ->
                r = SyncingAudioView.rateOf (SyncingAudioView.playbackBoost v')
                /\ boostOk (SyncingAudioView.playbackBoost v'))
  /\ match SyncingAudioView.audioView v, SyncingAudioView.audioView v' with
     | Some av, Some av' =>
         AudioView.isPlaying av' = AudioView.isPlaying av
         /\ AudioView.isBlocked av' = AudioView.isBlocked av
         /\ AudioView.duration av' = AudioView.duration av
     | None, None => True
     | _, _ => False
     end.
Proof.
  unfold SyncingAudioView.checkPlaybackTiming.
  destruct (SyncingAudioView.audioView v) as [av|] eqn:Hav;
    [|intro H; injection H as <- <-; rewrite Hav; simpl; repeat split; auto;
      contradiction].
  destruct (_ && _);
    [|intro H; injection H as <- <-; rewrite Hav; simpl; repeat split; auto;
      contradiction].
  destruct (SyncingAudioView.calculateAudioTime _ _); [|discriminate].
  destruct (AudioView.wrappedTime _ _ _) as [expectedTime|]; [|discriminate].
  destruct (Qlt_bool (Qabs _) _).
  - destruct (SyncingAudioView.correct _ _ _ v av)
      as [[[[v1 av1] c1] r1]|] eqn:Hc; [|discriminate].
    apply correct_frame in Hc.
    destruct Hc as (Hl & Hw & Hp & Hb & Hd & Hadj & (ra & rb & rc & ->)
                    & Hok & Hrate).
    intro H; injection H as <- <-.
    assert (Hboost : forall x : SyncingAudioView.t,
               SyncingAudioView.playbackBoost
                 (if Qlt_bool (AudioView.duration av - AudioView.currentTime av) (3 # 2)
                  then SyncingAudioView.set_lastJump None
                         (SyncingAudioView.set_audioView
                            (Some (AudioView.set_volume 1 av1)) x)
                  else SyncingAudioView.set_audioView
                         (Some (AudioView.set_volume 1 av1)) x)
               = SyncingAudioView.playbackBoost x)
      by (intro x; destruct (Qlt_bool _ _); reflexivity).
    rewrite Hboost.
    split; [destruct (Qlt_bool _ _); exact Hl|].
    split; [destruct (Qlt_bool _ _); exact Hw|].
    split; [rewrite forallb_app, Hadj; reflexivity|].
    split; [exact Hok|].
    split.
    + intros r Hin. apply in_app_or in Hin.
      destruct Hin as [Hin|[E|[E|[]]]]; [now apply Hrate | discriminate..].
    + destruct (Qlt_bool _ _); simpl; auto.
  - intro H; injection H as <- <-.
    destruct (Qlt_bool _ _); simpl;
      (repeat split; auto);
      match goal with
      | H : _ \/ _ |- _ => destruct H as [E|[E|[]]]; discriminate
      end.
Qed.

Lemma bind_Some {E S T : Type} (m : M E S) (k : S -> M E T) (t : T)
    (es : list E) :
  bind m k = Some (t, es) ->
  exists s es1 es2, m = Some (s, es1) /\ k s = Some (t, es2) /\ es = es1 ++ es2.
Proof.
  unfold bind. destruct m as [[s es1]|]; [|discriminate].
  destruct (k s) as [[t' es2]|] eqn:K; [|discriminate].
  intro H; injection H as <- <-. eauto 6.
Qed.

(** [applyPlayState] sets the rate the boost asks for and changes neither
    the boost nor the sync flag. *)
Lemma applyPlayState_frame (now : Z) (sessionNow : Q)
    (v v' : SyncingAudioView.t) (calls : list SyncingAudioView.Call) :
  SyncingAudioView.applyPlayState now sessionNow v = Some (v', calls) ->
  SyncingAudioView.playbackBoost v' = SyncingAudioView.playbackBoost v
  /\ SyncingAudioView.waitingForSync v' = SyncingAudioView.waitingForSync v
  /\ (forall r, In (SyncingAudioView.SetRate r) calls ->
                r = SyncingAudioView.rateOf (SyncingAudioView.playbackBoost v))
  /\ filter isSeek calls = [].
Proof.
  unfold SyncingAudioView.applyPlayState, SyncingAudioView.calculateAudioTime.
  destruct v as [a l wfs sd lj lr pb]; cbn -[AudioView.play AudioView.pause].
  destruct a as [av|];
    [|intro H; injection H as <- <-; simpl; repeat split; auto; contradiction].
  destruct wfs;
    [intro H; injection H as <- <-; simpl; repeat split; auto; contradiction|].
  destruct l as [ps|]; [|discriminate].
  destruct (PlayState.isPlaying ps); cbn -[AudioView.play AudioView.pause].
  - destruct (AudioView.play _ _) as [av2|]; [|discriminate].
    intro H; injection H as <- <-. simpl. repeat split; auto.
    intros r [E|[E|[E|[]]]]; try discriminate. now injection E as <-.
  - destruct (AudioView.pause _ _) as [av2|]; [|discriminate].
    intro H; injection H as <- <-. simpl. repeat split; auto.
    intros r [E|[E|[E|[]]]]; discriminate.
Qed.

Lemma followerStep_boost (now : Z) (sessionNow : Q) (e : FollowerEvent)
    (v v' : SyncingAudioView.t) (calls : list SyncingAudioView.Call) :
  boostOk (SyncingAudioView.playbackBoost v) ->
  followerStep now sessionNow e v = Some (v', calls) ->
  boostOk (SyncingAudioView.playbackBoost v')
  /\ (forall r, In (SyncingAudioView.SetRate r) calls ->
                exists b, boostOk b /\ r = SyncingAudioView.rateOf b).
Proof.
  intros Hok H. destruct e; simpl in H.
  - unfold SyncingAudioView.assetsChanged, SyncingAudioView.disposeOfAudio in H.
    apply bind_Some in H. destruct H as (s & es1 & es2 & H1 & H2 & ->).
    injection H2 as <- <-.
    destruct (SyncingAudioView.audioView v) as [av|].
    + destruct (AudioView.pause None av); [|discriminate].
      injection H1 as <- <-. simpl. split; [exact Hok|].
      intros r [E|[]]. discriminate.
    + injection H1 as <- <-. simpl. split; [exact Hok|]. intros r [].
  - unfold SyncingAudioView.assetsLoaded in H.
    apply applyPlayState_frame in H. destruct H as (Hb & _ & Hr & _).
    simpl in *. rewrite Hb. split; [unfold boostOk; simpl; auto|].
    intros r Hin. exists 0%Z. split; [unfold boostOk; simpl; auto|].
    now apply Hr.
  - unfold SyncingAudioView.playStateChanged in H.
    destruct (match SyncingAudioView.latestPlayState v with
              | Some latest => PlayState.same data latest
              | None => false
              end).
    + injection H as <- <-. split; [exact Hok | intros r []].
    + apply applyPlayState_frame in H. destruct H as (Hb & _ & Hr & _).
      simpl in *. rewrite Hb. split; [exact Hok|].
      intros r Hin. exists (SyncingAudioView.playbackBoost v).
      split; [exact Hok | now apply Hr].
  - unfold SyncingAudioView.startOffsetChanged in H.
    destruct (SyncingAudioView.latestPlayState v) as [ps|]; [|discriminate].
    destruct (PlayState.isPlaying ps).
    + apply checkPlaybackTiming_frame in H.
      destruct H as (_ & _ & _ & Hb & Hr & _). simpl in *.
      split; [now apply Hb|].
      intros r Hin. destruct (Hr r Hin) as [-> Hok']. eauto.
    + injection H as <- <-. split; [exact Hok | intros r []].
  - unfold SyncingAudioView.handleSyncState in H.
    destruct (SyncingAudioView.waitingForSync v && isSynced).
    + apply applyPlayState_frame in H. destruct H as (Hb & _ & Hr & _).
      simpl in *. rewrite Hb. split; [exact Hok|].
      intros r Hin. exists (SyncingAudioView.playbackBoost v).
      split; [exact Hok | now apply Hr].
    + injection H as <- <-. split; [exact Hok | intros r []].
  - unfold SyncingAudioView.handleUserClick in H.
    destruct (SyncingAudioView.audioView v) as [av|];
      [|injection H as <- <-; split; [exact Hok | intros r []]].
    destruct (_ && _);
      [|injection H as <- <-; split; [exact Hok | intros r []]].
    apply applyPlayState_frame in H. destruct H as (Hb & _ & Hr & _).
    rewrite Hb. split; [exact Hok|].
    intros r Hin. exists (SyncingAudioView.playbackBoost v).
    split; [exact Hok | now apply Hr].
  - unfold SyncingAudioView.playSettled in H.
    destruct (SyncingAudioView.audioView v) as [av|].
    + destruct (AudioView.playSettled started av) as [av' ok].
      injection H as <- <-. simpl. split; [exact Hok|].
      intros r [E|[]]. discriminate.
    + injection H as <- <-. split; [exact Hok | intros r []].
Qed.

Lemma rateOf_bounds (b : Z) :
  boostOk b -> 95 # 100 <= SyncingAudioView.rateOf b <= 105 # 100.
Proof.
  unfold boostOk, SyncingAudioView.rateOf.
  intros [<-|[<-|[<-|[<-|[<-|[<-|[<-|[]]]]]]]]; split; vm_compute; discriminate.
Qed.

(** X5.  Whatever events reach a follower, in whatever order and at
    whatever times, its boost stays one of -5, -3, -1, 0, 1, 3, 5 percent,
    and every playback rate it sets on the device is [1 + boost / 100] for
    such a boost, hence between 0.95 and 1.05. *)
Theorem follower_boost_invariant (events : list (Z * Q * FollowerEvent)) :
  forall (v v' : SyncingAudioView.t) (calls : list SyncingAudioView.Call),
    boostOk (SyncingAudioView.playbackBoost v) ->
    followerRun events v = Some (v', calls) ->
    boostOk (SyncingAudioView.playbackBoost v')
    /\ (forall r, In (SyncingAudioView.SetRate r) calls ->
                  (exists b, boostOk b /\ r = SyncingAudioView.rateOf b)
                  /\ 95 # 100 <= r <= 105 # 100).
Proof.
  induction events as [|[[now sessionNow] e] rest IH]; intros v v' calls Hok H.
  - injection H as <- <-. split; [exact Hok | intros r []].
  - simpl in H. apply bind_Some in H.
    destruct H as (v1 & c1 & c2 & H1 & H2 & ->).
    destruct (followerStep_boost now sessionNow e v v1 c1 Hok H1) as [Hok1 Hr1].
    destruct (IH v1 v' c2 Hok1 H2) as [Hok' Hr2].
    split; [exact Hok'|].
    intros r Hin. apply in_app_or in Hin. destruct Hin as [Hin|Hin].
    + destruct (Hr1 r Hin) as (b & Hb & ->).
      split; [eauto | now apply rateOf_bounds].
    + now apply Hr2.
Qed.

Lemma follower_boost_invariant_witness :
  let loaded := AudioView.mk 100 false false 0 1 1 in
  let m := SyncedAudioModel.mk true (Some 0) None (Some "X"%string) (Some "X"%string) in
  exists v' calls,
    followerRun
      [(1000%Z, 10000, AssetsChangedEvent true m);
       (1500%Z, 10400, AssetsLoadedEvent loaded);
       (1600%Z, 10500, PlaySettledEvent true);
       (9000%Z, 18000, StartOffsetChangedEvent 7900)]
      SyncingAudioView.init = Some (v', calls)
    /\ boostOk (SyncingAudioView.playbackBoost v').
Proof.
  intros loaded m.
  assert (Hrun : exists v' calls,
             followerRun
               [(1000%Z, 10000, AssetsChangedEvent true m);
                (1500%Z, 10400, AssetsLoadedEvent loaded);
                (1600%Z, 10500, PlaySettledEvent true);
                (9000%Z, 18000, StartOffsetChangedEvent 7900)]
               SyncingAudioView.init = Some (v', calls))
    by (do 2 eexists; vm_compute; reflexivity).
  destruct Hrun as (v' & calls & Hrun).
  assert (Hok : boostOk (SyncingAudioView.playbackBoost SyncingAudioView.init))
    by (unfold boostOk; simpl; auto).
  exists v', calls. split; [exact Hrun|].
  exact (proj1 (follower_boost_invariant _ _ _ _ Hok Hrun)).
Defined.

(** The run of the witness: the follower comes up playing, and 7.5 s later
    finds itself 400 ms ahead of the new start offset and slows down by
    5 percent. *)
Example follower_run_example :
  let loaded := AudioView.mk 100 false false 0 1 1 in
  let m := SyncedAudioModel.mk true (Some 0) None (Some "X"%string) (Some "X"%string) in
  exists v' calls,
    followerRun
      [(1000%Z, 10000, AssetsChangedEvent true m);
       (1500%Z, 10400, AssetsLoadedEvent loaded);
       (1600%Z, 10500, PlaySettledEvent true);
       (9000%Z, 18000, StartOffsetChangedEvent 7900)]
      SyncingAudioView.init = Some (v', calls)
    /\ SyncingAudioView.playbackBoost v' = (-5)%Z
    /\ SyncingAudioView.smoothedDiff v' = Some 400%Z
    /\ filter isSetRate calls
       = [SyncingAudioView.SetRate (SyncingAudioView.rateOf 0);
          SyncingAudioView.SetRate (SyncingAudioView.rateOf (-5))].
Proof.
  do 2 eexists. split; [vm_compute; reflexivity|].
  repeat split.
Qed.

(** ** The corrector and blocked playback *)

(** X6.  Entering the playing state marks the device blocked until the
    browser has answered [play]: until then a correction pass does nothing.
    If the browser refuses, the enable-sound icon is shown, passes keep doing
    nothing, and a click calls [play] again with the position recomputed at
    the click.  If it agrees, the icon is hidden, the device is playing and
    unblocked, and a click does nothing. *)
Theorem corrector_waits_for_play (now : Z) (sessionNow : Q)
    (v : SyncingAudioView.t) (av : AudioView.t) (ps : PlayState.t) :
  SyncingAudioView.audioView v = Some av ->
  SyncingAudioView.waitingForSync v = false ->
  SyncingAudioView.latestPlayState v = Some ps ->
  PlayState.isPlaying ps = true ->
  0 <= AudioView.duration av ->
  exists v1 calls1,
    SyncingAudioView.applyPlayState now sessionNow v = Some (v1, calls1)
    /\ (forall now' sessionNow',
          SyncingAudioView.checkPlaybackTiming now' sessionNow' v1
          = Some (v1, []))
    /\ (exists v2,
          SyncingAudioView.playSettled false v1
          = Some (v2, [SyncingAudioView.IconVisible "enableSound" true])
          /\ (forall now' sessionNow',
                SyncingAudioView.checkPlaybackTiming now' sessionNow' v2
                = Some (v2, []))
          /\ (forall now' sessionNow',
                exists v3 calls3,
                  SyncingAudioView.handleUserClick now' sessionNow' v2
                  = Some (v3, calls3)
                  /\ filter isPlayOrPause calls3
                     = [SyncingAudioView.Play
                          ((sessionNow' - toNumber (PlayState.startOffset ps))
                             / 1000 + (1 # 10) + 0)]))
    /\ (exists v2 av2,
          SyncingAudioView.playSettled true v1
          = Some (v2, [SyncingAudioView.IconVisible "enableSound" false])
          /\ SyncingAudioView.audioView v2 = Some av2
          /\ AudioView.isPlaying av2 = true
          /\ AudioView.isBlocked av2 = false
          /\ (forall now' sessionNow',
                SyncingAudioView.handleUserClick now' sessionNow' v2
                = Some (v2, []))).
Proof.
  intros Hd Hs Hl Hp Hdur.
  destruct (applyPlayState_playing now sessionNow v av ps Hd Hs Hl Hdur Hp)
    as (w & _ & Happ).
  rewrite Happ. do 2 eexists. split; [reflexivity|].
  split; [reflexivity|]. split.
  - eexists. split; [reflexivity|]. split; [reflexivity|].
    intros now' sessionNow'.
    match goal with
    | |- context [SyncingAudioView.handleUserClick _ _ ?x] => set (v2 := x)
    end.
    destruct (applyPlayState_playing now' sessionNow' v2 _ ps
                eq_refl eq_refl eq_refl Hdur Hp) as (w' & _ & Happ').
    unfold SyncingAudioView.handleUserClick.
    cbn [v2 SyncingAudioView.audioView SyncingAudioView.set_audioView
         AudioView.playSettled fst AudioView.isBlocked AudioView.isPlaying
         andb].
    fold v2. rewrite Happ'. do 2 eexists. split; reflexivity.
  - do 2 eexists. split; [reflexivity|]. repeat split.
Qed.

Lemma corrector_waits_for_play_witness :
  let av := AudioView.mk 100 false false 0 1 1 in
  let ps := PlayState.mk true (Some 95000) None in
  let v := SyncingAudioView.mk (Some av) (Some ps) false None None None 0 in
  exists v1 calls1,
    SyncingAudioView.applyPlayState 777 100000 v = Some (v1, calls1)
    /\ (forall now' sessionNow',
          SyncingAudioView.checkPlaybackTiming now' sessionNow' v1
          = Some (v1, [])).
Proof.
  destruct (corrector_waits_for_play 777 100000
              (SyncingAudioView.mk
                 (Some (AudioView.mk 100 false false 0 1 1))
                 (Some (PlayState.mk true (Some 95000) None))
                 false None None None 0)
              (AudioView.mk 100 false false 0 1 1)
              (PlayState.mk true (Some 95000) None)
              eq_refl eq_refl eq_refl eq_refl
              ltac:(unfold Qle; simpl; lia))
    as (v1 & calls1 & H1 & H2 & _).
  exists v1, calls1. split; assumption.
Defined.

(** ** Re-anchoring the start offset *)

Lemma adjustments_not_play_or_pause (calls : list SyncingAudioView.Call) :
  forallb isAdjustment calls = true -> filter isPlayOrPause calls = [].
Proof.
  induction calls as [|c rest IH]; [reflexivity|].
  simpl. intro H. apply andb_true_iff in H. destruct H as [Hc Hr].
  destruct c; simpl in *; try discriminate; auto.
Qed.

(** X7.  A [start-offset-changed] event never restarts playback: the
    follower calls neither [play] nor [pause], whatever it measures.  While
    the follower's triple says paused the event is ignored altogether; while
    it says playing the new offset replaces the old one in the triple, the
    rest of which stays, and the device's playing and blocked flags are
    untouched. *)
Theorem startOffsetChanged_keeps_playing (now : Z) (sessionNow : Q)
    (startOffset : Q) (v v' : SyncingAudioView.t)
    (calls : list SyncingAudioView.Call) :
  SyncingAudioView.startOffsetChanged now sessionNow startOffset v
  = Some (v', calls) ->
  filter isPlayOrPause calls = []
  /\ exists ps,
       SyncingAudioView.latestPlayState v = Some ps
       /\ (PlayState.isPlaying ps = false -> v' = v /\ calls = [])
       /\ (PlayState.isPlaying ps = true ->
           SyncingAudioView.latestPlayState v'
           = Some (PlayState.mk true (Some startOffset) (PlayState.pausedTime ps))
           /\ match SyncingAudioView.audioView v, SyncingAudioView.audioView v' with
              | Some av, Some av' =>
                  AudioView.isPlaying av' = AudioView.isPlaying av
                  /\ AudioView.isBlocked av' = AudioView.isBlocked av
              | None, None => True
              | _, _ => False
              end).
Proof.
  unfold SyncingAudioView.startOffsetChanged.
  destruct (SyncingAudioView.latestPlayState v) as [ps|]; [|discriminate].
  destruct (PlayState.isPlaying ps) eqn:Hp.
  - intro H. apply checkPlaybackTiming_frame in H.
    destruct H as (Hl & _ & Hadj & _ & _ & Hdev).
    split; [now apply adjustments_not_play_or_pause|].
    exists ps. split; [reflexivity|]. split; [intro X; congruence|].
    intros _. split; [exact Hl|].
    simpl in Hdev.
    destruct (SyncingAudioView.audioView v), (SyncingAudioView.audioView v');
      tauto.
  - intro H. injection H as <- <-. split; [reflexivity|].
    exists ps. split; [reflexivity|]. split; [auto | intro X; congruence].
Qed.

Lemma startOffsetChanged_keeps_playing_witness :
  let av := AudioView.mk 100 true false (105 # 10) 1 1 in
  let ps := PlayState.mk true (Some 0) None in
  let v := SyncingAudioView.mk (Some av) (Some ps) false None None
             (Some 1500%Z) 0 in
  exists v' calls,
    SyncingAudioView.startOffsetChanged 9000 18000 7900 v = Some (v', calls)
    /\ filter isPlayOrPause calls = [].
Proof.
  intros av ps v.
  assert (Hrun : exists v' calls,
             SyncingAudioView.startOffsetChanged 9000 18000 7900 v
             = Some (v', calls))
    by (do 2 eexists; vm_compute; reflexivity).
  destruct Hrun as (v' & calls & Hrun).
  exists v', calls. split; [exact Hrun|].
  exact (proj1 (startOffsetChanged_keeps_playing 9000 18000 7900 _ v' calls Hrun)).
Defined.

(** ** Waiting for the session to sync *)

(** X8.  While the follower waits for sync a new play state is recorded but
    not applied: no call is made.  When the [synced] event then reports
    sync, the recorded state is applied with exactly one [play] or [pause];
    a [synced] event that reports sync to a follower that was not waiting
    applies nothing, and one that reports loss of sync only sets the flag. *)
Theorem play_state_waits_for_sync (now : Z) (sessionNow : Q)
    (data : PlayState.t) (v : SyncingAudioView.t) (av : AudioView.t) :
  SyncingAudioView.audioView v = Some av ->
  0 <= AudioView.duration av ->
  (forall latest, SyncingAudioView.latestPlayState v = Some latest ->
                  PlayState.same data latest = false) ->
  (SyncingAudioView.waitingForSync v = true ->
   exists v1,
     SyncingAudioView.playStateChanged now sessionNow data v = Some (v1, [])
     /\ SyncingAudioView.latestPlayState v1 = Some data
     /\ SyncingAudioView.audioView v1 = Some av
     /\ (forall now' sessionNow',
           exists v2 calls2,
             SyncingAudioView.handleSyncState now' sessionNow' true v1
             = Some (v2, calls2)
             /\ SyncingAudioView.waitingForSync v2 = false
             /\ SyncingAudioView.latestPlayState v2 = Some data
             /\ List.length (filter isPlayOrPause calls2) = 1%nat))
  /\ (SyncingAudioView.waitingForSync v = false ->
      (exists v1,
          SyncingAudioView.handleSyncState now sessionNow true v = Some (v1, [])
          /\ SyncingAudioView.waitingForSync v1 = false)
      /\ (exists v1,
            SyncingAudioView.handleSyncState now sessionNow false v
            = Some (v1, [])
            /\ SyncingAudioView.waitingForSync v1 = true
            /\ SyncingAudioView.audioView v1 = Some av)).
Proof.
  intros Hd Hdur Hnew. split.
  - intro Hw.
    unfold SyncingAudioView.playStateChanged.
    assert (Heard : match SyncingAudioView.latestPlayState v with
                    | Some latest => PlayState.same data latest
                    | None => false
                    end = false).
    { destruct (SyncingAudioView.latestPlayState v) as [latest|];
        [now apply Hnew | reflexivity]. }
    rewrite Heard.
    unfold SyncingAudioView.applyPlayState.
    cbn [SyncingAudioView.audioView SyncingAudioView.set_latestPlayState
         SyncingAudioView.waitingForSync].
    rewrite Hd, Hw. eexists. split; [reflexivity|].
    split; [reflexivity|]. split; [exact Hd|].
    intros now' sessionNow'.
    unfold SyncingAudioView.handleSyncState.
    cbn [SyncingAudioView.waitingForSync SyncingAudioView.set_latestPlayState].
    rewrite Hw. cbn [andb negb].
    set (v1 := SyncingAudioView.set_waitingForSync false _).
    destruct (PlayState.isPlaying data) eqn:Hp.
    + destruct (applyPlayState_playing now' sessionNow' v1 av data
                  Hd eq_refl eq_refl Hdur Hp) as (w & _ & Happ).
      rewrite Happ. do 2 eexists. split; [reflexivity|]. repeat split.
    + destruct (applyPlayState_paused now' sessionNow' v1 av data
                  Hd eq_refl eq_refl Hdur Hp) as (w & _ & Happ).
      rewrite Happ. do 2 eexists. split; [reflexivity|]. repeat split.
  - intro Hw. unfold SyncingAudioView.handleSyncState. rewrite Hw.
    cbn [andb negb]. split; eexists; (split; [reflexivity|]); simpl; auto.
Qed.

Lemma play_state_waits_for_sync_witness :
  let av := AudioView.mk 100 false false 0 1 1 in
  let v := SyncingAudioView.mk (Some av)
             (Some (PlayState.mk false None (Some 0))) true None None None 0 in
  exists v1,
    SyncingAudioView.playStateChanged 777 100000
      (PlayState.mk true (Some 95000) None) v = Some (v1, [])
    /\ SyncingAudioView.latestPlayState v1
       = Some (PlayState.mk true (Some 95000) None).
Proof.
  destruct (proj1 (play_state_waits_for_sync 777 100000
              (PlayState.mk true (Some 95000) None)
              (SyncingAudioView.mk
                 (Some (AudioView.mk 100 false false 0 1 1))
                 (Some (PlayState.mk false None (Some 0)))
                 true None None None 0)
              (AudioView.mk 100 false false 0 1 1)
              eq_refl
              ltac:(unfold Qle; simpl; lia)
              ltac:(intros latest H; injection H as <-; reflexivity))
            eq_refl)
    as (v1 & H1 & H2 & _).
  exists v1. split; assumption.
Defined.

(** ** Rate changes and jumps keep out of each other's way *)

(** X9.  A pass that jumps leaves the rate alone: the boost, the device's
    playback rate and the time of the last rate adjustment are as before,
    and no rate is set. *)
Theorem jump_skips_rate_check (now : Z) (sessionNow : Q)
    (v : SyncingAudioView.t) (av : AudioView.t) (ps : PlayState.t)
    (expectedTime : Q) :
  SyncingAudioView.audioView v = Some av ->
  AudioView.isPlaying av = true ->
  AudioView.isBlocked av = false ->
  SyncingAudioView.latestPlayState v = Some ps ->
  AudioView.wrappedTime av
    ((sessionNow - toNumber (PlayState.startOffset ps)) / 1000) false
  = Some expectedTime ->
  Qabs (AudioView.currentTime av - expectedTime) < AudioView.duration av / 2 ->
  SyncingAudioView.jumpNow now (SyncingAudioView.lastJump v)
    (SyncingAudioView.smooth (SyncingAudioView.smoothedDiff v)
       ((AudioView.currentTime av - expectedTime) * 1000)) = true ->
  exists v' av' calls,
    SyncingAudioView.checkPlaybackTiming now sessionNow v = Some (v', calls)
    /\ SyncingAudioView.audioView v' = Some av'
    /\ SyncingAudioView.playbackBoost v' = SyncingAudioView.playbackBoost v
    /\ SyncingAudioView.lastRateAdjust v' = SyncingAudioView.lastRateAdjust v
    /\ AudioView.playbackRate av' = AudioView.playbackRate av
    /\ filter isSetRate calls = []
    /\ List.length (filter isSeek calls) = 1%nat.
Proof.
  intros Hd Hp Hb Hl He Hacc Hj.
  pose proof (accepted_duration_pos av expectedTime Hacc) as Hpos.
  rewrite (checkPlaybackTiming_running now sessionNow v av ps expectedTime
             Hd Hp Hb Hl He).
  apply Qlt_bool_iff in Hacc. rewrite Hacc.
  unfold SyncingAudioView.correct.
  cbn [SyncingAudioView.lastJump SyncingAudioView.set_smoothedDiff].
  rewrite Hj.
  match goal with
  | |- context [AudioView.wrappedTime av ?x true] =>
      destruct (wrappedTime_guarded av x Hpos) as (w & Hw & _); rewrite Hw
  end.
  cbn [option_map finishPass].
  match goal with
  | |- context [if ?c then SyncingAudioView.set_lastJump None _ else _] =>
      destruct c
  end; do 3 eexists; (split; [reflexivity|]); simpl; auto 10.
Qed.

Lemma jump_skips_rate_check_witness :
  let av := AudioView.mk 100 true false (106 # 10) (103 # 100) 1 in
  let ps := PlayState.mk true (Some 0) None in
  let v := SyncingAudioView.mk (Some av) (Some ps) false None
             None (Some 1000%Z) 3 in
  exists v' av' calls,
    SyncingAudioView.checkPlaybackTiming 20000 10000 v = Some (v', calls)
    /\ SyncingAudioView.audioView v' = Some av'
    /\ SyncingAudioView.playbackBoost v' = 3%Z
    /\ SyncingAudioView.lastRateAdjust v' = Some 1000%Z
    /\ AudioView.playbackRate av' = 103 # 100
    /\ filter isSetRate calls = []
    /\ List.length (filter isSeek calls) = 1%nat.
Proof.
  apply (jump_skips_rate_check 20000 10000
           (SyncingAudioView.mk
              (Some (AudioView.mk 100 true false (106 # 10) (103 # 100) 1))
              (Some (PlayState.mk true (Some 0) None))
              false None None (Some 1000%Z) 3)
           (AudioView.mk 100 true false (106 # 10) (103 # 100) 1)
           (PlayState.mk true (Some 0) None)
           ((10000 - 0) / 1000)
           eq_refl eq_refl eq_refl eq_refl).
  - vm_compute. reflexivity.
  - vm_compute. reflexivity.
  - vm_compute. reflexivity.
Defined.

(** X10.  Less than 3 s after the recorded rate adjustment no pass changes
    the rate: no rate is set, the boost and the record stay.  Entering the
    playing state makes such a record, so the rate set on entry stands for
    the first 3 s of playback. *)
Theorem rate_cooldown (now t : Z) (sessionNow : Q)
    (v v' : SyncingAudioView.t) (calls : list SyncingAudioView.Call) :
  SyncingAudioView.lastRateAdjust v = Some t ->
  (now - t < 3000)%Z ->
  SyncingAudioView.checkPlaybackTiming now sessionNow v = Some (v', calls) ->
  (filter isSetRate calls = []
   /\ SyncingAudioView.playbackBoost v' = SyncingAudioView.playbackBoost v
   /\ SyncingAudioView.lastRateAdjust v' = Some t)
  /\ (forall now0 sessionNow0 v0 av0 ps0 calls0,
        SyncingAudioView.audioView v0 = Some av0 ->
        SyncingAudioView.latestPlayState v0 = Some ps0 ->
        PlayState.isPlaying ps0 = true ->
        SyncingAudioView.applyPlayState now0 sessionNow0 v0 = Some (v, calls0) ->
        SyncingAudioView.waitingForSync v0 = false ->
        t = now0).
Proof.
  intros Hl Hnear H. split.
  - revert H. unfold SyncingAudioView.checkPlaybackTiming.
    destruct (SyncingAudioView.audioView v) as [av|];
      [|intro H; injection H as <- <-; auto].
    destruct (_ && _); [|intro H; injection H as <- <-; auto].
    destruct (SyncingAudioView.calculateAudioTime _ _); [|discriminate].
    destruct (AudioView.wrappedTime _ _ _) as [expectedTime|]; [|discriminate].
    destruct (Qlt_bool (Qabs _) _).
    + unfold SyncingAudioView.correct.
      cbn [SyncingAudioView.lastJump SyncingAudioView.set_smoothedDiff
           SyncingAudioView.lastRateAdjust].
      rewrite Hl. cbn [orZero].
      assert (E : (SyncingAudioView.CHECK_INTERVAL <=? now - t)%Z = false)
        by (apply Z.leb_gt; unfold SyncingAudioView.CHECK_INTERVAL; lia).
      rewrite E.
      destruct (SyncingAudioView.jumpNow _ _ _).
      * destruct (AudioView.wrappedTime _ _ _); [|discriminate].
        intro H; injection H as <- <-.
        destruct (Qlt_bool _ _); simpl; auto.
      * intro H; injection H as <- <-.
        destruct (Qlt_bool _ _); simpl; auto.
    + intro H; injection H as <- <-.
      destruct (Qlt_bool _ _); simpl; auto.
  - intros now0 sessionNow0 v0 av0 ps0 calls0 Hd0 Hl0 Hp0 Happ Hs0.
    unfold SyncingAudioView.applyPlayState, SyncingAudioView.calculateAudioTime
      in Happ.
    destruct v0 as [a l wfs sd lj lr pb]; simpl in Hd0, Hl0, Hs0.
    subst a l wfs. cbn -[AudioView.play] in Happ. rewrite Hp0 in Happ.
    cbn -[AudioView.play] in Happ.
    destruct (AudioView.play _ _); [|discriminate].
    injection Happ as <- _. simpl in Hl. congruence.
Qed.

Lemma rate_cooldown_witness :
  let av := AudioView.mk 100 true false (105 # 10) 1 1 in
  let ps := PlayState.mk true (Some 0) None in
  let v := SyncingAudioView.mk (Some av) (Some ps) false None None
             (Some 1500%Z) 0 in
  exists v' calls,
    SyncingAudioView.checkPlaybackTiming 4000 10100 v = Some (v', calls)
    /\ filter isSetRate calls = []
    /\ SyncingAudioView.playbackBoost v' = 0%Z
    /\ SyncingAudioView.lastRateAdjust v' = Some 1500%Z.
Proof.
  intros av ps v.
  assert (Hrun : exists v' calls,
             SyncingAudioView.checkPlaybackTiming 4000 10100 v
             = Some (v', calls))
    by (do 2 eexists; vm_compute; reflexivity).
  destruct Hrun as (v' & calls & Hrun).
  exists v', calls. split; [exact Hrun|].
  apply (proj1 (rate_cooldown 4000 1500 10100 v v' calls eq_refl
                  ltac:(simpl; lia) Hrun)).
Defined.

(** ** A follower without a device *)



(** ** The follower's triple follows the model's *)






(** ** The conductor *)

Lemma video_wrappedTime_returns (a : VideoView.t) (p : Q) (guarded : bool) :
  0 <= VideoView.duration a ->
  exists w, VideoView.wrappedTime a p guarded = Some w.
Proof.
  intro H. exact (wrappedTime_returns (asAudio a) p guarded H).
Qed.

(** With a video of known duration [applyPlayState] returns; it publishes
    nothing and keeps the conductor's triple. *)
Lemma conductor_applyPlayState_ok (sessionNow : Q) (v : ConductorView.t)
    (vv : VideoView.t) (ps : PlayState.t) :
  ConductorView.videoView v = Some vv ->
  ConductorView.latestPlayState v = Some ps ->
  0 <= VideoView.duration vv ->
  exists v' calls vv',
    ConductorView.applyPlayState sessionNow v = Some (v', calls)
    /\ ConductorView.latestPlayState v' = Some ps
    /\ ConductorView.lastTimingCheck v' = ConductorView.lastTimingCheck v
    /\ ConductorView.waitingForSync v' = ConductorView.waitingForSync v
    /\ filter isPublish calls = []
    /\ ConductorView.videoView v' = Some vv'
    /\ VideoView.duration vv' = VideoView.duration vv.
Proof.
  intros Hd Hl Hdur.
  destruct v as [a l wfs pb ltc]; simpl in Hd, Hl. subst a l.
  unfold ConductorView.applyPlayState, ConductorView.calculateVideoTime.
  cbn -[VideoView.play VideoView.pause].
  destruct wfs; [do 3 eexists; split; [reflexivity|]; simpl; auto 10|].
  destruct (PlayState.isPlaying ps); cbn -[VideoView.play VideoView.pause].
  - unfold VideoView.play.
    match goal with
    | |- context [VideoView.wrappedTime ?a ?p true] =>
        destruct (video_wrappedTime_returns a p true Hdur) as (w & Hw);
        rewrite Hw
    end.
    do 3 eexists. split; [reflexivity|]. simpl. auto 10.
  - unfold VideoView.pause, VideoView.setStatic.
    match goal with
    | |- context [VideoView.wrappedTime ?a ?p true] =>
        destruct (video_wrappedTime_returns a p true Hdur) as (w & Hw);
        rewrite Hw
    end.
    do 3 eexists. split; [reflexivity|]. simpl. auto 10.
Qed.

Lemma Math_round_near (x : Q) :
  Qabs (inject_Z (Math_round x) - x) <= 1 # 2.
Proof.
  unfold Math_round.
  pose proof (Qfloor_le (x + (1 # 2))) as L.
  pose proof (Qfloor_above (x + (1 # 2))) as U.
  apply Qabs_Qle_condition. split; lra.
Qed.

(** X13.  A click on the conductor always toggles: it publishes exactly one
    [set-play-state], for the opposite of the state the conductor held, and
    holds that state afterwards; the check for a repeated state never
    suppresses it.  Starting from paused, the state published has
    [pausedTime 0] and the start offset computed from the video's position;
    starting from playing, the video is paused first, before anything is
    published, and the state published has no start offset and the video's
    position rounded to the hundredth of a second. *)
Theorem conductor_click_toggles (sessionNow : Q) (v : ConductorView.t)
    (vv : VideoView.t) (ps : PlayState.t) :
  ConductorView.videoView v = Some vv ->
  ConductorView.latestPlayState v = Some ps ->
  0 <= VideoView.duration vv ->
  exists v' calls data vv',
    ConductorView.handleUserClick sessionNow v = Some (v', calls)
    /\ ConductorView.latestPlayState v' = Some data
    /\ filter isPublish calls = [ConductorView.PublishSetPlayState data]
    /\ PlayState.isPlaying data = negb (PlayState.isPlaying ps)
    /\ ConductorView.videoView v' = Some vv'
    /\ VideoView.duration vv' = VideoView.duration vv
    /\ (PlayState.isPlaying ps = false ->
        data = PlayState.mk true
                 (Some (inject_Z
                          (Math_round (sessionNow
                                       - 1000 * VideoView.currentTime vv))))
                 (Some 0))
    /\ (PlayState.isPlaying ps = true ->
        PlayState.startOffset data = None
        /\ (exists rest, calls = ConductorView.Pause None
                                   :: ConductorView.PublishSetPlayState data
                                   :: rest)
        /\ exists t, PlayState.pausedTime data = Some t
                     /\ Qabs (t - VideoView.currentTime vv) <= 1 # 200).
Proof.
  intros Hd Hl Hdur.
  unfold ConductorView.handleUserClick. rewrite Hd, Hl.
  destruct (PlayState.isPlaying ps) eqn:Hp; cbn [negb].
  - (* playing: pause *)
    cbn [VideoView.pause VideoView.setStatic].
    set (vv1 := VideoView.set_isBlocked false (VideoView.set_isPlaying false vv)).
    set (t := inject_Z (Math_round (VideoView.currentTime vv1 * 100)) / 100).
    set (data := PlayState.mk false None (Some t)).
    unfold ConductorView.playStateChanged, bind, emit.
    cbn [ConductorView.latestPlayState ConductorView.set_videoView].
    rewrite Hl.
    assert (Hs : PlayState.same data ps = false)
      by (unfold PlayState.same; simpl; now rewrite Hp).
    rewrite Hs.
    destruct (conductor_applyPlayState_ok sessionNow
                (ConductorView.set_latestPlayState (Some data)
                   (ConductorView.set_videoView (Some vv1) v))
                vv1 data eq_refl eq_refl Hdur)
      as (v' & calls & vv' & Happ & Hl' & _ & _ & Hpub & Hv' & Hd').
    rewrite Happ. exists v'. eexists. exists data, vv'.
    split; [reflexivity|]. split; [exact Hl'|].
    split; [simpl; now rewrite Hpub|].
    split; [reflexivity|]. split; [exact Hv'|]. split; [exact Hd'|].
    split; [intro X; discriminate|]. intros _.
    split; [reflexivity|]. split; [eexists; reflexivity|].
    exists t. split; [reflexivity|].
    subst t. change (VideoView.currentTime vv1) with (VideoView.currentTime vv).
    set (ct := VideoView.currentTime vv).
    pose proof (Math_round_near (ct * 100)) as Hn.
    apply Qabs_Qle_condition in Hn. destruct Hn as [L U].
    set (r := inject_Z (Math_round (ct * 100))) in *.
    assert (E : r / 100 == r * (1 # 100)) by (field; discriminate).
    apply Qabs_Qle_condition. rewrite E. split; lra.
  - (* paused: play *)
    set (data := PlayState.mk true
                   (Some (inject_Z (ConductorView.calculateVideoStartOffset
                                      sessionNow vv))) (Some 0)).
    unfold ConductorView.playStateChanged, bind, emit. rewrite Hl.
    assert (Hs : PlayState.same data ps = false)
      by (unfold PlayState.same; simpl; now rewrite Hp).
    rewrite Hs.
    destruct (conductor_applyPlayState_ok sessionNow
                (ConductorView.set_latestPlayState (Some data) v)
                vv data Hd eq_refl Hdur)
      as (v' & calls & vv' & Happ & Hl' & _ & _ & Hpub & Hv' & Hd').
    rewrite Happ. exists v'. eexists. exists data, vv'.
    split; [reflexivity|]. split; [exact Hl'|].
    split; [simpl; now rewrite Hpub|].
    split; [reflexivity|]. split; [exact Hv'|]. split; [exact Hd'|].
    split; [intros _; reflexivity | intro X; discriminate].
Qed.

Lemma conductor_click_toggles_witness :
  let vv := VideoView.mk 100 true false (12345 # 1000) 1 in
  let ps := PlayState.mk true (Some 0) None in
  let v := ConductorView.mk (Some vv) (Some ps) false 0 None in
  exists v' calls data vv',
    ConductorView.handleUserClick 20000 v = Some (v', calls)
    /\ ConductorView.latestPlayState v' = Some data
    /\ filter isPublish calls = [ConductorView.PublishSetPlayState data]
    /\ PlayState.isPlaying data = false
    /\ ConductorView.videoView v' = Some vv'.
Proof.
  destruct (conductor_click_toggles 20000
              (ConductorView.mk
                 (Some (VideoView.mk 100 true false (12345 # 1000) 1))
                 (Some (PlayState.mk true (Some 0) None)) false 0 None)
              (VideoView.mk 100 true false (12345 # 1000) 1)
              (PlayState.mk true (Some 0) None)
              eq_refl eq_refl ltac:(unfold Qle; simpl; lia))
    as (v' & calls & data & vv' & H1 & H2 & H3 & H4 & H5 & _).
  exists v', calls, data, vv'. auto.
Defined.

(** The click of the witness pauses at 12.35 s, the position 12.345 s
    rounded half up. *)
Example conductor_click_example :
  let vv := VideoView.mk 100 true false (12345 # 1000) 1 in
  let ps := PlayState.mk true (Some 0) None in
  let v := ConductorView.mk (Some vv) (Some ps) false 0 None in
  exists v' rest t,
    ConductorView.handleUserClick 20000 v
    = Some (v', ConductorView.Pause None
                  :: ConductorView.PublishSetPlayState
                       (PlayState.mk false None (Some t))
                  :: rest)
    /\ t == 1235 # 100.
Proof.
  do 3 eexists. split; [vm_compute; reflexivity | reflexivity].
Qed.

(** X14.  [announcePlaybackTiming] publishes at most one [set-start-offset]
    per call, and only when the video is playing and unblocked, the
    conductor's state says playing and at least 900 ms have passed since the
    last timing check; the offset is the session time minus the video's
    position in ms, rounded, and the conductor writes it into its own
    triple.  After it has published, it publishes nothing for the next
    900 ms however often it is called. *)
Theorem announce_rate_limited (now : Z) (sessionNow : Q)
    (v v' : ConductorView.t) (calls : list ConductorView.Call) :
  ConductorView.announcePlaybackTiming now sessionNow v = Some (v', calls) ->
  (calls = []
   \/ exists vv ps,
        ConductorView.videoView v = Some vv
        /\ ConductorView.latestPlayState v = Some ps
        /\ VideoView.isPlaying vv = true
        /\ VideoView.isBlocked vv = false
        /\ PlayState.isPlaying ps = true
        /\ 900 <= inject_Z now - toNumber (ConductorView.lastTimingCheck v)
        /\ calls = [ConductorView.PublishSetStartOffset
                      (Math_round (sessionNow - 1000 * VideoView.currentTime vv))]
        /\ ConductorView.latestPlayState v'
           = Some (PlayState.mk true
                     (Some (inject_Z
                              (Math_round
                                 (sessionNow - 1000 * VideoView.currentTime vv))))
                     (PlayState.pausedTime ps)))
  /\ (calls <> [] ->
      forall now2 sessionNow2 v2 calls2,
        (now2 - now < 900)%Z ->
        ConductorView.announcePlaybackTiming now2 sessionNow2 v'
        = Some (v2, calls2) ->
        v2 = v' /\ calls2 = []).
Proof.
  unfold ConductorView.announcePlaybackTiming.
  destruct (ConductorView.videoView v) as [vv|] eqn:Hv;
    [|intro H; injection H as <- <-; split; [now left | intro X; now elim X]].
  destruct (VideoView.isPlaying vv) eqn:Hp;
    [|intro H; injection H as <- <-; split; [now left | intro X; now elim X]].
  destruct (VideoView.isBlocked vv) eqn:Hb;
    [intro H; injection H as <- <-; split; [now left | intro X; now elim X]|].
  cbn [andb negb].
  destruct (Qle_bool 900 _) eqn:Hdue;
    [|intro H; injection H as <- <-; split; [now left | intro X; now elim X]].
  cbn [ConductorView.latestPlayState ConductorView.set_lastTimingCheck].
  destruct (ConductorView.latestPlayState v) as [ps|] eqn:Hl; [|discriminate].
  destruct (PlayState.isPlaying ps) eqn:Hpp.
  - intro H; injection H as <- <-. split.
    + right. exists vv, ps. apply Qle_bool_iff in Hdue.
      repeat split; auto.
    + intros _ now2 sessionNow2 v2 calls2 Hnear.
      cbn [ConductorView.videoView ConductorView.set_latestPlayState
           ConductorView.set_lastTimingCheck ConductorView.lastTimingCheck
           toNumber].
      rewrite Hv, Hp, Hb. cbn [andb negb].
      assert (E : Qle_bool 900 (inject_Z now2 - inject_Z now) = false).
      { destruct (Qle_bool 900 (inject_Z now2 - inject_Z now)) eqn:E; trivial.
        apply Qle_bool_iff in E.
        assert (L : inject_Z now2 < inject_Z now + inject_Z 900).
        { rewrite <- inject_Z_plus, <- Zlt_Qlt. lia. }
        change (inject_Z 900) with 900 in L. lra. }
      rewrite E. intro H; injection H as <- <-. split; reflexivity.
  - intro H; injection H as <- <-. split; [now left | intro X; now elim X].
Qed.

Lemma announce_rate_limited_witness :
  let vv := VideoView.mk 100 true false (105 # 10) 1 in
  let ps := PlayState.mk true (Some 7900) None in
  let v := ConductorView.mk (Some vv) (Some ps) false 0 (Some 8000) in
  exists v' v2 calls2,
    ConductorView.announcePlaybackTiming 9000 18000 v
    = Some (v', [ConductorView.PublishSetStartOffset 7500])
    /\ ConductorView.announcePlaybackTiming 9400 18400 v' = Some (v2, calls2)
    /\ v2 = v' /\ calls2 = [].
Proof.
  intros vv ps v.
  assert (Hrun : exists v' v2 calls2,
             ConductorView.announcePlaybackTiming 9000 18000 v
             = Some (v', [ConductorView.PublishSetStartOffset 7500])
             /\ ConductorView.announcePlaybackTiming 9400 18400 v'
                = Some (v2, calls2)).
  { do 3 eexists. split; vm_compute; reflexivity. }
  destruct Hrun as (v' & v2 & calls2 & H1 & H2).
  exists v', v2, calls2. split; [exact H1|]. split; [exact H2|].
  apply (proj2 (announce_rate_limited 9000 18000 v v' _ H1)
           ltac:(discriminate) 9400%Z 18400 v2 calls2).
  - simpl; lia.
  - exact H2.
Defined.

(** The call of the witness publishes the start offset 7500. *)
Example announce_example :
  let vv := VideoView.mk 100 true false (105 # 10) 1 in
  let ps := PlayState.mk true (Some 7900) None in
  let v := ConductorView.mk (Some vv) (Some ps) false 0 (Some 8000) in
  exists v',
    ConductorView.announcePlaybackTiming 9000 18000 v
    = Some (v', [ConductorView.PublishSetStartOffset 7500]).
Proof. eexists. vm_compute. reflexivity. Qed.

(** ** Start offset and position *)

(** X15.  The start offset the conductor computes and the position a
    follower derives from it are inverse to each other up to the rounding of
    the offset: a follower that holds the offset computed at session time
    [sessionTime] from the video position [p] expects, [dt] ms later, the
    position [p + dt / 1000] to within half a millisecond.  The same holds
    for the position the conductor itself computes when it starts to
    play. *)
Theorem start_offset_round_trip (sessionTime dt : Q) (vv : VideoView.t)
    (ps : PlayState.t) (v : SyncingAudioView.t) (c : ConductorView.t) :
  PlayState.startOffset ps
  = Some (inject_Z (ConductorView.calculateVideoStartOffset sessionTime vv)) ->
  (SyncingAudioView.latestPlayState v = Some ps ->
   exists e,
     SyncingAudioView.calculateAudioTime (sessionTime + dt) v = Some e
     /\ Qabs (e - (VideoView.currentTime vv + dt / 1000)) <= 1 # 2000)
  /\ (ConductorView.latestPlayState c = Some ps ->
      exists e,
        ConductorView.calculateVideoTime (sessionTime + dt) c = Some e
        /\ Qabs (e - (VideoView.currentTime vv + dt / 1000)) <= 1 # 2000).
Proof.
  intro Hso.
  assert (Hnear : Qabs ((sessionTime + dt - toNumber (PlayState.startOffset ps))
                          / 1000
                        - (VideoView.currentTime vv + dt / 1000))
                  <= 1 # 2000).
  { rewrite Hso. cbn [toNumber].
    unfold ConductorView.calculateVideoStartOffset.
    set (x := sessionTime - 1000 * VideoView.currentTime vv).
    pose proof (Math_round_near x) as Hn.
    apply Qabs_Qle_condition in Hn. destruct Hn as [L U].
    set (r := inject_Z (Math_round x)) in *.
    assert (E : (sessionTime + dt - r) / 1000
                - (VideoView.currentTime vv + dt / 1000)
                == (x - r) * (1 # 1000)) by (subst x; field).
    rewrite E. apply Qabs_Qle_condition. split; lra. }
  split; intro Hl.
  - unfold SyncingAudioView.calculateAudioTime. rewrite Hl.
    eexists. split; [reflexivity | exact Hnear].
  - unfold ConductorView.calculateVideoTime. rewrite Hl.
    eexists. split; [reflexivity | exact Hnear].
Qed.

Lemma start_offset_round_trip_witness :
  let vv := VideoView.mk 100 true false (105 # 10) 1 in
  let ps := PlayState.mk true (Some 7500) None in
  let v := SyncingAudioView.mk None (Some ps) false None None None 0 in
  exists e,
    SyncingAudioView.calculateAudioTime (18000 + 2000) v = Some e
    /\ Qabs (e - (VideoView.currentTime vv + 2000 / 1000)) <= 1 # 2000.
Proof.
  apply (proj1 (start_offset_round_trip 18000 2000
                  (VideoView.mk 100 true false (105 # 10) 1)
                  (PlayState.mk true (Some 7500) None)
                  (SyncingAudioView.mk None
                     (Some (PlayState.mk true (Some 7500) None))
                     false None None None 0)
                  (ConductorView.mk None None false 0 None)
                  eq_refl)).
  reflexivity.
Defined.

(** ** Wrapping *)

Lemma wrap_loop_congruent (d : Q) (n : nat) :
  0 < d ->
  forall x w,
    AudioView.wrap_loop n d x = Some w ->
    (exists k : nat, x == w + inject_Z (Z.of_nat k) * d)
    /\ w <= d /\ (d < x -> 0 < w) /\ (x <= d -> w = x).
Proof.
  intro Hd. induction n as [|n IH]; intros x w H; simpl in H.
  - destruct (Qlt_bool d x) eqn:E; [discriminate|].
    injection H as <-. apply Qlt_bool_false_iff in E.
    split; [exists 0%nat; simpl; ring|]. split; [exact E|].
    split; [intro; lra | reflexivity].
  - destruct (Qlt_bool d x) eqn:E.
    + apply Qlt_bool_iff in E.
      destruct (IH _ _ H) as ((k & Hk) & Hle & Hpos & Hsame).
      split; [|split; [exact Hle|split; [|intro; lra]]].
      * exists (S k). rewrite Nat2Z.inj_succ. unfold Z.succ.
        rewrite inject_Z_plus. change (inject_Z 1) with 1.
        set (q := inject_Z (Z.of_nat k)) in *. lra.
      * intros _. destruct (Qlt_le_dec d (x - d)) as [L|L].
        -- now apply Hpos.
        -- rewrite (Hsame L). lra.
    + injection H as <-. apply Qlt_bool_false_iff in E.
      split; [exists 0%nat; simpl; ring|]. split; [exact E|].
      split; [intro; lra | reflexivity].
Qed.

(** X16.  With a positive duration [wrappedTime] maps a position to the
    point of the loop it stands for: unguarded, the result differs from the
    position by a whole number of durations, is at most the duration, and is
    positive for a position past the end (a position that is an exact
    multiple of the duration wraps to the end of the loop, not to its
    start).  The guard then gives the smaller of that and
    [duration - 0.1].  The video's [wrappedTime] is the same function. *)
Theorem wrappedTime_congruent (a : AudioView.t) (p : Q) :
  0 < AudioView.duration a ->
  exists w,
    AudioView.wrappedTime a p false = Some w
    /\ (exists k : nat, p == w + inject_Z (Z.of_nat k) * AudioView.duration a)
    /\ w <= AudioView.duration a
    /\ (AudioView.duration a < p -> 0 < w)
    /\ AudioView.wrappedTime a p true
       = Some (Qmin (AudioView.duration a - (1 # 10)) w)
    /\ (forall vv guarded,
          VideoView.duration vv = AudioView.duration a ->
          VideoView.wrappedTime vv p guarded
          = AudioView.wrappedTime a p guarded).
Proof.
  intro Hd. unfold AudioView.wrappedTime, VideoView.wrappedTime.
  rewrite (truthy_pos _ Hd).
  destruct (wrap_loop_terminates _ Hd p) as (w & Hw & _).
  rewrite Hw. exists w. split; [reflexivity|].
  destruct (wrap_loop_congruent _ _ Hd _ _ Hw) as (Hk & Hle & Hpos & _).
  split; [exact Hk|]. split; [exact Hle|]. split; [exact Hpos|].
  split; [reflexivity|].
  intros vv guarded E. rewrite E, (truthy_pos _ Hd), Hw. reflexivity.
Qed.

Lemma wrappedTime_congruent_witness :
  let a := AudioView.mk 100 false false 0 1 1 in
  exists w,
    AudioView.wrappedTime a 200 false = Some w
    /\ (exists k : nat, 200 == w + inject_Z (Z.of_nat k) * 100)
    /\ w <= 100 /\ (100 < 200 -> 0 < w).
Proof.
  destruct (wrappedTime_congruent (AudioView.mk 100 false false 0 1 1) 200
              eq_refl) as (w & H1 & H2 & H3 & H4 & _).
  exists w. auto.
Defined.

(** Twice the duration wraps to the end of the loop. *)
Example wrappedTime_of_multiple :
  let a := AudioView.mk 100 false false 0 1 1 in
  exists w, AudioView.wrappedTime a 200 false = Some w /\ w == 100.
Proof. eexists. split; [vm_compute; reflexivity | reflexivity]. Qed.

(** ** Conductor, model and follower in a row *)

Lemma modelHearsAll_no_publish (calls : list ConductorView.Call)
    (m : SyncedAudioModel.t) :
  filter isPublish calls = [] -> modelHearsAll calls m = (m, []).
Proof.
  induction calls as [|c rest IH]; [reflexivity|].
  simpl. destruct c; simpl; try discriminate; intro H; now rewrite IH.
Qed.



(** ** Scrubbing *)

Lemma proportion_of_duration (d p : Q) :
  0 <= d -> 0 <= p <= 1 -> 0 <= d * p <= d.
Proof.
  intros Hd [H0 H1]. split.
  - apply Qmult_le_0_compat; assumption.
  - setoid_replace d with (d * 1) at 2 by ring.
    rewrite (Qmult_comm d p), (Qmult_comm d 1).
    apply Qmult_le_compat_r; assumption.
Qed.

(** X18.  Scrubbing pauses inside the media.  A pointer-down anywhere on
    the bar starts a drag, and whatever it makes the conductor publish is a
    paused state without start offset whose position lies between 0 and the
    video's duration; the conductor holds that state afterwards, and so does
    the model once it has heard the conductor. *)
Theorem scrub_pauses_within_media (offsetX sessionNow : Q)
    (b : TimeBarView.t) (vc : ConductorView.t) (vv : VideoView.t)
    (m : SyncedAudioModel.t) :
  TimeBarView.rootView b = true ->
  ConductorView.videoView vc = Some vv ->
  0 <= VideoView.duration vv ->
  let '(b', cs) := TimeBarView.onPointerDown offsetX b in
  TimeBarView.dragging b' = true
  /\ (List.length cs <= 1)%nat
  /\ forall c, In c cs ->
       exists vc' calls,
         conductorHears sessionNow c vc = Some (vc', calls)
         /\ (List.length (filter isPublish calls) <= 1)%nat
         /\ forall data,
              In (ConductorView.PublishSetPlayState data) calls ->
              PlayState.isPlaying data = false
              /\ PlayState.startOffset data = None
              /\ (exists t, PlayState.pausedTime data = Some t
                            /\ 0 <= t <= VideoView.duration vv)
              /\ ConductorView.latestPlayState vc' = Some data
              /\ modelTriple (fst (modelHearsAll calls m)) = data.
Proof.
  intros Hr Hv Hdur.
  unfold TimeBarView.onPointerDown, TimeBarView.dragAtOffset. rewrite Hr.
  cbn [negb TimeBarView.lastDragProportion TimeBarView.width
       TimeBarView.rootView TimeBarView.dragging].
  set (p := Qmax 0 (Qmin 1 (offsetX / inject_Z (Z.pos (TimeBarView.width b))))).
  assert (Hp : 0 <= p <= 1) by apply clamp01_bounds.
  destruct (strictEq (TimeBarView.lastDragProportion b) (Some p)).
  - split; [reflexivity|]. split; [simpl; lia|]. intros c [].
  - split; [reflexivity|]. split; [simpl; lia|].
    intros c [<-|[]]. cbn [conductorHears].
    unfold ConductorView.handleTimebar. rewrite Hv.
    set (data := PlayState.mk false None (Some (VideoView.duration vv * p))).
    unfold ConductorView.playStateChanged.
    destruct (match ConductorView.latestPlayState vc with
              | Some latest => PlayState.same data latest
              | None => false
              end).
    + do 2 eexists. split; [reflexivity|]. split; [simpl; lia|].
      intros d [].
    + unfold bind, emit.
      destruct (conductor_applyPlayState_ok sessionNow
                  (ConductorView.set_latestPlayState (Some data) vc)
                  vv data Hv eq_refl Hdur)
        as (vc' & rest & vv' & Happ & Hl' & _ & _ & Hpub & _).
      rewrite Happ. do 2 eexists. split; [reflexivity|].
      split; [simpl; rewrite Hpub; simpl; lia|].
      intros d [E|Hin].
      * injection E as <-.
        split; [reflexivity|]. split; [reflexivity|].
        split; [eexists; split; [reflexivity|];
                now apply proportion_of_duration|].
        split; [exact Hl'|].
        cbn [app modelHearsAll modelHears SyncedAudioModel.setPlayState].
        rewrite modelHearsAll_no_publish by exact Hpub.
        reflexivity.
      * exfalso.
        assert (X : In (ConductorView.PublishSetPlayState d)
                      (filter isPublish rest))
          by (apply filter_In; split; [exact Hin | reflexivity]).
        rewrite Hpub in X. exact X.
Qed.

Lemma scrub_pauses_within_media_witness :
  let b := TimeBarView.mk true false None 200 in
  let vv := VideoView.mk 100 true false (105 # 10) 1 in
  let vc := ConductorView.mk (Some vv) (Some (PlayState.mk true (Some 7900) None))
              false 0 None in
  let m := SyncedAudioModel.mk true (Some 7900) None (Some "X"%string) (Some "X"%string) in
  let '(b', cs) := TimeBarView.onPointerDown 250 b in
  TimeBarView.dragging b' = true
  /\ (List.length cs <= 1)%nat
  /\ forall c, In c cs ->
       exists vc' calls,
         conductorHears 18000 c vc = Some (vc', calls)
         /\ (List.length (filter isPublish calls) <= 1)%nat
         /\ forall data,
              In (ConductorView.PublishSetPlayState data) calls ->
              PlayState.isPlaying data = false
              /\ PlayState.startOffset data = None
              /\ (exists t, PlayState.pausedTime data = Some t
                            /\ 0 <= t <= VideoView.duration vv)
              /\ ConductorView.latestPlayState vc' = Some data
              /\ modelTriple (fst (modelHearsAll calls m)) = data.
Proof.
  apply (scrub_pauses_within_media 250 18000
           (TimeBarView.mk true false None 200)
           (ConductorView.mk
              (Some (VideoView.mk 100 true false (105 # 10) 1))
              (Some (PlayState.mk true (Some 7900) None)) false 0 None)
           (VideoView.mk 100 true false (105 # 10) 1)
           (SyncedAudioModel.mk true (Some 7900) None
              (Some "X"%string) (Some "X"%string))).
  - reflexivity.
  - reflexivity.
  - unfold Qle; simpl; lia.
Defined.

(** The scrub of the witness, right of a bar 200 pixels wide over a video of
    100 s: the conductor pauses the video at 99.9 s and publishes a pause at
    100 s. *)
Example scrub_example :
  let b := TimeBarView.mk true false None 200 in
  let vv := VideoView.mk 100 true false (105 # 10) 1 in
  let vc := ConductorView.mk (Some vv) (Some (PlayState.mk true (Some 7900) None))
              false 0 None in
  exists b' p vc' vv' t,
    TimeBarView.onPointerDown 250 b = (b', [TimeBarView.HandleTimebar p])
    /\ p == 1
    /\ ConductorView.handleTimebar 18000 p vc
       = Some (vc', [ConductorView.PublishSetPlayState
                       (PlayState.mk false None (Some t));
                     ConductorView.IconVisible "play" true;
                     ConductorView.Pause (Some t)])
    /\ t == 100
    /\ ConductorView.videoView vc' = Some vv'
    /\ VideoView.currentTime vv' == 999 # 10.
Proof.
  do 5 eexists. split; [vm_compute; reflexivity|].
  split; [reflexivity|]. split; [vm_compute; reflexivity|].
  split; [reflexivity|]. split; reflexivity.
Qed.

(** ** The model on its own *)

(** X19.  [setAssets] resets the play state whatever it was: paused at 0
    with no start offset, the two assets replaced, [assets-changed]
    published.  From then on [setStartOffset] is ignored until a
    [setPlayState] says playing; [setPlayState] keeps the assets and stores
    the triple it publishes, also when it is the triple the model already
    holds: the model does not filter repeated commands. *)
Theorem model_play_state_lifecycle (audio video : SyncedAudioModel.Asset)
    (value : Q) (data : PlayState.t) (m : SyncedAudioModel.t) :
  let '(m1, published1) := SyncedAudioModel.setAssets audio video m in
  let '(m2, published2) := SyncedAudioModel.setPlayState data m1 in
  let '(m3, published3) := SyncedAudioModel.setPlayState data m2 in
  published1 = [SyncedAudioModel.AssetsChanged]
  /\ modelTriple m1 = PlayState.mk false None (Some 0)
  /\ SyncedAudioModel.audioAsset m1 = Some audio
  /\ SyncedAudioModel.videoAsset m1 = Some video
  /\ SyncedAudioModel.setStartOffset value m1 = (m1, [])
  /\ published2 = [SyncedAudioModel.PlayStateChanged (modelTriple m2)]
  /\ modelTriple m2 = data
  /\ SyncedAudioModel.audioAsset m2 = Some audio
  /\ SyncedAudioModel.videoAsset m2 = Some video
  /\ m3 = m2
  /\ published3 = published2
  /\ (PlayState.isPlaying data = false ->
      SyncedAudioModel.setStartOffset value m2 = (m2, []))
  /\ (PlayState.isPlaying data = true ->
      modelTriple (fst (SyncedAudioModel.setStartOffset value m2))
      = PlayState.mk true (Some value) (PlayState.pausedTime data)
      /\ snd (SyncedAudioModel.setStartOffset value m2)
         = [SyncedAudioModel.StartOffsetChanged value]).
Proof.
  destruct data as [p so pt]. simpl.
  repeat split; try reflexivity;
    unfold SyncedAudioModel.setStartOffset; simpl;
    intros; subst; reflexivity.
Qed.

Lemma model_play_state_lifecycle_witness :
  let m := SyncedAudioModel.mk true (Some 7900) (Some 3) (Some "A"%string) (Some "B"%string) in
  let '(m1, _) := SyncedAudioModel.setAssets "X"%string "Y"%string m in
  modelTriple m1 = PlayState.mk false None (Some 0)
  /\ SyncedAudioModel.setStartOffset 1234 m1 = (m1, []).
Proof.
  pose proof (model_play_state_lifecycle "X"%string "Y"%string 1234
                (PlayState.mk false None (Some 12))
                (SyncedAudioModel.mk true (Some 7900) (Some 3)
                   (Some "A"%string) (Some "B"%string))) as H.
  simpl in H. destruct H as (_ & H1 & _ & _ & H2 & _).
  split; assumption.
Defined.

(** ** Starting together *)





(** ** The conductor does not repeat itself *)

Lemma conductor_applyPlayState_frame (sessionNow : Q)
    (v v' : ConductorView.t) (calls : list ConductorView.Call) :
  ConductorView.applyPlayState sessionNow v = Some (v', calls) ->
  ConductorView.latestPlayState v' = ConductorView.latestPlayState v
  /\ filter isPublish calls = []
  /\ (List.length (filter isVideoPlayOrPause calls) <= 1)%nat.
Proof.
  unfold ConductorView.applyPlayState, ConductorView.calculateVideoTime.
  destruct v as [a l wfs pb ltc]; cbn -[VideoView.play VideoView.pause].
  destruct a as [vv|]; [|intro H; injection H as <- <-; simpl; auto].
  destruct wfs; [intro H; injection H as <- <-; simpl; auto|].
  destruct l as [ps|]; [|discriminate].
  destruct (PlayState.isPlaying ps); cbn -[VideoView.play VideoView.pause].
  - destruct (VideoView.play _ _); [|discriminate].
    intro H; injection H as <- <-. simpl. auto.
  - destruct (VideoView.pause _ _); [|discriminate].
    intro H; injection H as <- <-. simpl. auto.
Qed.

(** X21.  The conductor publishes a play state at most once: whatever
    [playStateChanged] is given, it publishes at most one [set-play-state]
    and calls the video's [play] or [pause] at most once, and giving it the
    same state again right away publishes nothing, calls nothing and leaves
    the conductor as it is. *)
Theorem conductor_publishes_once (sessionNow sessionNow' : Q)
    (state : PlayState.t) (v v1 : ConductorView.t)
    (calls1 : list ConductorView.Call) :
  ConductorView.playStateChanged sessionNow state v = Some (v1, calls1) ->
  (List.length (filter isPublish calls1) <= 1)%nat
  /\ (List.length (filter isVideoPlayOrPause calls1) <= 1)%nat
  /\ (forall data, In (ConductorView.PublishSetPlayState data) calls1 ->
                   data = state)
  /\ ConductorView.playStateChanged sessionNow' state v1 = Some (v1, []).
Proof.
  unfold ConductorView.playStateChanged at 1.
  destruct (match ConductorView.latestPlayState v with
            | Some latest => PlayState.same state latest
            | None => false
            end) eqn:Heard.
  - intro H; injection H as <- <-.
    assert (Hagain : ConductorView.playStateChanged sessionNow' state v
                     = Some (v, []))
      by (unfold ConductorView.playStateChanged; now rewrite Heard).
    split; [simpl; lia|]. split; [simpl; lia|].
    split; [intros d []|]. exact Hagain.
  - unfold bind, emit.
    destruct (ConductorView.applyPlayState sessionNow
                (ConductorView.set_latestPlayState (Some state) v))
      as [[v' rest]|] eqn:Happ; [|discriminate].
    intro H; injection H as <- <-.
    apply conductor_applyPlayState_frame in Happ.
    destruct Happ as (Hl & Hpub & Hpp).
    assert (Hagain : ConductorView.playStateChanged sessionNow' state v'
                     = Some (v', [])).
    { unfold ConductorView.playStateChanged. rewrite Hl. simpl.
      now rewrite same_refl. }
    split; [simpl; rewrite Hpub; simpl; lia|].
    split; [simpl; exact Hpp|].
    split.
    + intros d [E|Hin]; [now injection E|].
      exfalso.
      assert (X : In (ConductorView.PublishSetPlayState d)
                    (filter isPublish rest))
        by (apply filter_In; split; [exact Hin | reflexivity]).
      rewrite Hpub in X. exact X.
    + exact Hagain.
Qed.

Lemma conductor_publishes_once_witness :
  let vv := VideoView.mk 100 true false (105 # 10) 1 in
  let v := ConductorView.mk (Some vv) (Some (PlayState.mk true (Some 7900) None))
             false 0 None in
  exists v1 calls1,
    ConductorView.playStateChanged 18000 (PlayState.mk false None (Some 50)) v
    = Some (v1, calls1)
    /\ ConductorView.playStateChanged 18100 (PlayState.mk false None (Some 50)) v1
       = Some (v1, []).
Proof.
  intros vv v.
  assert (Hrun : exists v1 calls1,
             ConductorView.playStateChanged 18000
               (PlayState.mk false None (Some 50)) v = Some (v1, calls1))
    by (do 2 eexists; vm_compute; reflexivity).
  destruct Hrun as (v1 & calls1 & Hrun).
  exists v1, calls1. split; [exact Hrun|].
  destruct (conductor_publishes_once 18000 18100 _ v v1 calls1 Hrun)
    as (_ & _ & _ & Hagain).
  exact Hagain.
Defined.
